(** * mini-cfo-copilot: the data-normalisation and metric pipeline

    A shallow embedding of [agent/tools.py]: the schema normaliser, the
    period normaliser, the currency converter, the category classifier and
    the metric engine, followed by the properties of the specification.

    Conventions of the model.
    - A pandas [DataFrame] is a header (column names with their dtype) and a
      list of labelled rows; a row maps a column name to a cell.  Column
      names are distinct, as [read_csv] delivers them.
    - A cell is missing ([NA], standing for NaN, NaT and None), text, a
      number or a timestamp.  Numbers are exact rationals: rounding, signed
      zeros and infinities read from a file are outside the model.
    - A value computed by a division is a [float]: a rational, an infinity or
      NaN, with the IEEE rules for the special cases.
    - What pandas, numpy and dateutil do on text (date parsing, number
      parsing, printing) is not part of this repository: it is a field of the
      class [Library] and every result holds for every such library.
    - An exception is a value [Raise e] of type [result]. *)

From Stdlib Require Import ZArith QArith Qabs List String Ascii Bool Lia Lqa.
From Stdlib Require Import Numbers.DecimalString Sorting.Sorted.
Import ListNotations.

Open Scope string_scope.
Open Scope list_scope.

(** ** Exceptions *)

Inductive exn : Type :=
| ValueError (msg : string)
| KeyError (key : string)
| TypeError.

Inductive result (A : Type) : Type :=
| OK (a : A)
| Raise (e : exn).

Arguments OK {A} a.
Arguments Raise {A} e.

Definition bind {A B : Type} (r : result A) (k : A -> result B) : result B :=
  match r with
  | OK a => k a
  | Raise e => Raise e
  end.

Notation "x <- e ;; k" := (bind e (fun x => k))
  (at level 61, e at next level, right associativity).

Fixpoint mapM {A B : Type} (f : A -> result B) (l : list A) : result (list B) :=
  match l with
  | [] => OK []
  | a :: l' => b <- f a ;; bs <- mapM f l' ;; OK (b :: bs)
  end.

(** ** Python strings *)

Definition is_upper (c : ascii) : bool :=
  let n := nat_of_ascii c in (65 <=? n)%nat && (n <=? 90)%nat.

Definition is_digit (c : ascii) : bool :=
  let n := nat_of_ascii c in (48 <=? n)%nat && (n <=? 57)%nat.

Definition is_lower (c : ascii) : bool :=
  let n := nat_of_ascii c in (97 <=? n)%nat && (n <=? 122)%nat.

Definition lower_ascii (c : ascii) : ascii :=
  if is_upper c then ascii_of_nat (nat_of_ascii c + 32) else c.

(** [s.lower()] *)
Fixpoint lower (s : string) : string :=
  match s with
  | EmptyString => EmptyString
  | String c s' => String (lower_ascii c) (lower s')
  end.

(** [s.startswith(p)] *)
Fixpoint startswith (p s : string) : bool :=
  match p, s with
  | EmptyString, _ => true
  | String a p', String b s' => Ascii.eqb a b && startswith p' s'
  | String _ _, EmptyString => false
  end.

(** [p in s]: the text [p] occurs in [s]. *)
Fixpoint contains (p s : string) : bool :=
  startswith p s ||
  match s with
  | EmptyString => false
  | String _ s' => contains p s'
  end.

(** The whitespace of [str.strip()], within ASCII. *)
Definition is_space (c : ascii) : bool :=
  let n := nat_of_ascii c in
  ((9 <=? n)%nat && (n <=? 13)%nat) || ((28 <=? n)%nat && (n <=? 32)%nat).

Fixpoint lstrip (s : string) : string :=
  match s with
  | EmptyString => EmptyString
  | String c s' => if is_space c then lstrip s' else s
  end.

Fixpoint rstrip (s : string) : string :=
  match s with
  | EmptyString => EmptyString
  | String c s' =>
      match rstrip s' with
      | EmptyString => if is_space c then EmptyString else String c EmptyString
      | t => String c t
      end
  end.

(** [s.strip()] *)
Definition strip (s : string) : string := rstrip (lstrip s).

(** [s.replace(" ", "_")] *)
Fixpoint replace_spaces (s : string) : string :=
  match s with
  | EmptyString => EmptyString
  | String c s' =>
      String (if Ascii.eqb c " "%char then "_"%char else c) (replace_spaces s')
  end.

Fixpoint filter_chars (f : ascii -> bool) (s : string) : string :=
  match s with
  | EmptyString => EmptyString
  | String c s' => if f c then String c (filter_chars f s') else filter_chars f s'
  end.

(** [s[:n]] and [s[n:]] *)
Fixpoint take (n : nat) (s : string) : string :=
  match n, s with
  | S n', String c s' => String c (take n' s')
  | _, _ => EmptyString
  end.

Fixpoint drop (n : nat) (s : string) : string :=
  match n, s with
  | S n', String _ s' => drop n' s'
  | _, _ => s
  end.

(** [", ".join(l)] *)
Fixpoint join (sep : string) (l : list string) : string :=
  match l with
  | [] => EmptyString
  | [s] => s
  | s :: l' => s ++ sep ++ join sep l'
  end.

(** The regular expression class [\w], within ASCII. *)
Definition is_word (c : ascii) : bool :=
  is_upper c || is_lower c || is_digit c || Ascii.eqb c "_"%char.

Definition is_word_opt (c : option ascii) : bool :=
  match c with
  | Some a => is_word a
  | None => false
  end.

(** [\b] between the characters [prev] and [next]. *)
Definition word_boundary (prev next : option ascii) : bool :=
  xorb (is_word_opt prev) (is_word_opt next).

Definition head_char (s : string) : option ascii :=
  match s with
  | EmptyString => None
  | String c _ => Some c
  end.

Fixpoint last_char (prev : option ascii) (s : string) : option ascii :=
  match s with
  | EmptyString => prev
  | String c s' => last_char (Some c) s'
  end.

(** The regular expression [\b p \b], for a literal [p], matches at the start
    of [s], the character before being [prev]. *)
Definition word_match_here (prev : option ascii) (p s : string) : bool :=
  word_boundary prev (head_char s) &&
  startswith p s &&
  word_boundary (last_char prev p) (head_char (drop (String.length p) s)).

(** [re.search(r"\b" + p + r"\b", s)] finds a match. *)
Fixpoint word_search_from (prev : option ascii) (p s : string) : bool :=
  word_match_here prev p s ||
  match s with
  | EmptyString => false
  | String c s' => word_search_from (Some c) p s'
  end.

Definition word_search (p s : string) : bool := word_search_from None p s.

(** ** Timestamps *)

Record date : Type := mkdate { year : Z; month : Z; day : Z }.

(** [t.to_period("M").to_timestamp()] *)
Definition month_start (t : date) : date := mkdate (year t) (month t) 1.

Definition date_eqb (a b : date) : bool :=
  (year a =? year b)%Z && (month a =? month b)%Z && (day a =? day b)%Z.

Definition date_ltb (a b : date) : bool :=
  (year a <? year b)%Z ||
  ((year a =? year b)%Z &&
   ((month a <? month b)%Z || ((month a =? month b)%Z && (day a <? day b)%Z))).

Definition date_leb (a b : date) : bool := negb (date_ltb b a).

Definition month_name (m : Z) : string :=
  match m with
  | 1%Z => "January" | 2%Z => "February" | 3%Z => "March" | 4%Z => "April"
  | 5%Z => "May" | 6%Z => "June" | 7%Z => "July" | 8%Z => "August"
  | 9%Z => "September" | 10%Z => "October" | 11%Z => "November"
  | 12%Z => "December" | _ => ""
  end.

Definition Z_to_string (z : Z) : string := NilZero.string_of_int (Z.to_int z).

(** [t.strftime("%B %Y")] *)
Definition strftime_B_Y (t : date) : string :=
  month_name (month t) ++ " " ++ Z_to_string (year t).

(** ** Cells and frames *)

Inductive cell : Type :=
| NA
| Str (s : string)
| Num (x : Q)
| Ts (t : date).

Inductive dtype : Type := DObject | DNumber | DDatetime.

Definition is_number (d : dtype) : bool :=
  match d with DNumber => true | _ => false end.

Definition notna (c : cell) : bool :=
  match c with NA => false | _ => true end.

(** Equality of join keys and of group keys; a missing key equals a missing
    key, as in [DataFrame.merge]. *)
Definition cell_eqb (a b : cell) : bool :=
  match a, b with
  | NA, NA => true
  | Str s, Str s' => String.eqb s s'
  | Num x, Num y => Qeq_bool x y
  | Ts t, Ts t' => date_eqb t t'
  | _, _ => false
  end.

Record row : Type := mkrow { label : nat; at_ : string -> cell }.

Record DataFrame : Type := mkDF {
  columns : list (string * dtype);
  rows : list row
}.

(** [pd.DataFrame()] *)
Definition empty_frame : DataFrame := mkDF [] [].

Definition names (df : DataFrame) : list string := map fst (columns df).

Definition mem (c : string) (l : list string) : bool := existsb (String.eqb c) l.

(** [c in df.columns] *)
Definition has_col (df : DataFrame) (c : string) : bool := mem c (names df).

(** [df[c]], the values only. *)
Definition series (df : DataFrame) (c : string) : list cell :=
  map (fun r => at_ r c) (rows df).

Definition update (r : row) (c : string) (v : cell) : row :=
  mkrow (label r) (fun c' => if String.eqb c' c then v else at_ r c').

Fixpoint set_dtype (c : string) (d : dtype) (h : list (string * dtype))
  : list (string * dtype) :=
  match h with
  | [] => [(c, d)]
  | (c', d') :: h' =>
      if String.eqb c' c then (c, d) :: h' else (c', d') :: set_dtype c d h'
  end.

(** [df[c] = f(row)], an assignment computed row by row: the column is
    replaced where it stands or added last. *)
Definition assign (df : DataFrame) (c : string) (d : dtype) (f : row -> cell)
  : DataFrame :=
  mkDF (set_dtype c d (columns df)) (map (fun r => update r c (f r)) (rows df)).

(** [df[c] = s] for a series [s] with a fresh [RangeIndex]: the assignment
    aligns on the labels, and a label without a partner gets a missing
    value. *)
Definition assign_aligned (df : DataFrame) (c : string) (d : dtype)
  (s : list cell) : DataFrame :=
  assign df c d (fun r => nth (label r) s NA).

(** [df[mask]] for a mask computed row by row. *)
Definition filter_rows (p : row -> bool) (df : DataFrame) : DataFrame :=
  mkDF (columns df) (filter p (rows df)).

Definition dtype_of (df : DataFrame) (c : string) : dtype :=
  match find (fun cd => String.eqb (fst cd) c) (columns df) with
  | Some cd => snd cd
  | None => DObject
  end.

(** [df.select_dtypes(include=[np.number]).columns.tolist()] *)
Definition numeric_columns (df : DataFrame) : list string :=
  map fst (filter (fun cd => is_number (snd cd)) (columns df)).

(** The fresh [RangeIndex] of a new frame. *)
Fixpoint relabel_from (n : nat) (l : list row) : list row :=
  match l with
  | [] => []
  | r :: l' => mkrow n (at_ r) :: relabel_from (S n) l'
  end.

Definition relabel (l : list row) : list row := relabel_from 0 l.

(** ** Floating-point results *)

Inductive float : Type :=
| Fin (q : Q)
| PInf
| NInf
| NaN.

Definition Qzero (q : Q) : bool := Qeq_bool q 0.
Definition Qpos (q : Q) : bool := negb (Qle_bool q 0).
Definition Qneg (q : Q) : bool := negb (Qle_bool 0 q).

Definition fneg (a : float) : float :=
  match a with
  | Fin q => Fin (- q)
  | PInf => NInf
  | NInf => PInf
  | NaN => NaN
  end.

Definition fadd (a b : float) : float :=
  match a, b with
  | NaN, _ | _, NaN => NaN
  | Fin x, Fin y => Fin (x + y)
  | PInf, NInf | NInf, PInf => NaN
  | PInf, _ | _, PInf => PInf
  | NInf, _ | _, NInf => NInf
  end.

Definition fsub (a b : float) : float := fadd a (fneg b).

Definition finf_signed (positive : bool) : float := if positive then PInf else NInf.

Definition fmul (a b : float) : float :=
  match a, b with
  | NaN, _ | _, NaN => NaN
  | Fin x, Fin y => Fin (x * y)
  | Fin x, PInf | PInf, Fin x =>
      if Qzero x then NaN else finf_signed (Qpos x)
  | Fin x, NInf | NInf, Fin x =>
      if Qzero x then NaN else finf_signed (Qneg x)
  | PInf, PInf | NInf, NInf => PInf
  | PInf, NInf | NInf, PInf => NInf
  end.

(** Division as numpy does it: a division by zero is not an exception. *)
Definition fdiv (a b : float) : float :=
  match a, b with
  | NaN, _ | _, NaN => NaN
  | Fin x, Fin y =>
      if Qzero y then (if Qzero x then NaN else finf_signed (Qpos x))
      else Fin (x / y)
  | Fin _, PInf | Fin _, NInf => Fin 0
  | PInf, Fin y => finf_signed (Qle_bool 0 y)
  | NInf, Fin y => finf_signed (Qneg y)
  | _, _ => NaN
  end.

(** [a <= b] on floats: false as soon as one side is NaN. *)
Definition fle (a b : float) : Prop :=
  match a, b with
  | NaN, _ | _, NaN => False
  | NInf, _ => True
  | _, PInf => True
  | Fin x, Fin y => (x <= y)%Q
  | _, _ => False
  end.

(** [np.isfinite] *)
Definition isfinite (a : float) : bool :=
  match a with Fin _ => true | _ => false end.

(** ** The libraries *)

(** What pandas, numpy and dateutil compute from text and numbers.  [None]
    stands for a value that does not parse: a missing value under
    [errors="coerce"], an exception where the call raises. *)
Class Library : Type := {
  (** [pd.to_datetime] on a text *)
  parse_date : string -> option date;
  (** [pd.to_datetime] on a number *)
  num_to_date : Q -> option date;
  (** [pd.to_numeric] on a text *)
  str_to_num : string -> option Q;
  (** [pd.to_numeric] on a timestamp *)
  ts_to_num : date -> option Q;
  (** [str(x)] on a number and on a timestamp *)
  num_repr : Q -> string;
  ts_repr : date -> string;
  (** [Series.astype(int)] on one value *)
  astype_int : cell -> option Z;
  (** [int(s)] *)
  py_int : string -> option Z;
  (** [dateutil.parser.parse] *)
  dtparse : string -> option date;
  (** [pd.to_datetime({"year": y, "month": m, "day": 1})] on one row *)
  assemble : Z -> Z -> option date
}.

Section Pipeline.

Context {L : Library}.

(** ** pandas on one value *)

(** [pd.to_datetime(x, errors="coerce")]: [None] is NaT. *)
Definition to_datetime (c : cell) : option date :=
  match c with
  | NA => None
  | Str s => parse_date s
  | Num x => num_to_date x
  | Ts t => Some t
  end.

(** [pd.to_numeric(x, errors="coerce")]: [None] is NaN. *)
Definition to_numeric (c : cell) : option Q :=
  match c with
  | NA => None
  | Str s => str_to_num s
  | Num x => Some x
  | Ts t => ts_to_num t
  end.

(** [Series.astype(str)] on one value. *)
Definition astype_str (c : cell) : string :=
  match c with
  | NA => "nan"
  | Str s => s
  | Num x => num_repr x
  | Ts t => ts_repr t
  end.

Definition is_some {A : Type} (o : option A) : bool :=
  match o with Some _ => true | None => false end.

(** [ts.dt.to_period("M").dt.to_timestamp()] on one value. *)
Definition to_month (o : option date) : cell :=
  match o with
  | Some t => Ts (month_start t)
  | None => NA
  end.

Definition num_cell (o : option Q) : cell :=
  match o with
  | Some x => Num x
  | None => NA
  end.

(** [ts.notna().mean()]: [None] is the NaN of an empty series. *)
Definition notna_mean (ts : list (option date)) : option Q :=
  match ts with
  | [] => None
  | _ => Some (Z.of_nat (List.length (filter is_some ts)) # Pos.of_nat (List.length ts))
  end.

Definition Qlt_bool (a b : Q) : bool := negb (Qle_bool b a).

(** [df[c] = s] for a series [s] that carries the index of [df]. *)
Fixpoint set_values (c : string) (l : list row) (s : list cell) : list row :=
  match l, s with
  | r :: l', v :: s' => update r c v :: set_values c l' s'
  | _, _ => []
  end.

Definition set_column (df : DataFrame) (c : string) (d : dtype) (s : list cell)
  : DataFrame :=
  mkDF (set_dtype c d (columns df)) (set_values c (rows df) s).

(** ** Flexible time normalization *)

Definition try_parse_series (s : list cell) (require_ratio : Q)
  : option (list cell) :=
  let ts := map to_datetime s in
  match notna_mean ts with
  | Some ok_ratio =>
      if Qle_bool require_ratio ok_ratio then Some (map to_month ts) else None
  | None => None
  end.

(** [df.columns[cols.index(lc)]] where [cols] are the lower-cased names. *)
Definition column_at_lower (df : DataFrame) (lc : string) : option string :=
  find (fun c => String.eqb (lower c) lc) (names df).

Definition date_keywords : list string :=
  ["date"; "month_year"; "mnth_yr"; "monthyr"; "yr_mo"; "yyyymm";
   "period_start"; "period_end"; "time"].

Definition date_candidates (df : DataFrame) : list string :=
  filter (fun c => existsb (fun k => contains k c) date_keywords)
         (map lower (names df)).

(** The loop over the date-like columns: the first that parses at 60%. *)
Fixpoint first_date_candidate (df : DataFrame) (cands : list string)
  : option (list cell) :=
  match cands with
  | [] => None
  | dc :: rest =>
      match column_at_lower df dc with
      | Some c =>
          match try_parse_series (series df c) (6 # 10) with
          | Some parsed => Some parsed
          | None => first_date_candidate df rest
          end
      | None => first_date_candidate df rest
      end
  end.

Definition first_in (cands cols : list string) : option string :=
  find (fun n => mem n cols) cands.

Definition to_month_number (x : cell) : result Z :=
  match py_int (strip (astype_str x)) with
  | Some n => OK n
  | None =>
      match dtparse (astype_str x) with
      | Some t => OK (month t)
      | None => Raise (ValueError "Unknown string format")
      end
  end.

Definition astype_int_series (s : list cell) : result (list Z) :=
  mapM (fun c => match astype_int c with
                 | Some n => OK n
                 | None => Raise (ValueError "cannot convert to integer")
                 end) s.

(** [pd.to_datetime({"year": ys, "month": ms, "day": 1})] *)
Definition assemble_series (ys ms : list Z) : result (list cell) :=
  mapM (fun ym => match assemble (fst ym) (snd ym) with
                  | Some t => OK (Ts t)
                  | None => Raise (ValueError "cannot assemble the datetimes")
                  end) (combine ys ms).

Definition year_month_period (df : DataFrame) (ycol mcol : string)
  : result (list cell) :=
  ys <- astype_int_series
          (series df (match column_at_lower df ycol with Some c => c | None => ycol end)) ;;
  ms <- mapM to_month_number
          (series df (match column_at_lower df mcol with Some c => c | None => mcol end)) ;;
  assemble_series ys ms.

Definition timeish_keywords : list string :=
  ["time"; "month"; "date"; "yyyymm"; "yrmo"].

(** The characters that [str.replace(r"[^0-9-/_ ]", "")] keeps. *)
Definition keeps (c : ascii) : bool :=
  is_digit c || Ascii.eqb c "-"%char || Ascii.eqb c "/"%char ||
  Ascii.eqb c "_"%char || Ascii.eqb c " "%char.

(** [np.where(s.str.len()==6, s.str[:4]+"-"+s.str[4:6], s)] on one value. *)
Definition yyyymm_fix (s : string) : string :=
  if Nat.eqb (String.length s) 6 then take 4 s ++ "-" ++ take 2 (drop 4 s) else s.

Definition clean_timeish (c : cell) : cell :=
  Str (yyyymm_fix (filter_chars keeps (astype_str c))).

Fixpoint first_timeish (df : DataFrame) (cols : list string)
  : option (list cell) :=
  match cols with
  | [] => None
  | c :: rest =>
      if existsb (fun k => contains k (lower c)) timeish_keywords then
        match try_parse_series (map clean_timeish (series df c)) (6 # 10) with
        | Some parsed => Some parsed
        | None => first_timeish df rest
        end
      else first_timeish df rest
  end.

(** The brute-force loop: the state is [(best, best_score)]. *)
Definition brute_force_step (df : DataFrame)
  (st : option (list (option date)) * Q) (c : string)
  : option (list (option date)) * Q :=
  let ts := map to_datetime (series df c) in
  match notna_mean ts with
  | Some score =>
      if Qle_bool (6 # 10) score && Qlt_bool (snd st) score
      then (Some ts, score) else st
  | None => st
  end.

Definition brute_force (df : DataFrame) : option (list (option date)) :=
  fst (fold_left (brute_force_step df) (names df) (None, (-1)%Q)).

Definition no_time_column (df : DataFrame) : exn :=
  ValueError
    ("Expected a recognizable time column (date/year+month/period). Found columns: "
     ++ join ", " (names df)).

(** The strategies after the fast path. *)
Definition slow_period_columns (df : DataFrame) : result DataFrame :=
  match first_date_candidate df (date_candidates df) with
  | Some parsed => OK (set_column df "period" DDatetime parsed)
  | None =>
      let cols := map lower (names df) in
      match first_in ["year"; "yr"] cols, first_in ["month"; "mo"; "mnth"; "mth"] cols with
      | Some ycol, Some mcol =>
          p <- year_month_period df ycol mcol ;;
          OK (set_column df "period" DDatetime p)
      | _, _ =>
          match first_timeish df (names df) with
          | Some parsed => OK (assign_aligned df "period" DDatetime parsed)
          | None =>
              match brute_force df with
              | Some best => OK (set_column df "period" DDatetime (map to_month best))
              | None => Raise (no_time_column df)
              end
          end
      end
  end.

Definition _ensure_period_columns (df : DataFrame) : result DataFrame :=
  match column_at_lower df "period" with
  | Some c =>
      let ts_any := map to_datetime (series df c) in
      if existsb is_some ts_any
      then OK (set_column df "period" DDatetime (map to_month ts_any))
      else slow_period_columns df
  | None => slow_period_columns df
  end.

(** ** Flexible schema normalization *)

Definition normalize_name (c : string) : string :=
  replace_spaces (lower (strip c)).

(** [df.columns = [...]]: the cells stay, the names change. *)
Definition rename_columns (f : string -> string) (df : DataFrame) : DataFrame :=
  mkDF (map (fun cd => (f (fst cd), snd cd)) (columns df))
       (map (fun r => mkrow (label r)
                        (fun c' => match find (fun c => String.eqb (f c) c') (names df) with
                                   | Some c => at_ r c
                                   | None => NA
                                   end))
            (rows df)).

Definition pick (df : DataFrame) (candidates : list string) : option string :=
  find (has_col df) candidates.

Definition account_aliases : list string :=
  ["account"; "account_name"; "gl_account"; "line_item"; "line"; "category";
   "acct"; "name"; "acct_name"; "account_title"; "account_category"].

Definition amount_aliases : list string :=
  ["amount"; "value"; "usd"; "total"; "amount_usd"; "net"; "balance"; "amt"].

Definition currency_aliases : list string := ["currency"; "ccy"; "curr"; "fx"].

Definition entity_aliases : list string :=
  ["entity"; "company"; "business_unit"; "bu"; "org"; "division"].

(** The truth value of [col] in [if col and ...]: [None] and the empty text
    are false. *)
Definition truthy (o : option string) : bool :=
  match o with
  | Some s => negb (String.eqb s "")
  | None => false
  end.

Definition copy_column (df : DataFrame) (target : string) (src : option string)
  : DataFrame :=
  match src with
  | Some c =>
      if truthy src && negb (has_col df target)
      then assign df target (dtype_of df c) (fun r => at_ r c)
      else df
  | None => df
  end.

Definition numeric_column (df : DataFrame) (target : string) (src : option string)
  : DataFrame :=
  match src with
  | Some c =>
      if truthy src && negb (has_col df target)
      then assign df target DNumber (fun r => num_cell (to_numeric (at_ r c)))
      else df
  | None => df
  end.

Definition _standardize_schema (df0 : DataFrame) : DataFrame :=
  let df := rename_columns normalize_name df0 in
  let account_col := pick df account_aliases in
  let amount_col := pick df amount_aliases in
  let currency_col := pick df currency_aliases in
  let entity_col := pick df entity_aliases in
  let amount_col :=
    match amount_col with
    | Some c => Some c
    | None =>
        hd_error (filter (fun c => negb (mem c ["rate"; "rate_to_usd"]))
                         (numeric_columns df))
    end in
  let df := copy_column df "account" account_col in
  let df := numeric_column df "amount" amount_col in
  let df := copy_column df "currency" currency_col in
  copy_column df "entity" entity_col.

(** ** IO helpers *)

(** The four files of the fixtures directory, as [_read_csvs] returns them. *)
Record Fixtures : Type := mkFixtures {
  actuals_csv : DataFrame;
  budget_csv : DataFrame;
  fx_csv : DataFrame;
  cash_csv : DataFrame
}.

Record Loaded : Type := mkLoaded {
  actuals : DataFrame;
  budget : DataFrame;
  fx : DataFrame;
  cash : DataFrame
}.

Definition load_data (files : Fixtures) : result Loaded :=
  let actuals := _standardize_schema (actuals_csv files) in
  let budget := _standardize_schema (budget_csv files) in
  let fx := _standardize_schema (fx_csv files) in
  let cash := _standardize_schema (cash_csv files) in
  actuals <- _ensure_period_columns actuals ;;
  budget <- _ensure_period_columns budget ;;
  cash <- _ensure_period_columns cash ;;
  fx <- _ensure_period_columns fx ;;
  OK (mkLoaded actuals budget fx cash).

(** ** FX conversion *)

Definition rate_column (fx : DataFrame) : result string :=
  if has_col fx "rate_to_usd" then OK "rate_to_usd"
  else if has_col fx "rate" then OK "rate"
  else Raise (ValueError "FX CSV must include 'rate_to_usd' or 'rate' column").

(** The join condition [on=["period","currency"]]. *)
Definition key_match (r f : row) : bool :=
  cell_eqb (at_ r "period") (at_ f "period") &&
  cell_eqb (at_ r "currency") (at_ f "currency").

(** The rows that a left join makes of the left row [r]: one per matching
    rate, in the order of the FX table, or one with a missing rate. *)
Definition join_row (fx : DataFrame) (rate_col : string) (r : row) : list row :=
  match filter (key_match r) (rows fx) with
  | [] => [update r "rate_to_usd" NA]
  | matches => map (fun f => update r "rate_to_usd" (at_ f rate_col)) matches
  end.

(** [df.merge(fx[["period","currency",rate_col]].rename(columns={rate_col:"rate_to_usd"}),
    on=["period","currency"], how="left")].  A frame that already has a column
    [rate_to_usd] gets the two columns [rate_to_usd_x] and [rate_to_usd_y]
    instead, and the next statement, which reads [merged["rate_to_usd"]],
    raises. *)
Definition merge_rates (df fx : DataFrame) (rate_col : string) : result DataFrame :=
  if negb (has_col fx "currency") then Raise (KeyError "currency")
  else if has_col df "rate_to_usd" then Raise (KeyError "rate_to_usd")
  else OK (mkDF (columns df ++ [("rate_to_usd", dtype_of fx rate_col)])
                (relabel (flat_map (join_row fx rate_col) (rows df)))).

(** [s.fillna(v)] on one value. *)
Definition fillna (v : cell) (c : cell) : cell :=
  match c with
  | NA => v
  | _ => c
  end.

(** [pd.to_numeric(x, errors="coerce")] followed by [fillna(0)]. *)
Definition amount_value (amount_col : string) (r : row) : Q :=
  match to_numeric (at_ r amount_col) with
  | Some x => x
  | None => 0
  end.

Definition is_num (c : cell) : bool :=
  match c with Num _ => true | _ => false end.

(** The number in a cell of a numeric column; a missing value counts for
    nothing in a sum. *)
Definition cell_value (c : cell) : Q :=
  match c with
  | Num x => x
  | _ => 0
  end.

Definition resolve_amount_col (merged : DataFrame) (amount_col : string)
  : result string :=
  if has_col merged amount_col then OK amount_col
  else
    match filter (fun c => negb (String.eqb c "rate_to_usd")) (numeric_columns merged) with
    | c :: _ => OK c
    | [] => Raise (ValueError "No amount-like numeric column found for FX conversion.")
    end.

(** [if "currency" not in df.columns: df["currency"] = "USD"] *)
Definition with_currency (df : DataFrame) : DataFrame :=
  if has_col df "currency" then df
  else assign df "currency" DObject (fun _ => Str "USD").

(** [merged["rate_to_usd"] = merged["rate_to_usd"].fillna(1.0)] *)
Definition fill_rates (merged : DataFrame) : DataFrame :=
  assign merged "rate_to_usd" (dtype_of merged "rate_to_usd")
         (fun r => fillna (Num 1) (at_ r "rate_to_usd")).

(** [amount.fillna(0) * merged["rate_to_usd"]]: a number times a text or a
    timestamp is a [TypeError]. *)
Definition convert_amounts (merged : DataFrame) (amount_col : string)
  : result DataFrame :=
  if forallb (fun r => is_num (at_ r "rate_to_usd")) (rows merged)
  then OK (assign merged "amount_usd" DNumber
             (fun r => Num (amount_value amount_col r * cell_value (at_ r "rate_to_usd"))))
  else Raise TypeError.

Definition _fx_to_usd (df fx : DataFrame) (amount_col : string) : result DataFrame :=
  let df := with_currency df in
  rate_col <- rate_column fx ;;
  df <- _ensure_period_columns df ;;
  fx <- _ensure_period_columns fx ;;
  merged <- merge_rates df fx rate_col ;;
  let merged := fill_rates merged in
  amount_col <- resolve_amount_col merged amount_col ;;
  convert_amounts merged amount_col.

(** The joined table of [_fx_to_usd], rates filled, before the amounts are
    converted. *)
Definition fx_merged (df fx : DataFrame) : result DataFrame :=
  rate_col <- rate_column fx ;;
  df <- _ensure_period_columns (with_currency df) ;;
  fx <- _ensure_period_columns fx ;;
  merged <- merge_rates df fx rate_col ;;
  OK (fill_rates merged).

(** ** Label helpers (account/entity fallback) *)

(** The label of one row; the series is the function of the row. *)
Definition _label_series (df : DataFrame) (r : row) : cell :=
  if has_col df "account" then Str (astype_str (at_ r "account"))
  else if has_col df "entity" then Str (astype_str (at_ r "entity"))
  else NA.

Definition _is_revenue_labels (labels : row -> cell) (r : row) : bool :=
  let s := lower (astype_str (labels r)) in
  String.eqb s "revenue" || word_search "sales" s.

Definition _is_cogs_labels (labels : row -> cell) (r : row) : bool :=
  let s := lower (astype_str (labels r)) in
  String.eqb s "cogs" || contains "cost of goods" s.

Definition _is_opex_labels (labels : row -> cell) (r : row) : bool :=
  let s := lower (astype_str (labels r)) in
  startswith "opex" s || contains "operating expense" s.

(** The three tests on the label of one row. *)
Definition is_revenue (lbl : cell) : bool :=
  _is_revenue_labels (fun _ => lbl) (mkrow 0 (fun _ => NA)).

Definition is_cogs (lbl : cell) : bool :=
  _is_cogs_labels (fun _ => lbl) (mkrow 0 (fun _ => NA)).

Definition is_opex (lbl : cell) : bool :=
  _is_opex_labels (fun _ => lbl) (mkrow 0 (fun _ => NA)).

(** ** Series helpers of the metric engine *)

Fixpoint Qsum (l : list Q) : Q :=
  match l with
  | [] => 0
  | x :: l' => x + Qsum l'
  end.

(** [df["amount_usd"].sum()] *)
Definition sum_amount_usd (l : list row) : Q :=
  Qsum (map (fun r => cell_value (at_ r "amount_usd")) l).

(** [x.eq(period)] on one value: a missing timestamp equals nothing. *)
Definition period_eq (c period : cell) : bool :=
  match c, period with
  | Ts a, Ts b => date_eqb a b
  | _, _ => false
  end.

(** [float(df[df["period"].eq(period)]["amount_usd"].sum())] *)
Definition sum_at_period (df : DataFrame) (period : cell) : Q :=
  sum_amount_usd (filter (fun r => period_eq (at_ r "period") period) (rows df)).

Fixpoint insert_by {A : Type} (leb : A -> A -> bool) (x : A) (l : list A) : list A :=
  match l with
  | [] => [x]
  | y :: l' => if leb x y then x :: l else y :: insert_by leb x l'
  end.

(** A stable sort. *)
Definition sort_by {A : Type} (leb : A -> A -> bool) (l : list A) : list A :=
  fold_right (insert_by leb) [] l.

(** [s.unique()]: the values in the order of their first appearance. *)
Fixpoint unique_by {A : Type} (eqb : A -> A -> bool) (l : list A) : list A :=
  match l with
  | [] => []
  | x :: l' => x :: filter (fun y => negb (eqb x y)) (unique_by eqb l')
  end.

(** The order of timestamps, a missing one last as [sort_values] places it. *)
Definition period_leb (a b : cell) : bool :=
  match a, b with
  | _, NA => true
  | NA, _ => false
  | Ts x, Ts y => date_leb x y
  | Ts _, _ => false
  | _, _ => true
  end.

(** [sorted(l)] on timestamps.  Python compares a missing timestamp as
    neither smaller nor larger and leaves it where the input order puts it;
    the model is exact on the lists that hold no missing timestamp. *)
Definition py_sorted (l : list cell) : list cell := sort_by period_leb l.

(** [df.sort_values("period")] *)
Definition sort_values_period (l : list row) : list row :=
  sort_by (fun a b => period_leb (at_ a "period") (at_ b "period")) l.

(** [l[-n:]] and [df.tail(n)] for [n >= 0]. *)
Definition tail {A : Type} (n : nat) (l : list A) : list A :=
  skipn (List.length l - n) l.

Definition timestamps (l : list cell) : list date :=
  flat_map (fun c => match c with Ts t => [t] | _ => [] end) l.

(** [s.max()] on a column of timestamps: missing when none is present. *)
Definition series_max (l : list cell) : cell :=
  match timestamps l with
  | [] => NA
  | t :: ts => Ts (fold_left (fun m x => if date_ltb m x then x else m) ts t)
  end.

(** The keys of [df.groupby("period")]: sorted, the missing one dropped. *)
Definition group_periods (df : DataFrame) : list date :=
  sort_by date_leb (unique_by date_eqb (timestamps (series df "period"))).

(** [df.groupby("period")["amount_usd"].sum()] *)
Definition groupby_period_sum (df : DataFrame) : list (date * Q) :=
  map (fun t => (t, sum_at_period df (Ts t))) (group_periods df).

(** The value of a grouped series at an index label: [None] when the label
    is not a key. *)
Definition lookup_period (g : list (date * Q)) (period : cell) : option Q :=
  match period with
  | Ts t =>
      match find (fun kv => date_eqb (fst kv) t) g with
      | Some kv => Some (snd kv)
      | None => None
      end
  | _ => None
  end.

(** [x.fillna(0.0)] on one number of a float column. *)
Definition fillna0 (o : option Q) : Q :=
  match o with
  | Some x => x
  | None => 0
  end.

(** ** Public tools *)

(** The month a tool is asked about: [month_text] parsed, or the latest
    month of the actuals. *)
Definition resolve_period (month_text : option string) (actuals : DataFrame)
  : result cell :=
  match month_text with
  | Some s =>
      if truthy month_text then
        match dtparse s with
        | Some t => OK (Ts (month_start t))
        | None => Raise (ValueError "Unknown string format")
        end
      else OK (series_max (series actuals "period"))
  | None => OK (series_max (series actuals "period"))
  end.

(** [period.strftime("%B %Y")] *)
Definition period_label (period : cell) : result string :=
  match period with
  | Ts t => OK (strftime_B_Y t)
  | _ => Raise (ValueError "NaTType does not support strftime")
  end.

Definition revenue_vs_budget (files : Fixtures) (month_text : option string)
  : result (Q * Q * string) :=
  d <- load_data files ;;
  period <- resolve_period month_text (actuals d) ;;
  let a_labels := _label_series (actuals d) in
  let b_labels := _label_series (budget d) in
  let a_mask := _is_revenue_labels a_labels in
  let b_mask := _is_revenue_labels b_labels in
  a_rev <- _fx_to_usd (filter_rows a_mask (actuals d)) (fx d) "amount" ;;
  b_rev <- _fx_to_usd (filter_rows b_mask (budget d)) (fx d) "amount" ;;
  let a := sum_at_period a_rev period in
  let b := sum_at_period b_rev period in
  lbl <- period_label period ;;
  OK (a, b, lbl).

Record gm_row : Type := mk_gm_row {
  gm_period : date;
  gm_revenue_usd : Q;
  gm_cogs_usd : Q;
  gm_pct : float
}.

(** [np.where(revenue == 0, np.nan, (revenue - cogs) / revenue * 100.0)] *)
Definition gm_pct_of (revenue_usd cogs_usd : Q) : float :=
  if Qzero revenue_usd then NaN
  else fmul (fdiv (Fin (revenue_usd - cogs_usd)) (Fin revenue_usd)) (Fin 100).

Definition gross_margin_trend (files : Fixtures) (last_n_months : nat)
  : result (list gm_row) :=
  d <- load_data files ;;
  let labels := _label_series (actuals d) in
  rev <- _fx_to_usd (filter_rows (_is_revenue_labels labels) (actuals d)) (fx d) "amount" ;;
  cogs <- _fx_to_usd (filter_rows (_is_cogs_labels labels) (actuals d)) (fx d) "amount" ;;
  let r := groupby_period_sum rev in
  let c := groupby_period_sum cogs in
  (* the outer join of the two grouped series, sorted on the index *)
  let keys := sort_by date_leb (unique_by date_eqb (map fst r ++ map fst c)) in
  let grp :=
    map (fun t =>
           let revenue_usd := fillna0 (lookup_period r (Ts t)) in
           let cogs_usd := fillna0 (lookup_period c (Ts t)) in
           mk_gm_row t revenue_usd cogs_usd (gm_pct_of revenue_usd cogs_usd))
        keys in
  OK (tail last_n_months grp).

Record ebitda_row : Type := mk_ebitda_row {
  e_period : cell;
  revenue_usd : Q;
  cogs_usd : Q;
  opex_usd : Q;
  ebitda_proxy_usd : Q
}.

Definition ebitda_proxy (files : Fixtures) : result (list ebitda_row) :=
  d <- load_data files ;;
  let labels := _label_series (actuals d) in
  rev <- _fx_to_usd (filter_rows (_is_revenue_labels labels) (actuals d)) (fx d) "amount" ;;
  cogs <- _fx_to_usd (filter_rows (_is_cogs_labels labels) (actuals d)) (fx d) "amount" ;;
  opex <- _fx_to_usd (filter_rows (_is_opex_labels labels) (actuals d)) (fx d) "amount" ;;
  (* the index is unique, so the final [sort_values("period")] fixes the order *)
  let idx := py_sorted (unique_by cell_eqb (series (actuals d) "period")) in
  let grp :=
    map (fun p =>
           let r := fillna0 (lookup_period (groupby_period_sum rev) p) in
           let c := fillna0 (lookup_period (groupby_period_sum cogs) p) in
           let o := fillna0 (lookup_period (groupby_period_sum opex) p) in
           mk_ebitda_row p r c o (r - c - o))
        idx in
  OK (sort_by (fun a b => period_leb (e_period a) (e_period b)) grp).

(** [float(s.mean()) if len(s) else float("nan")] *)
Definition mean_or_nan (l : list Q) : float :=
  match l with
  | [] => NaN
  | _ => Fin (Qsum l / (Z.of_nat (List.length l) # 1))
  end.

Definition fleb (a b : float) : bool :=
  match a, b with
  | NaN, _ | _, NaN => false
  | NInf, _ => true
  | _, PInf => true
  | Fin x, Fin y => Qle_bool x y
  | _, _ => false
  end.

(** The last statement of [cash_runway_months]. *)
Definition runway_of (cash_usd : Q) (avg_burn : float) : float :=
  if negb (isfinite avg_burn) || fleb avg_burn (Fin 0) then PInf
  else fdiv (Fin cash_usd) avg_burn.

(** The average net burn of the last three periods. *)
Definition avg_burn_of (files : Fixtures) : result float :=
  e <- ebitda_proxy files ;;
  let net_burn := map (fun x => - ebitda_proxy_usd x) e in
  OK (mean_or_nan (tail 3 net_burn)).

(** The latest cash balance in USD. *)
Definition latest_cash_usd (d : Loaded) : result Q :=
  cash_df <- _fx_to_usd (cash d) (fx d) "amount" ;;
  OK (sum_amount_usd (tail 1 (sort_values_period (rows cash_df)))).

Definition cash_runway_months (files : Fixtures) : result (Q * float) :=
  d <- load_data files ;;
  avg_burn <- avg_burn_of files ;;
  cash_usd <- latest_cash_usd d ;;
  OK (cash_usd, runway_of cash_usd avg_burn).

(** A dictionary under construction, then a row of [pd.DataFrame(results)]. *)
Definition empty_row (lbl : nat) : row := mkrow lbl (fun _ => NA).

(** [(a - b) / b * 100 if b != 0 else 0] *)
Definition pct_change_or_zero (a b : Q) : Q :=
  if negb (Qzero b) then (a - b) / b * 100 else 0.

(** [(revenue - cost) / revenue * 100 if revenue > 0 else 0] *)
Definition margin_pct_or_zero (revenue cost : Q) : Q :=
  if Qpos revenue then (revenue - cost) / revenue * 100 else 0.

(** The body of the loop of [monthly_comparison]. *)
Definition month_metrics (d : Loaded) (period : cell) : result row :=
  let period_data := update (empty_row 0) "period" period in
  let labels := _label_series (actuals d) in
  rev_data <- _fx_to_usd (filter_rows (_is_revenue_labels labels) (actuals d)) (fx d) "amount" ;;
  let revenue := sum_at_period rev_data period in
  let period_data := update period_data "revenue" (Num revenue) in
  cogs_data <- _fx_to_usd (filter_rows (_is_cogs_labels labels) (actuals d)) (fx d) "amount" ;;
  let cogs := sum_at_period cogs_data period in
  let period_data := update period_data "cogs" (Num cogs) in
  opex_data <- _fx_to_usd (filter_rows (_is_opex_labels labels) (actuals d)) (fx d) "amount" ;;
  let opex := sum_at_period opex_data period in
  let period_data := update period_data "opex" (Num opex) in
  let period_data :=
    update period_data "gross_margin_pct" (Num (margin_pct_or_zero revenue cogs)) in
  OK (update period_data "ebitda" (Num (revenue - cogs - opex))).

(** [df.loc[lbl, c] = v]: a new column is missing on the other rows. *)
Definition set_at (df : DataFrame) (lbl : nat) (c : string) (v : cell) : DataFrame :=
  let df := if has_col df c then df else assign df c DNumber (fun _ => NA) in
  mkDF (columns df)
       (map (fun r => if Nat.eqb (label r) lbl then update r c v else r) (rows df)).

(** [df.loc[lbl, c]] as a number. *)
Definition loc (df : DataFrame) (lbl : nat) (c : string) : Q :=
  match find (fun r => Nat.eqb (label r) lbl) (rows df) with
  | Some r => cell_value (at_ r c)
  | None => 0
  end.

Definition monthly_columns : list (string * dtype) :=
  [("period", DDatetime); ("revenue", DNumber); ("cogs", DNumber);
   ("opex", DNumber); ("gross_margin_pct", DNumber); ("ebitda", DNumber)].

Definition monthly_comparison (files : Fixtures) : result DataFrame :=
  d <- load_data files ;;
  let latest_periods := tail 2 (py_sorted (unique_by cell_eqb (series (actuals d) "period"))) in
  if (List.length latest_periods <? 2)%nat then OK empty_frame
  else
    results <- mapM (month_metrics d) latest_periods ;;
    let df := mkDF monthly_columns (relabel results) in
    if Nat.eqb (List.length (rows df)) 2 then
      let df := set_at df 1 "revenue_change"
                  (Num (pct_change_or_zero (loc df 1 "revenue") (loc df 0 "revenue"))) in
      let df := set_at df 1 "opex_change"
                  (Num (pct_change_or_zero (loc df 1 "opex") (loc df 0 "opex"))) in
      let df := set_at df 1 "ebitda_change"
                  (Num (pct_change_or_zero (loc df 1 "ebitda") (loc df 0 "ebitda"))) in
      let df := set_at df 1 "gm_change"
                  (Num (loc df 1 "gross_margin_pct" - loc df 0 "gross_margin_pct")) in
      OK df
    else OK df.

(** ** Statements of the specification *)

Definition count_true (l : list bool) : nat :=
  List.length (filter (fun b => b) l).

(** At most one of the three category tests accepts the label. *)
Definition at_most_one_category (lbl : cell) : Prop :=
  (count_true [is_revenue lbl; is_cogs lbl; is_opex lbl] <= 1)%nat.

(** The substring patterns of the three rules on a lower-cased label. *)
Definition sales_pattern (s : string) : bool := word_search "sales" s.
Definition cogs_pattern (s : string) : bool := contains "cost of goods" s.
Definition opex_pattern (s : string) : bool :=
  startswith "opex" s || contains "operating expense" s.

(** Two lists of rows that agree, row by row, on the labels and on every
    column but those in [cs]. *)
Definition same_except (cs : list string) (l l' : list row) : Prop :=
  Forall2 (fun r o => label o = label r /\
                      forall c, ~ In c cs -> at_ o c = at_ r c) l l'.

(** Two FX entries are for the same (period, currency) pair. *)
Definition fx_key_eqb (f g : row) : bool :=
  cell_eqb (at_ f "period") (at_ g "period") &&
  cell_eqb (at_ f "currency") (at_ g "currency").

(** The (period, currency) pairs of an FX table are unique. *)
Definition unique_fx_keys (fx : DataFrame) : Prop :=
  ForallOrdPairs (fun f g => fx_key_eqb f g = false) (rows fx).


(** The columns that [monthly_comparison] fills on the later row only. *)
Definition change_columns : list string :=
  ["revenue_change"; "opex_change"; "ebitda_change"; "gm_change"].

(** ** Public tools: variance, growth, quarters, years, P&L *)

(** [_fx_to_usd(df[mask], fx)] *)
Definition masked_usd (d : Loaded) (mask : row -> bool) (df : DataFrame)
  : result DataFrame :=
  _fx_to_usd (filter_rows mask df) (fx d) "amount".

Record variance_row : Type := mk_variance_row {
  v_category : string;
  v_actual : Q;
  v_budget : Q;
  v_variance : Q;
  v_variance_pct : Q
}.

(** One dictionary of [budget_variance_analysis]; the percentage is
    [((a - b) / b * 100) if b != 0 else 0]. *)
Definition variance_row_of (category : string) (a b : Q) : variance_row :=
  mk_variance_row category a b (a - b) (pct_change_or_zero a b).

Definition budget_variance_analysis (files : Fixtures) (month_text : option string)
  : result (list variance_row * string) :=
  d <- load_data files ;;
  period <- resolve_period month_text (actuals d) ;;
  let labels_a := _label_series (actuals d) in
  let labels_b := _label_series (budget d) in
  actual_rev <- masked_usd d (_is_revenue_labels labels_a) (actuals d) ;;
  budget_rev <- masked_usd d (_is_revenue_labels labels_b) (budget d) ;;
  let a_rev := sum_at_period actual_rev period in
  let b_rev := sum_at_period budget_rev period in
  actual_cogs <- masked_usd d (_is_cogs_labels labels_a) (actuals d) ;;
  budget_cogs <- masked_usd d (_is_cogs_labels labels_b) (budget d) ;;
  let a_cogs := sum_at_period actual_cogs period in
  let b_cogs := sum_at_period budget_cogs period in
  actual_opex <- masked_usd d (_is_opex_labels labels_a) (actuals d) ;;
  budget_opex <- masked_usd d (_is_opex_labels labels_b) (budget d) ;;
  let a_opex := sum_at_period actual_opex period in
  let b_opex := sum_at_period budget_opex period in
  let gross_profit_actual := a_rev - a_cogs in
  let gross_profit_budget := b_rev - b_cogs in
  let ebitda_actual := gross_profit_actual - a_opex in
  let ebitda_budget := gross_profit_budget - b_opex in
  lbl <- period_label period ;;
  OK ([variance_row_of "Revenue" a_rev b_rev;
       variance_row_of "COGS" a_cogs b_cogs;
       variance_row_of "Operating Expenses" a_opex b_opex;
       variance_row_of "Gross Profit" gross_profit_actual gross_profit_budget;
       variance_row_of "EBITDA" ebitda_actual ebitda_budget],
      lbl).

Record growth_row : Type := mk_growth_row {
  g_period : date;
  g_amount_usd : Q;
  prev_month_revenue : float;
  mom_growth_pct : float;
  g_year : Z;
  g_month : Z;
  yoy_growth_pct : float;
  revenue_3m_avg : Q
}.

(** [(x - prev) / prev * 100] on one row of two float columns. *)
Definition mom_pct (x : Q) (prev : float) : float :=
  fmul (fdiv (fsub (Fin x) prev) prev) (Fin 100).

(** [s.pct_change() * 100] on one row: pandas computes [s / s.shift(1) - 1]. *)
Definition pct_change_100 (x : Q) (prev : float) : float :=
  fmul (fsub (fdiv (Fin x) prev) (Fin 1)) (Fin 100).

(** The value one row before, NaN on the first row. *)
Definition previous (seen : list (date * Q)) : float :=
  match seen with
  | (_, y) :: _ => Fin y
  | [] => NaN
  end.

(** The value one row before within the group of a calendar month. *)
Definition previous_same_month (m : Z) (seen : list (date * Q)) : float :=
  match find (fun kv => (month (fst kv) =? m)%Z) seen with
  | Some kv => Fin (snd kv)
  | None => NaN
  end.

(** The rows of [revenue_growth_analysis], first to last; [seen] holds the
    rows before, the latest first.  The column [growth_3m_avg], a rolling
    mean over values that can be infinite, is left out. *)
Fixpoint growth_rows (seen l : list (date * Q)) : list growth_row :=
  match l with
  | [] => []
  | (t, x) :: l' =>
      let window := x :: map snd (firstn 2 seen) in
      mk_growth_row t x (previous seen) (mom_pct x (previous seen))
        (year t) (month t)
        (pct_change_100 x (previous_same_month (month t) seen))
        (Qsum window / (Z.of_nat (List.length window) # 1))
      :: growth_rows ((t, x) :: seen) l'
  end.

Definition revenue_growth_analysis (files : Fixtures) : result (list growth_row) :=
  d <- load_data files ;;
  let labels := _label_series (actuals d) in
  rev_data <- masked_usd d (_is_revenue_labels labels) (actuals d) ;;
  let monthly_rev := groupby_period_sum rev_data in
  OK (tail 12 (growth_rows [] monthly_rev)).

(** [t.to_period("Q")], kept as the first day of the quarter. *)
Definition quarter_of (t : date) : Z := ((month t - 1) / 3 + 1)%Z.

Definition quarter_start (t : date) : date :=
  mkdate (year t) (3 * (quarter_of t - 1) + 1) 1.

Definition to_quarter (c : cell) : cell :=
  match c with
  | Ts t => Ts (quarter_start t)
  | _ => NA
  end.

(** [str(quarter)] *)
Definition quarter_str (q : cell) : string :=
  match q with
  | Ts t => Z_to_string (year t) ++ "Q" ++ Z_to_string (quarter_of t)
  | _ => "NaT"
  end.

Record quarter_row : Type := mk_quarter_row {
  q_quarter : string;
  q_revenue : Q;
  q_cogs : Q;
  q_opex : Q;
  q_gross_profit : Q;
  q_gross_margin_pct : Q;
  q_ebitda : Q;
  q_ebitda_margin_pct : Q
}.

(** The body of the loop of [quarterly_summary]. *)
Definition quarter_metrics (d : Loaded) (actuals_q : DataFrame) (quarter : cell)
  : result quarter_row :=
  let labels := _label_series actuals_q in
  let quarter_actuals :=
    filter_rows (fun r => period_eq (at_ r "quarter") quarter) actuals_q in
  rev_data <- masked_usd d (_is_revenue_labels labels) quarter_actuals ;;
  let revenue := sum_amount_usd (rows rev_data) in
  cogs_data <- masked_usd d (_is_cogs_labels labels) quarter_actuals ;;
  let cogs := sum_amount_usd (rows cogs_data) in
  opex_data <- masked_usd d (_is_opex_labels labels) quarter_actuals ;;
  let opex := sum_amount_usd (rows opex_data) in
  OK (mk_quarter_row (quarter_str quarter) revenue cogs opex (revenue - cogs)
        (margin_pct_or_zero revenue cogs)
        (revenue - cogs - opex)
        (if Qpos revenue then (revenue - cogs - opex) / revenue * 100 else 0)).

(** [s.pct_change() * 100] on a column. *)
Fixpoint pct_change_column (prev : float) (l : list Q) : list float :=
  match l with
  | [] => []
  | x :: l' => pct_change_100 x prev :: pct_change_column (Fin x) l'
  end.

Record quarterly_table : Type := mk_quarterly_table {
  quarters : list quarter_row;
  (** The two growth columns exist when there are two quarters or more. *)
  revenue_qoq_growth : option (list float);
  ebitda_qoq_growth : option (list float)
}.

Definition quarterly_summary (files : Fixtures) : result quarterly_table :=
  d <- load_data files ;;
  let actuals_q :=
    assign (actuals d) "quarter" DObject (fun r => to_quarter (at_ r "period")) in
  qs <- mapM (quarter_metrics d actuals_q)
          (py_sorted (unique_by cell_eqb (series actuals_q "quarter"))) ;;
  if (1 <? List.length qs)%nat then
    OK (mk_quarterly_table qs
          (Some (pct_change_column NaN (map q_revenue qs)))
          (Some (pct_change_column NaN (map q_ebitda qs))))
  else OK (mk_quarterly_table qs None None).

Record yearly_row : Type := mk_yearly_row {
  y_month : Z;
  y_month_name : string;
  y_revenue_current : Q;
  y_revenue_prev : Q;
  y_yoy_growth_pct : Q
}.

(** [((cur - prev) / prev * 100) if prev > 0 else 0] *)
Definition growth_pct_or_zero (cur prev : Q) : Q :=
  if Qpos prev then (cur - prev) / prev * 100 else 0.

(** [s.dt.year] and [s.dt.month] on one value. *)
Definition year_cell (c : cell) : cell :=
  match c with Ts t => Num (inject_Z (year t)) | _ => NA end.

Definition month_cell (c : cell) : cell :=
  match c with Ts t => Num (inject_Z (month t)) | _ => NA end.

(** [s.max()] on a numeric column: [None] is NaN. *)
Definition numeric_max (l : list cell) : option Q :=
  fold_left (fun m c =>
               match c, m with
               | Num x, Some y => Some (if Qle_bool x y then y else x)
               | Num x, None => Some x
               | _, _ => m
               end) l None.

(** [s == v] on one value of a numeric column. *)
Definition num_eq (c : cell) (v : option Q) : bool :=
  match c, v with
  | Num x, Some y => Qeq_bool x y
  | _, _ => false
  end.

(** The revenue of one month of one year: zero when the month has no
    revenue row, and the converter does not run. *)
Definition month_revenue (d : Loaded) (data : DataFrame) (rev_mask : row -> bool)
  (m : Z) : result Q :=
  let month_data :=
    filter_rows (fun r => num_eq (at_ r "month") (Some (inject_Z m)) && rev_mask r) data in
  if (0 <? List.length (rows month_data))%nat then
    usd <- _fx_to_usd month_data (fx d) "amount" ;;
    OK (sum_amount_usd (rows usd))
  else OK 0.

Definition yearly_comparison (files : Fixtures) : result (list yearly_row) :=
  d <- load_data files ;;
  let actuals := assign (actuals d) "year" DNumber (fun r => year_cell (at_ r "period")) in
  let actuals := assign actuals "month" DNumber (fun r => month_cell (at_ r "period")) in
  let current_year := numeric_max (series actuals "year") in
  let prev_year := option_map (fun y => y - 1) current_year in
  let current_data := filter_rows (fun r => num_eq (at_ r "year") current_year) actuals in
  let prev_data := filter_rows (fun r => num_eq (at_ r "year") prev_year) actuals in
  if Nat.eqb (List.length (rows prev_data)) 0 then OK []
  else
    let rev_mask := _is_revenue_labels (_label_series actuals) in
    mapM (fun m =>
            cur <- month_revenue d current_data rev_mask m ;;
            prev <- month_revenue d prev_data rev_mask m ;;
            OK (mk_yearly_row m (month_name m) cur prev (growth_pct_or_zero cur prev)))
         [1; 2; 3; 4; 5; 6; 7; 8; 9; 10; 11; 12]%Z.

Record pnl_line : Type := mk_pnl_line {
  line_item : cell;
  line_amount : Q;
  line_type : string
}.

(** The order of the keys of [groupby]: texts by code point, numbers by
    value, timestamps by date; keys of different kinds do not occur in one
    column of labels. *)
Definition key_leb (a b : cell) : bool :=
  match a, b with
  | Str s, Str s' => String.leb s s'
  | Num x, Num y => Qle_bool x y
  | _, _ => period_leb a b
  end.

(** [df.groupby(c)["amount_usd"].sum().to_dict()], the keys in order. *)
Definition groupby_sum (df : DataFrame) (c : string) : list (cell * Q) :=
  map (fun k => (k, sum_amount_usd (filter (fun r => cell_eqb (at_ r c) k) (rows df))))
      (sort_by key_leb (unique_by cell_eqb (filter notna (series df c)))).

(** ["account" if ... else ("entity" if ... else df.columns[0])] *)
Definition account_column (df : DataFrame) : string :=
  if has_col df "account" then "account"
  else if has_col df "entity" then "entity"
  else hd "" (names df).

Definition pnl_statement (files : Fixtures) (month_text : option string)
  : result (list pnl_line * string) :=
  d <- load_data files ;;
  period <- resolve_period month_text (actuals d) ;;
  let labels := _label_series (actuals d) in
  let period_data :=
    filter_rows (fun r => period_eq (at_ r "period") period) (actuals d) in
  rev_data <- masked_usd d (_is_revenue_labels labels) period_data ;;
  let revenue := sum_amount_usd (rows rev_data) in
  cogs_data <- masked_usd d (_is_cogs_labels labels) period_data ;;
  let cogs := sum_amount_usd (rows cogs_data) in
  let gross_profit := revenue - cogs in
  let gross_margin_pct := margin_pct_or_zero revenue cogs in
  opex_data <- masked_usd d (_is_opex_labels labels) period_data ;;
  let opex_by_category :=
    if (0 <? List.length (rows opex_data))%nat
    then groupby_sum opex_data (account_column opex_data)
    else [] in
  let total_opex := fold_left Qplus (map snd opex_by_category) 0 in
  let ebitda := gross_profit - total_opex in
  lbl <- period_label period ;;
  OK ([mk_pnl_line (Str "Revenue") revenue "revenue";
       mk_pnl_line (Str "Cost of Goods Sold (COGS)") (- cogs) "cogs";
       mk_pnl_line (Str "Gross Profit") gross_profit "gross_profit";
       mk_pnl_line (Str "Gross Margin %") gross_margin_pct "percentage"]
      ++ map (fun kv => mk_pnl_line (fst kv) (- snd kv) "opex") opex_by_category
      ++ [mk_pnl_line (Str "Total Operating Expenses") (- total_opex) "total_opex";
          mk_pnl_line (Str "EBITDA") ebitda "ebitda"],
      lbl).

(** A float that is the number zero. *)
Definition is_zero (a : float) : Prop :=
  match a with
  | Fin q => (q == 0)%Q
  | _ => False
  end.

(** ** Further statements *)

(** The number of values of a column that parse as a date. *)
Definition parsed_count (s : list cell) : nat :=
  List.length (filter is_some (map to_datetime s)).

(** The table has a year-like and a month-like column. *)
Definition has_year_and_month (df : DataFrame) : bool :=
  is_some (first_in ["year"; "yr"] (map lower (names df))) &&
  is_some (first_in ["month"; "mo"; "mnth"; "mth"] (map lower (names df))).

(** The table after [df.columns = [...]], the first statement of
    [_standardize_schema]. *)
Definition normalized_columns (df : DataFrame) : DataFrame :=
  rename_columns normalize_name df.

(** A cell of a numeric column: a number or missing. *)
Definition numeric_cell (c : cell) : Prop :=
  c = NA \/ exists x, c = Num x.

(** The number of entries of the FX table under the key of a record. *)
Definition match_count (fx : DataFrame) (r : row) : nat :=
  List.length (filter (key_match r) (rows fx)).

(** The number of rows that a left join makes of the records. *)
Definition joined_count (df fx : DataFrame) : nat :=
  list_sum (map (fun r => Nat.max 1 (match_count fx r)) (rows df)).

(** The rows of the actuals that a category test accepts. *)
Definition category_rows (test : (row -> cell) -> row -> bool) (d : Loaded) : list row :=
  filter (test (_label_series (actuals d))) (rows (actuals d)).

(** A file that [load_data] cannot date: no row, and no pair of a year and a
    month column to build an empty period column from. *)
Definition undatable (csv : DataFrame) : Prop :=
  rows csv = [] /\ has_year_and_month (_standardize_schema csv) = false.

(** Rows in strictly ascending order of a date. *)
Definition ascending {A : Type} (key : A -> date) (l : list A) : Prop :=
  StronglySorted (fun a b => date_ltb (key a) (key b) = true) l.

(** The rows of the year before the latest year of the actuals, as
    [yearly_comparison] selects them. *)
Definition previous_year_rows (d : Loaded) : list row :=
  let actuals := assign (actuals d) "year" DNumber (fun r => year_cell (at_ r "period")) in
  let actuals := assign actuals "month" DNumber (fun r => month_cell (at_ r "period")) in
  let prev_year := option_map (fun y => y - 1) (numeric_max (series actuals "year")) in
  filter (fun r => num_eq (at_ r "year") prev_year) (rows actuals).

Definition months_of_year : list Z := [1; 2; 3; 4; 5; 6; 7; 8; 9; 10; 11; 12]%Z.

(** No month was asked for: the argument is [None] or the empty text. *)
Definition no_month (month_text : option string) : Prop :=
  month_text = None \/ month_text = Some "".

(** The rows of one category in one month of the actuals, as
    [pnl_statement] selects them. *)
Definition month_category_rows (test : (row -> cell) -> row -> bool) (d : Loaded)
  (period : cell) : list row :=
  filter (test (_label_series (actuals d)))
         (filter (fun r => period_eq (at_ r "period") period) (rows (actuals d))).

(** The distinct quarters of the actuals, in the order of their first row. *)
Definition quarters_of (d : Loaded) : list cell :=
  unique_by cell_eqb (map to_quarter (series (actuals d) "period")).

End Pipeline.

(** ** A small library

    Enough of pandas and dateutil to run the pipeline on ISO dates
    ([YYYY-MM-DD]), on integers and on month texts such as [June 2025]. *)

Definition digit_value (c : ascii) : option Z :=
  if is_digit c then Some (Z.of_nat (nat_of_ascii c) - 48)%Z else None.

Fixpoint digits_from (acc : Z) (s : string) : option Z :=
  match s with
  | EmptyString => Some acc
  | String c s' =>
      match digit_value c with
      | Some d => digits_from (10 * acc + d)%Z s'
      | None => None
      end
  end.

Definition digits (s : string) : option Z :=
  match s with
  | EmptyString => None
  | _ => digits_from 0%Z s
  end.

Definition iso_date (s : string) : option date :=
  if Nat.eqb (String.length s) 10
     && String.eqb (take 1 (drop 4 s)) "-" && String.eqb (take 1 (drop 7 s)) "-"
  then
    match digits (take 4 s), digits (take 2 (drop 5 s)), digits (drop 8 s) with
    | Some y, Some m, Some d =>
        if ((1 <=? m) && (m <=? 12) && (1 <=? d) && (d <=? 31))%Z
        then Some (mkdate y m d) else None
    | _, _, _ => None
    end
  else None.

Definition month_of_name (s : string) : option Z :=
  find (fun m => String.eqb (lower (month_name m)) (lower s))
       [1; 2; 3; 4; 5; 6; 7; 8; 9; 10; 11; 12]%Z.

Fixpoint split_space (s : string) : string * string :=
  match s with
  | EmptyString => (EmptyString, EmptyString)
  | String c s' =>
      if Ascii.eqb c " "%char then (EmptyString, s')
      else let (a, b) := split_space s' in (String c a, b)
  end.

(** A month text; the day is the one of the default date, here the 15th. *)
Definition month_text_date (s : string) : option date :=
  let (m, y) := split_space s in
  match month_of_name m, digits y with
  | Some m, Some y => Some (mkdate y m 15)
  | _, _ => None
  end.

Definition signed_digits (s : string) : option Z :=
  match s with
  | String "-"%char s' => option_map Z.opp (digits s')
  | _ => digits s
  end.

Definition integer_repr (x : Q) : string :=
  if (Z.pos (Qden x) =? 1)%Z then Z_to_string (Qnum x) ++ ".0" else "".

Definition iso_repr (t : date) : string :=
  Z_to_string (year t) ++ "-" ++ Z_to_string (month t) ++ "-" ++ Z_to_string (day t).

Definition small_library : Library := {|
  parse_date := iso_date;
  num_to_date := fun x =>
    if Qle_bool 0 x && negb (Qle_bool 86400000000000 x)
    then Some (mkdate 1970 1 1) else None;
  str_to_num := fun s => option_map inject_Z (signed_digits s);
  ts_to_num := fun _ => None;
  num_repr := integer_repr;
  ts_repr := iso_repr;
  astype_int := fun c =>
    match c with
    | Num x => Some (Z.quot (Qnum x) (Z.pos (Qden x)))
    | Str s => signed_digits s
    | _ => None
    end;
  py_int := signed_digits;
  dtparse := month_text_date;
  assemble := fun y m =>
    if ((1 <=? m) && (m <=? 12))%Z then Some (mkdate y m 1) else None
|}.

(** ** Tables of the scenarios *)

(** A row given by its cells. *)
Fixpoint cells_of (l : list (string * cell)) (c : string) : cell :=
  match l with
  | [] => NA
  | (k, v) :: l' => if String.eqb c k then v else cells_of l' c
  end.

Definition frame_of (cols : list (string * dtype)) (l : list (list (string * cell)))
  : DataFrame :=
  mkDF cols (relabel (map (fun kv => mkrow 0 (cells_of kv)) l)).

Definition record_columns : list (string * dtype) :=
  [("period", DDatetime); ("account", DObject); ("amount", DNumber);
   ("currency", DObject)].

Definition record (t : date) (account : string) (amount : Q) (currency : string)
  : list (string * cell) :=
  [("period", Ts t); ("account", Str account); ("amount", Num amount);
   ("currency", Str currency)].

Definition fx_columns : list (string * dtype) :=
  [("period", DDatetime); ("currency", DObject); ("rate_to_usd", DNumber)].

Definition fx_entry (t : date) (currency : string) (rate : Q) : list (string * cell) :=
  [("period", Ts t); ("currency", Str currency); ("rate_to_usd", Num rate)].

Definition cash_columns : list (string * dtype) :=
  [("period", DDatetime); ("amount", DNumber); ("currency", DObject)].

Definition cash_entry (t : date) (amount : Q) (currency : string)
  : list (string * cell) :=
  [("period", Ts t); ("amount", Num amount); ("currency", Str currency)].

Definition june_2025 : date := mkdate 2025 6 1.

(** The scenario of [revenue_vs_budget("June 2025")]. *)
Definition june_actuals : DataFrame :=
  frame_of record_columns [record june_2025 "Revenue" 100000 "USD"].

Definition june_budget : DataFrame :=
  frame_of record_columns [record june_2025 "Revenue" 90000 "USD"].

Definition eur_rates : DataFrame :=
  frame_of fx_columns [fx_entry june_2025 "EUR" (11 # 10)].

Definition june_cash : DataFrame :=
  frame_of cash_columns [cash_entry june_2025 500000 "USD"].

Definition june_files : Fixtures :=
  mkFixtures june_actuals june_budget eur_rates june_cash.

(** A table whose [Period] column parses on one row out of three, next to a
    [date] column that parses on every row. *)
Definition sparse_period_frame : DataFrame :=
  frame_of [("Period", DObject); ("date", DObject); ("amount", DNumber)]
    [[("Period", Str "2025-06-17"); ("date", Str "2024-01-05"); ("amount", Num 10)];
     [("Period", Str "n/a"); ("date", Str "2024-02-05"); ("amount", Num 20)];
     [("Period", Str "soon"); ("date", Str "2024-03-05"); ("amount", Num 30)]].

(** Records that come with an [amount_usd] column of their own. *)
Definition priced_records : DataFrame :=
  frame_of (record_columns ++ [("amount_usd", DNumber)])
    [record june_2025 "Revenue" 100 "EUR" ++ [("amount_usd", Num 999)]].

(** One EUR revenue row of 1000 and one USD revenue row of 500. *)
Definition eur_records : DataFrame :=
  frame_of record_columns
    [record june_2025 "Revenue" 1000 "EUR"; record june_2025 "Revenue" 500 "USD"].

(** Three months of actuals: revenue, COGS and one opex account a month. *)
Definition month_records (t : date) (revenue cogs opex : Q) : list (list (string * cell)) :=
  [record t "Revenue" revenue "USD"; record t "COGS" cogs "USD";
   record t "Opex:Marketing" opex "USD"].

Definition april_2025 : date := mkdate 2025 4 1.
Definition may_2025 : date := mkdate 2025 5 1.

(** A company that burns 30 a month. *)
Definition burning_actuals : DataFrame :=
  frame_of record_columns
    (month_records april_2025 100 50 80 ++ month_records may_2025 100 50 80
     ++ month_records june_2025 100 50 80).

(** A company that earns 20 a month. *)
Definition profitable_actuals : DataFrame :=
  frame_of record_columns
    (month_records april_2025 100 50 30 ++ month_records may_2025 100 50 30
     ++ month_records june_2025 100 50 30).

Definition cash_of (amount : Q) : DataFrame :=
  frame_of cash_columns [cash_entry may_2025 1 "USD"; cash_entry june_2025 amount "USD"].

Definition burning_files (cash_amount : Q) : Fixtures :=
  mkFixtures burning_actuals burning_actuals eur_rates (cash_of cash_amount).

Definition profitable_files (cash_amount : Q) : Fixtures :=
  mkFixtures profitable_actuals profitable_actuals eur_rates (cash_of cash_amount).

Definition july_2025 : date := mkdate 2025 7 1.

(** Two months of actuals: no revenue in June, 100 in July. *)
Definition restart_actuals : DataFrame :=
  frame_of record_columns
    (month_records june_2025 0 50 80 ++ month_records july_2025 100 50 80).

Definition restart_files : Fixtures :=
  mkFixtures restart_actuals restart_actuals eur_rates (cash_of 300).


(** ** Tables of the further properties *)

(** The header of the records without any row. *)
Definition empty_records : DataFrame := frame_of record_columns [].

(** A table without rows whose time is in a year and a month column. *)
Definition empty_year_month : DataFrame :=
  frame_of [("Yr", DNumber); ("Mo", DObject); ("amount", DNumber)] [].

(** Five dates of which three parse. *)
Definition three_of_five : list cell :=
  [Str "2025-01-31"; Str "n/a"; Str "2025-02-28"; Str "2025-03-31"; Str "-"].

(** A ledger as a spreadsheet exports it: names in mixed case and with
    spaces, amounts as text. *)
Definition messy_ledger : DataFrame :=
  frame_of [(" Month ", DObject); ("Account Category", DObject);
            ("Value", DObject); ("Curr", DObject)]
    [[(" Month ", Str "2025-06-01"); ("Account Category", Str "Revenue");
      ("Value", Str "1200"); ("Curr", Str "USD")];
     [(" Month ", Str "2025-06-01"); ("Account Category", Str "COGS");
      ("Value", Str "n/a"); ("Curr", Str "USD")]].

(** A ledger that names its amounts [amount] and holds them as text. *)
Definition text_amounts : DataFrame :=
  frame_of [("period", DObject); ("account", DObject); ("amount", DObject)]
    [[("period", Str "2025-06-01"); ("account", Str "Revenue"); ("amount", Str "1200")]].

(** Records that already carry a column of rates. *)
Definition rated_records : DataFrame :=
  frame_of (record_columns ++ [("rate_to_usd", DNumber)])
    [record june_2025 "Revenue" 100 "EUR" ++ [("rate_to_usd", Num 2)]].

(** An FX table without a column of rates, and one without currencies. *)
Definition fx_without_rates : DataFrame :=
  frame_of [("period", DDatetime); ("currency", DObject)]
    [[("period", Ts june_2025); ("currency", Str "EUR")]].

Definition fx_without_currency : DataFrame :=
  frame_of [("period", DDatetime); ("rate_to_usd", DNumber)]
    [[("period", Ts june_2025); ("rate_to_usd", Num (11 # 10))]].

(** An FX table that holds the June rate of the euro twice. *)
Definition repeated_rates : DataFrame :=
  frame_of fx_columns
    [fx_entry june_2025 "EUR" (11 # 10); fx_entry june_2025 "EUR" (12 # 10)].

(** Two records of one entity, the second without an account. *)
Definition entity_records : DataFrame :=
  frame_of [("period", DDatetime); ("account", DObject); ("entity", DObject);
            ("amount", DNumber)]
    [[("period", Ts june_2025); ("account", Str "Revenue"); ("entity", Str "Sales EU");
      ("amount", Num 100)];
     [("period", Ts june_2025); ("account", NA); ("entity", Str "Sales EU");
      ("amount", Num 50)]].

(** Three months of a budget. *)
Definition planned_budget : DataFrame :=
  frame_of record_columns
    (month_records april_2025 90 40 70 ++ month_records may_2025 90 40 70
     ++ month_records june_2025 90 40 70).

Definition planned_files : Fixtures :=
  mkFixtures burning_actuals planned_budget eur_rates (cash_of 300).

(** The files of June with a cash file that holds its header only. *)
Definition no_cash_files : Fixtures :=
  mkFixtures june_actuals june_budget eur_rates (frame_of cash_columns []).

(** The revenue of June in two years. *)
Definition two_year_files : Fixtures :=
  mkFixtures
    (frame_of record_columns
       [record (mkdate 2024 6 1) "Revenue" 80 "USD"; record june_2025 "Revenue" 100 "USD"])
    june_budget eur_rates june_cash.

(** The revenue of a company that earned nothing in June 2024, 50 in May
    2025 and 100 in June 2025. *)
Definition june_gap_files : Fixtures :=
  mkFixtures
    (frame_of record_columns
       [record (mkdate 2024 6 1) "Revenue" 0 "USD";
        record may_2025 "Revenue" 50 "USD";
        record june_2025 "Revenue" 100 "USD"])
    june_budget eur_rates june_cash.

(** * Properties *)

Section Properties.

Context {L : Library}.

(** ** Exceptions and lists *)

Lemma bind_OK {A B : Type} (r : result A) (k : A -> result B) (b : B) :
  bind r k = OK b -> exists a, r = OK a /\ k a = OK b.
Proof.
  destruct r as [a | e]; simpl; intros H.
  - exists a. split; [reflexivity | exact H].
  - discriminate H.
Qed.

Lemma set_values_map (c : string) (f : row -> cell) (l : list row) :
  set_values c l (map f l) = map (fun r => update r c (f r)) l.
Proof.
  induction l as [| r l IH]; simpl; [reflexivity | now rewrite IH].
Qed.

Lemma set_column_assign (df : DataFrame) (c : string) (d : dtype) (f : row -> cell) :
  set_column df c d (map f (rows df)) = assign df c d f.
Proof.
  unfold set_column, assign. now rewrite set_values_map.
Qed.

Lemma series_assign_same (df : DataFrame) (c : string) (d : dtype) (f : row -> cell) :
  series (assign df c d f) c = map f (rows df).
Proof.
  unfold series, assign; simpl. rewrite map_map.
  apply map_ext. intros r. simpl. now rewrite String.eqb_refl.
Qed.

Lemma series_assign_other (df : DataFrame) (c c' : string) (d : dtype) (f : row -> cell) :
  c' <> c -> series (assign df c d f) c' = series df c'.
Proof.
  intros Hne. unfold series, assign; simpl. rewrite map_map.
  apply map_ext. intros r. simpl.
  destruct (String.eqb_spec c' c) as [E | _]; [contradiction | reflexivity].
Qed.


(** ** Frames *)

Lemma same_except_refl (cs : list string) (l : list row) : same_except cs l l.
Proof.
  induction l; constructor; auto.
Qed.

Lemma same_except_trans (cs : list string) (l1 l2 l3 : list row) :
  same_except cs l1 l2 -> same_except cs l2 l3 -> same_except cs l1 l3.
Proof.
  intros H12. revert l3.
  induction H12 as [| r1 r2 l1 l2 [Hl Hc] _ IH]; intros l3 H23; inversion H23; subst.
  - constructor.
  - constructor; [| now apply IH].
    match goal with H : _ /\ _ |- _ => destruct H as [Hl' Hc'] end.
    split; [congruence |].
    intros c Hn. rewrite Hc' by assumption. now apply Hc.
Qed.

Lemma same_except_weaken (cs cs' : list string) (l l' : list row) :
  incl cs cs' -> same_except cs l l' -> same_except cs' l l'.
Proof.
  intros Hi H. induction H as [| r o l l' [Hl Hc] _ IH]; constructor; [| exact IH].
  split; [exact Hl |]. intros c Hn. apply Hc. intros Hin. apply Hn. now apply Hi.
Qed.

Lemma same_except_length (cs : list string) (l l' : list row) :
  same_except cs l l' -> List.length l' = List.length l.
Proof.
  intros H. symmetry. exact (Forall2_length H).
Qed.

Lemma same_except_update (c : string) (f : row -> cell) (l : list row) :
  same_except [c] l (map (fun r => update r c (f r)) l).
Proof.
  induction l as [| r l IH]; simpl; constructor; [| exact IH].
  split; [reflexivity |].
  intros c' Hn. simpl.
  destruct (String.eqb_spec c' c) as [E | _]; [| reflexivity].
  exfalso. apply Hn. left. now symmetry.
Qed.

Lemma same_except_set_values (c : string) (l : list row) (s : list cell) :
  List.length s = List.length l -> same_except [c] l (set_values c l s).
Proof.
  revert s. induction l as [| r l IH]; intros [| v s] Hlen; simpl in *;
    try discriminate; constructor.
  - split; [reflexivity |].
    intros c' Hn. simpl.
    destruct (String.eqb_spec c' c) as [E | _]; [| reflexivity].
    exfalso. apply Hn. left. now symmetry.
  - apply IH. now injection Hlen.
Qed.

Lemma mapM_length {A B : Type} (f : A -> result B) (l : list A) (l' : list B) :
  mapM f l = OK l' -> List.length l' = List.length l.
Proof.
  revert l'. induction l as [| a l IH]; simpl; intros l' H.
  - injection H as <-. reflexivity.
  - apply bind_OK in H. destruct H as [b [_ H]].
    apply bind_OK in H. destruct H as [bs [Hbs H]].
    injection H as <-. simpl. f_equal. now apply IH.
Qed.

Lemma series_length (df : DataFrame) (c : string) :
  List.length (series df c) = List.length (rows df).
Proof. unfold series. apply length_map. Qed.

Lemma mem_set_dtype (c c' : string) (d : dtype) (h : list (string * dtype)) :
  mem c' (map fst (set_dtype c d h)) = mem c' (map fst h) || String.eqb c' c.
Proof.
  unfold mem. induction h as [| [k v] h IH]; simpl.
  - now rewrite orb_false_r.
  - destruct (String.eqb_spec k c) as [E | Hne]; simpl.
    + subst k. destruct (String.eqb c' c); simpl; [reflexivity | now rewrite orb_false_r].
    + rewrite IH. now rewrite orb_assoc.
Qed.

Lemma has_col_assign (df : DataFrame) (c c' : string) (d : dtype) (f : row -> cell) :
  has_col (assign df c d f) c' = has_col df c' || String.eqb c' c.
Proof. unfold has_col, names, assign; simpl. apply mem_set_dtype. Qed.

(** ** The strategies of the period normalizer keep the rows *)

Lemma try_parse_series_length (s p : list cell) (q : Q) :
  try_parse_series s q = Some p -> List.length p = List.length s.
Proof.
  unfold try_parse_series.
  destruct (notna_mean (map to_datetime s)) as [r |]; [| discriminate].
  destruct (Qle_bool q r); [| discriminate].
  intros H. injection H as <-. now rewrite !length_map.
Qed.

Lemma first_date_candidate_length (df : DataFrame) (cands : list string) (p : list cell) :
  first_date_candidate df cands = Some p -> List.length p = List.length (rows df).
Proof.
  induction cands as [| dc rest IH]; simpl; [discriminate |].
  destruct (column_at_lower df dc) as [c |]; [| exact IH].
  destruct (try_parse_series (series df c) (6 # 10)) as [parsed |] eqn:E; [| exact IH].
  intros H. injection H as <-.
  apply try_parse_series_length in E. now rewrite E, series_length.
Qed.

Lemma year_month_period_length (df : DataFrame) (ycol mcol : string) (p : list cell) :
  year_month_period df ycol mcol = OK p -> List.length p = List.length (rows df).
Proof.
  unfold year_month_period, astype_int_series, assemble_series. intros H.
  apply bind_OK in H. destruct H as [ys [Hys H]].
  apply bind_OK in H. destruct H as [ms [Hms H]].
  apply mapM_length in Hys, Hms, H.
  rewrite H, length_combine, Hys, Hms, !series_length. apply Nat.min_id.
Qed.

Lemma brute_force_length (df : DataFrame) (ts : list (option date)) :
  brute_force df = Some ts -> List.length ts = List.length (rows df).
Proof.
  unfold brute_force.
  assert (Hinv : forall cols st,
             (forall ts, fst st = Some ts -> List.length ts = List.length (rows df)) ->
             forall ts, fst (fold_left (brute_force_step df) cols st) = Some ts ->
                        List.length ts = List.length (rows df)).
  { induction cols as [| c cols IH]; intros st Hst; simpl; [exact Hst |].
    apply IH. unfold brute_force_step.
    destruct (notna_mean (map to_datetime (series df c))) as [score |]; [| exact Hst].
    destruct (Qle_bool (6 # 10) score && Qlt_bool (snd st) score); [| exact Hst].
    simpl. intros ts0 H. injection H as <-. now rewrite length_map, series_length. }
  apply Hinv. simpl. discriminate.
Qed.

Lemma slow_period_columns_rows (df out : DataFrame) :
  slow_period_columns df = OK out ->
  columns out = set_dtype "period" DDatetime (columns df) /\
  same_except ["period"] (rows df) (rows out).
Proof.
  unfold slow_period_columns.
  destruct (first_date_candidate df (date_candidates df)) as [parsed |] eqn:E1.
  { intros H. injection H as <-. split; [reflexivity |].
    apply same_except_set_values. now apply first_date_candidate_length in E1. }
  destruct (first_in ["year"; "yr"] (map lower (names df))) as [ycol |];
    [destruct (first_in ["month"; "mo"; "mnth"; "mth"] (map lower (names df))) as [mcol |] |].
  { intros H. apply bind_OK in H. destruct H as [p [Hp H]]. injection H as <-.
    split; [reflexivity |].
    apply same_except_set_values. now apply year_month_period_length in Hp. }
  all: destruct (first_timeish df (names df)) as [parsed |];
    [ intros H; injection H as <-; split; [reflexivity | apply same_except_update]
    | destruct (brute_force df) as [best |] eqn:E4; [| discriminate];
      intros H; injection H as <-; split; [reflexivity |];
      apply same_except_set_values; rewrite length_map;
      now apply brute_force_length in E4 ].
Qed.

Lemma ensure_period_columns_rows (df out : DataFrame) :
  _ensure_period_columns df = OK out ->
  columns out = set_dtype "period" DDatetime (columns df) /\
  same_except ["period"] (rows df) (rows out).
Proof.
  unfold _ensure_period_columns.
  destruct (column_at_lower df "period") as [c |]; [| apply slow_period_columns_rows].
  destruct (existsb is_some (map to_datetime (series df c)));
    [| apply slow_period_columns_rows].
  intros H. injection H as <-. split; [reflexivity |].
  apply same_except_set_values. now rewrite !length_map, series_length.
Qed.

Lemma ensure_period_columns_has_col (df out : DataFrame) (c : string) :
  _ensure_period_columns df = OK out ->
  has_col out c = has_col df c || String.eqb c "period".
Proof.
  intros H. apply ensure_period_columns_rows in H. destruct H as [Hc _].
  unfold has_col, names. rewrite Hc. apply mem_set_dtype.
Qed.

(** ** Period normalizer *)

(** C8. When the table has a column whose lower-cased name is [period] and at
    least one of its values parses as a date, the period normalizer returns
    the table with the canonical [period] column set, row by row, to the
    parsed value truncated to the month start, a value that does not parse
    becoming missing.  The result is the one of the fast path whatever the
    share of parsed values and whatever the other columns hold: no threshold
    applies and no other strategy runs.  Every other column is unchanged. *)
Theorem period_column_fast_path (df : DataFrame) (c : string) :
  column_at_lower df "period" = Some c ->
  Exists (fun x => to_datetime x <> None) (series df c) ->
  exists out,
    _ensure_period_columns df = OK out /\
    out = assign df "period" DDatetime (fun r => to_month (to_datetime (at_ r c))) /\
    series out "period" = map (fun x => to_month (to_datetime x)) (series df c) /\
    (forall c', c' <> "period" -> series out c' = series df c').
Proof.
  intros Hc Hany.
  exists (assign df "period" DDatetime (fun r => to_month (to_datetime (at_ r c)))).
  split; [| split; [reflexivity | split]].
  - unfold _ensure_period_columns. rewrite Hc.
    assert (Hex : existsb is_some (map to_datetime (series df c)) = true).
    { apply existsb_exists. apply Exists_exists in Hany.
      destruct Hany as [x [Hin Hx]].
      exists (to_datetime x). split; [now apply in_map |].
      destruct (to_datetime x); [reflexivity | contradiction]. }
    rewrite Hex. f_equal.
    unfold series. rewrite !map_map.
    exact (set_column_assign df "period" DDatetime
             (fun r => to_month (to_datetime (at_ r c)))).
  - rewrite series_assign_same. unfold series. now rewrite map_map.
  - intros c' Hne. now apply series_assign_other.
Qed.

(** ** Category classifier *)

Lemma is_revenue_eq (lbl : cell) :
  is_revenue lbl =
  String.eqb (lower (astype_str lbl)) "revenue" || sales_pattern (lower (astype_str lbl)).
Proof. reflexivity. Qed.

Lemma is_cogs_eq (lbl : cell) :
  is_cogs lbl =
  String.eqb (lower (astype_str lbl)) "cogs" || cogs_pattern (lower (astype_str lbl)).
Proof. reflexivity. Qed.

Lemma is_opex_eq (lbl : cell) :
  is_opex lbl = opex_pattern (lower (astype_str lbl)).
Proof. reflexivity. Qed.

(** C6, amended. The three tests are independent; at most one of them accepts
    a label whose lower-cased text matches the substring patterns of at most
    one rule (the whole word [sales]; [cost of goods]; the prefix [opex] or
    [operating expense]).  The exact names [revenue] and [cogs] match no
    pattern of another rule. *)
Theorem category_exclusive_without_mixed_patterns (lbl : cell) :
  (count_true [sales_pattern (lower (astype_str lbl));
               cogs_pattern (lower (astype_str lbl));
               opex_pattern (lower (astype_str lbl))] <= 1)%nat ->
  at_most_one_category lbl.
Proof.
  unfold at_most_one_category.
  rewrite is_revenue_eq, is_cogs_eq, is_opex_eq.
  set (s := lower (astype_str lbl)).
  destruct (String.eqb_spec s "revenue") as [E | _].
  - rewrite E. intros _. vm_compute. lia.
  - destruct (String.eqb_spec s "cogs") as [E | _].
    + rewrite E. intros _. vm_compute. lia.
    + simpl orb. intros H. exact H.
Qed.

(** ** Currency converter *)

Lemma relabel_from_same (n : nat) (l : list row) :
  Forall2 (fun r o => at_ o = at_ r) l (relabel_from n l).
Proof.
  revert n. induction l as [| r l IH]; intros n; simpl; constructor; auto.
Qed.

Lemma relabel_from_map (f : row -> row) (n : nat) (l : list row) :
  (forall r, at_ (f r) = at_ r) ->
  relabel_from n (map f l) = relabel_from n l.
Proof.
  intros Hf. revert n. induction l as [| r l IH]; intros n; simpl; [reflexivity |].
  now rewrite Hf, IH.
Qed.

Lemma Forall2_In_r {A B : Type} (R : A -> B -> Prop) (l : list A) (l' : list B) (b : B) :
  Forall2 R l l' -> In b l' -> exists a, In a l /\ R a b.
Proof.
  induction 1 as [| x y l l' Hxy _ IH]; simpl; [contradiction |].
  intros [<- | Hin].
  - exists x. auto.
  - destruct (IH Hin) as [a [Ha HR]]. exists a. auto.
Qed.

Lemma Forall2_In_l {A B : Type} (R : A -> B -> Prop) (l : list A) (l' : list B) (a : A) :
  Forall2 R l l' -> In a l -> exists b, In b l' /\ R a b.
Proof.
  induction 1 as [| x y l l' Hxy _ IH]; simpl; [contradiction |].
  intros [<- | Hin].
  - exists y. auto.
  - destruct (IH Hin) as [b [Hb HR]]. exists b. auto.
Qed.

Lemma Forall2_map_r {A B C : Type} (R : A -> C -> Prop) (f : B -> C)
  (l : list A) (l' : list B) :
  Forall2 (fun a b => R a (f b)) l l' -> Forall2 R l (map f l').
Proof.
  induction 1; simpl; constructor; auto.
Qed.

Lemma Forall2_same_map {A B : Type} (R : A -> B -> Prop) (f : A -> B) (l : list A) :
  (forall a, In a l -> R a (f a)) -> Forall2 R l (map f l).
Proof.
  induction l as [| a l IH]; simpl; intros H; constructor.
  - apply H. now left.
  - apply IH. intros x Hx. apply H. now right.
Qed.

(** The steps of a conversion that returns. *)
Lemma fx_to_usd_inv (df fx : DataFrame) (amount_col : string) (out : DataFrame) :
  _fx_to_usd df fx amount_col = OK out ->
  exists rc df1 fx1 merged resolved,
    rate_column fx = OK rc /\
    _ensure_period_columns (with_currency df) = OK df1 /\
    _ensure_period_columns fx = OK fx1 /\
    merge_rates df1 fx1 rc = OK merged /\
    fx_merged df fx = OK (fill_rates merged) /\
    resolve_amount_col (fill_rates merged) amount_col = OK resolved /\
    convert_amounts (fill_rates merged) resolved = OK out.
Proof.
  unfold _fx_to_usd, fx_merged. intros H.
  apply bind_OK in H. destruct H as [rc [Hrc H]].
  apply bind_OK in H. destruct H as [df1 [Hdf1 H]].
  apply bind_OK in H. destruct H as [fx1 [Hfx1 H]].
  apply bind_OK in H. destruct H as [merged [Hm H]].
  apply bind_OK in H. destruct H as [resolved [Hres H]].
  exists rc, df1, fx1, merged, resolved.
  rewrite Hrc, Hdf1, Hfx1. simpl. rewrite Hm. simpl. auto 10.
Qed.

Lemma convert_amounts_inv (merged : DataFrame) (amount_col : string) (out : DataFrame) :
  convert_amounts merged amount_col = OK out ->
  Forall (fun r => exists rate, at_ r "rate_to_usd" = Num rate) (rows merged) /\
  out = assign merged "amount_usd" DNumber
          (fun r => Num (amount_value amount_col r * cell_value (at_ r "rate_to_usd"))).
Proof.
  unfold convert_amounts.
  destruct (forallb (fun r => is_num (at_ r "rate_to_usd")) (rows merged)) eqn:E;
    [| discriminate].
  intros H. injection H as <-. split; [| reflexivity].
  rewrite forallb_forall in E. apply Forall_forall. intros r Hr.
  specialize (E r Hr). destruct (at_ r "rate_to_usd"); try discriminate. eauto.
Qed.

Lemma merge_rates_inv (df fx : DataFrame) (rc : string) (merged : DataFrame) :
  merge_rates df fx rc = OK merged ->
  has_col fx "currency" = true /\
  has_col df "rate_to_usd" = false /\
  columns merged = columns df ++ [("rate_to_usd", dtype_of fx rc)] /\
  rows merged = relabel (flat_map (join_row fx rc) (rows df)).
Proof.
  unfold merge_rates.
  destruct (has_col fx "currency"); simpl; [| discriminate].
  destruct (has_col df "rate_to_usd"); [discriminate |].
  intros H. injection H as <-. auto.
Qed.



Lemma join_row_unmatched (fx : DataFrame) (rc : string) (r : row) :
  (forall f, In f (rows fx) -> key_match r f = false) ->
  join_row fx rc r = [update r "rate_to_usd" NA].
Proof.
  intros H. unfold join_row.
  destruct (filter (key_match r) (rows fx)) as [| f l] eqn:E; [reflexivity |].
  assert (Hin : In f (filter (key_match r) (rows fx))) by (rewrite E; now left).
  apply filter_In in Hin. destruct Hin as [Hin Hk].
  rewrite (H f Hin) in Hk. discriminate.
Qed.

(** C3. A row of the records whose (period, currency) pair has no entry in
    the FX table is kept by the converter and gets the rate 1.0: the output
    holds a row with the same cells and [rate_to_usd = 1].  The pairs are
    those of the normalized tables, the currency defaulted and the periods
    truncated to the month. *)
Theorem missing_rate_defaults_to_one
  (df fx : DataFrame) (amount_col : string) (out : DataFrame) :
  _fx_to_usd df fx amount_col = OK out ->
  exists df1 fx1,
    _ensure_period_columns (with_currency df) = OK df1 /\
    _ensure_period_columns fx = OK fx1 /\
    forall r,
      In r (rows df1) ->
      (forall f, In f (rows fx1) -> key_match r f = false) ->
      exists o,
        In o (rows out) /\
        at_ o "rate_to_usd" = Num 1 /\
        forall c, c <> "rate_to_usd" -> c <> "amount_usd" -> at_ o c = at_ r c.
Proof.
  intros H. apply fx_to_usd_inv in H.
  destruct H as [rc [df1 [fx1 [merged [resolved [_ [Hdf1 [Hfx1 [Hm [_ [_ Hout]]]]]]]]]]].
  exists df1, fx1. split; [exact Hdf1 | split; [exact Hfx1 |]].
  intros r Hr Hno.
  apply convert_amounts_inv in Hout. destruct Hout as [_ ->].
  apply merge_rates_inv in Hm. destruct Hm as [_ [_ [_ Hrows]]].
  assert (Hj : In (update r "rate_to_usd" NA) (flat_map (join_row fx1 rc) (rows df1))).
  { apply in_flat_map. exists r. split; [exact Hr |].
    rewrite (join_row_unmatched _ _ _ Hno). now left. }
  destruct (Forall2_In_l _ _ _ _ (relabel_from_same 0 _) Hj) as [j [Hjin Hjat]].
  exists (update (update j "rate_to_usd" (fillna (Num 1) (at_ j "rate_to_usd")))
                 "amount_usd"
                 (Num (amount_value resolved
                         (update j "rate_to_usd" (fillna (Num 1) (at_ j "rate_to_usd")))
                       * cell_value (fillna (Num 1) (at_ j "rate_to_usd"))))).
  split; [| split].
  - unfold assign, fill_rates, assign; simpl. rewrite Hrows.
    rewrite map_map. apply in_map_iff. exists j. split; [| exact Hjin].
    simpl. reflexivity.
  - simpl. rewrite Hjat. reflexivity.
  - intros c Hc1 Hc2. simpl.
    destruct (String.eqb_spec c "amount_usd"); [contradiction |].
    destruct (String.eqb_spec c "rate_to_usd"); [contradiction |].
    rewrite Hjat. simpl.
    destruct (String.eqb_spec c "rate_to_usd"); [contradiction | reflexivity].
Qed.

Lemma date_eqb_eq (a b : date) : date_eqb a b = true <-> a = b.
Proof.
  unfold date_eqb. destruct a as [y m d], b as [y' m' d']; simpl.
  rewrite !andb_true_iff, !Z.eqb_eq. split.
  - intros [[-> ->] ->]. reflexivity.
  - intros H. injection H as -> -> ->. auto.
Qed.

Lemma cell_eqb_sym (a b : cell) : cell_eqb a b = cell_eqb b a.
Proof.
  destruct a, b; simpl; try reflexivity.
  - apply String.eqb_sym.
  - apply eq_true_iff_eq. rewrite !Qeq_bool_iff. split; intros H; now symmetry.
  - apply eq_true_iff_eq. rewrite !date_eqb_eq. split; intros H; now symmetry.
Qed.

Lemma cell_eqb_trans (a b c : cell) :
  cell_eqb a b = true -> cell_eqb b c = true -> cell_eqb a c = true.
Proof.
  destruct a, b, c; simpl; try discriminate; try reflexivity.
  - rewrite !String.eqb_eq. congruence.
  - rewrite !Qeq_bool_iff. intros H1 H2. now rewrite H1.
  - rewrite !date_eqb_eq. congruence.
Qed.

Lemma ForallOrdPairs_filter {A : Type} (R : A -> A -> Prop) (p : A -> bool) (l : list A) :
  ForallOrdPairs R l -> ForallOrdPairs R (filter p l).
Proof.
  induction 1 as [| a l Ha _ IH]; simpl; [constructor |].
  destruct (p a); [| exact IH].
  constructor; [| exact IH].
  rewrite Forall_forall in *. intros x Hx. apply filter_In in Hx. now apply Ha.
Qed.

(** With unique pairs a record joins at most one rate. *)
Lemma join_row_single (fx : DataFrame) (rc : string) (r : row) :
  unique_fx_keys fx -> exists x, join_row fx rc r = [update r "rate_to_usd" x].
Proof.
  intros Hu. unfold join_row.
  pose proof (ForallOrdPairs_filter _ (key_match r) _ Hu) as Hf.
  assert (Hall : forall f, In f (filter (key_match r) (rows fx)) -> key_match r f = true).
  { intros f Hin. now apply filter_In in Hin. }
  destruct (filter (key_match r) (rows fx)) as [| f [| g l]].
  - eauto.
  - simpl. eauto.
  - exfalso. inversion Hf as [| ? ? Hfg _]; subst.
    inversion Hfg as [| ? ? Hbad _]; subst.
    assert (Hkf := Hall f (or_introl eq_refl)).
    assert (Hkg := Hall g (or_intror (or_introl eq_refl))).
    unfold key_match in Hkf, Hkg. unfold fx_key_eqb in Hbad.
    apply andb_true_iff in Hkf, Hkg. destruct Hkf as [Hf1 Hf2], Hkg as [Hg1 Hg2].
    rewrite cell_eqb_sym in Hf1, Hf2.
    rewrite (cell_eqb_trans _ _ _ Hf1 Hg1), (cell_eqb_trans _ _ _ Hf2 Hg2) in Hbad.
    discriminate.
Qed.

Lemma flat_map_singletons {A B : Type} (f : A -> list B) (g : A -> B -> Prop) (l : list A) :
  (forall a, exists b, f a = [b] /\ g a b) -> Forall2 g l (flat_map f l).
Proof.
  intros H. induction l as [| a l IH]; simpl; [constructor |].
  destruct (H a) as [b [-> Hg]]. simpl. constructor; assumption.
Qed.

Lemma Forall2_trans {A B C : Type} (R : A -> B -> Prop) (S : B -> C -> Prop)
  (T : A -> C -> Prop) (l1 : list A) (l2 : list B) (l3 : list C) :
  (forall a b c, R a b -> S b c -> T a c) ->
  Forall2 R l1 l2 -> Forall2 S l2 l3 -> Forall2 T l1 l3.
Proof.
  intros H H12. revert l3.
  induction H12; intros l3 H23; inversion H23; subst; constructor; eauto.
Qed.

Lemma has_col_with_currency (df : DataFrame) (c : string) :
  has_col (with_currency df) c = has_col df c || String.eqb c "currency".
Proof.
  unfold with_currency. destruct (has_col df "currency") eqn:E.
  - destruct (String.eqb_spec c "currency") as [-> | _].
    + now rewrite E.
    + now rewrite orb_false_r.
  - apply has_col_assign.
Qed.

Lemma with_currency_rows (df : DataFrame) :
  Forall2 (fun r o => label o = label r /\
                      (forall c, c <> "currency" -> at_ o c = at_ r c) /\
                      (has_col df "currency" = true -> at_ o "currency" = at_ r "currency") /\
                      (has_col df "currency" = false -> at_ o "currency" = Str "USD"))
          (rows df) (rows (with_currency df)).
Proof.
  unfold with_currency. destruct (has_col df "currency").
  - induction (rows df); constructor; auto. repeat split; auto. discriminate.
  - unfold assign; simpl. apply Forall2_same_map. intros r _.
    repeat split; try discriminate.
    intros c Hne. simpl. destruct (String.eqb_spec c "currency"); [contradiction | reflexivity].
Qed.

Lemma mem_app (c : string) (l l' : list string) :
  mem c (l ++ l') = mem c l || mem c l'.
Proof. unfold mem. apply existsb_app. Qed.

(** C9, amended. When the (period, currency) pairs of the normalized FX table
    are unique, the converter returns one row per input row, in the same
    order, and leaves the cells of every original column other than
    [period] and [amount_usd] as they were; a missing [currency] column is
    filled with [USD].  The columns of the result are the original ones and
    [currency], [period], [rate_to_usd] and [amount_usd]; an [amount_usd]
    column of the input is overwritten. *)
Theorem converter_keeps_rows_and_columns
  (df fx : DataFrame) (amount_col : string) (out fx1 : DataFrame) :
  _fx_to_usd df fx amount_col = OK out ->
  _ensure_period_columns fx = OK fx1 ->
  unique_fx_keys fx1 ->
  List.length (rows out) = List.length (rows df) /\
  Forall2 (fun r o =>
             (forall c, has_col df c = true -> c <> "period" -> c <> "amount_usd" ->
                        at_ o c = at_ r c) /\
             (has_col df "currency" = false -> at_ o "currency" = Str "USD"))
          (rows df) (rows out) /\
  (forall c, has_col out c =
             has_col df c || mem c ["currency"; "period"; "rate_to_usd"; "amount_usd"]).
Proof.
  intros H Hfx Hu. apply fx_to_usd_inv in H.
  destruct H as [rc [df1 [fx1' [merged [resolved [_ [Hdf1 [Hfx1 [Hm [_ [_ Hout]]]]]]]]]]].
  rewrite Hfx in Hfx1. injection Hfx1 as <-.
  apply convert_amounts_inv in Hout. destruct Hout as [_ ->].
  apply merge_rates_inv in Hm. destruct Hm as [_ [Hnorate [Hcols Hrows]]].
  pose proof (ensure_period_columns_rows _ _ Hdf1) as [Hcols1 Hsame1].
  assert (Hrate : has_col df "rate_to_usd" = false).
  { rewrite (ensure_period_columns_has_col _ _ "rate_to_usd" Hdf1) in Hnorate.
    rewrite has_col_with_currency in Hnorate.
    now destruct (has_col df "rate_to_usd"). }
  (* the rows, step by step *)
  pose (keeps := fun r o : row =>
          (forall c, has_col df c = true -> c <> "period" -> c <> "amount_usd" ->
                     at_ o c = at_ r c) /\
          (has_col df "currency" = false -> at_ o "currency" = Str "USD")).
  assert (Hjoin : Forall2 (fun r j => exists x, j = update r "rate_to_usd" x)
                          (rows df1) (flat_map (join_row fx1 rc) (rows df1))).
  { apply flat_map_singletons. intros r.
    destruct (join_row_single fx1 rc r Hu) as [x Hx].
    exists (update r "rate_to_usd" x). split; [exact Hx | now exists x]. }
  assert (Hnorm : Forall2 keeps (rows df) (rows df1)).
  { refine (Forall2_trans _ _ keeps _ _ _ _ (with_currency_rows df) Hsame1).
    intros a b c Hab Hbc.
    destruct Hab as [_ [Hoth [Hkeep Hdef]]]. destruct Hbc as [_ Hper].
    split.
    - intros k Hk Hp _.
      rewrite Hper by (simpl; intros [E | []]; now apply Hp).
      destruct (String.eqb_spec k "currency") as [-> | Hne];
        [now apply Hkeep | now apply Hoth].
    - intros Hk. rewrite Hper by (simpl; intros [E | []]; discriminate).
      now apply Hdef. }
  assert (Hjoined : Forall2 keeps (rows df) (flat_map (join_row fx1 rc) (rows df1))).
  { refine (Forall2_trans _ _ keeps _ _ _ _ Hnorm Hjoin).
    intros a b c Hab Hbc.
    destruct Hab as [Hk Hd]. destruct Hbc as [x ->].
    split.
    - intros k Hin Hp Ha. cbn [at_ update].
      destruct (String.eqb_spec k "rate_to_usd") as [-> | _]; [congruence |].
      now apply Hk.
    - intros Hin. cbn [at_ update String.eqb Ascii.eqb Bool.eqb]. now apply Hd. }
  assert (Hrel :
    Forall2 keeps (rows df)
            (rows (assign (fill_rates merged) "amount_usd" DNumber
                     (fun r => Num (amount_value resolved r
                                    * cell_value (at_ r "rate_to_usd")))))).
  { unfold assign at 1, fill_rates, assign at 1; simpl rows. rewrite Hrows, map_map.
    apply Forall2_map_r.
    refine (Forall2_trans _ _ _ _ _ _ _ Hjoined (relabel_from_same 0 _)).
    intros a b c Hab Hbc. cbv beta in Hbc. destruct Hab as [Hk Hd].
    split.
    - intros k Hin Hp Ha. cbn [at_ update]. rewrite Hbc.
      destruct (String.eqb_spec k "amount_usd"); [contradiction |].
      destruct (String.eqb_spec k "rate_to_usd") as [-> | _]; [congruence |].
      now apply Hk.
    - intros Hin. cbn [at_ update String.eqb Ascii.eqb Bool.eqb]. rewrite Hbc.
      now apply Hd. }
  split; [symmetry; exact (Forall2_length Hrel) | split; [exact Hrel |]].
  intros c. rewrite has_col_assign. unfold fill_rates. rewrite has_col_assign.
  unfold has_col at 1, names. rewrite Hcols, map_app, mem_app.
  change (mem c (map fst (columns df1))) with (has_col df1 c).
  rewrite (ensure_period_columns_has_col _ _ c Hdf1), has_col_with_currency.
  simpl. destruct (has_col df c), (String.eqb c "currency"), (String.eqb c "period"),
    (String.eqb c "rate_to_usd"), (String.eqb c "amount_usd"); reflexivity.
Qed.

(** ** Cash runway *)

Lemma cash_runway_months_inv (files : Fixtures) (cash_usd : Q) (runway : float) :
  cash_runway_months files = OK (cash_usd, runway) ->
  exists d avg_burn,
    load_data files = OK d /\
    avg_burn_of files = OK avg_burn /\
    latest_cash_usd d = OK cash_usd /\
    runway = runway_of cash_usd avg_burn.
Proof.
  unfold cash_runway_months. intros H.
  apply bind_OK in H. destruct H as [d [Hd H]].
  apply bind_OK in H. destruct H as [avg [Havg H]].
  apply bind_OK in H. destruct H as [c [Hc H]].
  injection H as -> <-. exists d, avg. auto.
Qed.

Lemma Qle_bool_false_lt (x y : Q) : (y < x)%Q -> Qle_bool x y = false.
Proof.
  intros H. destruct (Qle_bool x y) eqn:E; [| reflexivity].
  apply Qle_bool_iff in E. exfalso. exact (Qlt_not_le _ _ H E).
Qed.

Lemma Qeq_bool_false_lt (x : Q) : (0 < x)%Q -> Qeq_bool x 0 = false.
Proof.
  intros H. destruct (Qeq_bool x 0) eqn:E; [| reflexivity].
  apply Qeq_bool_iff in E. rewrite E in H. exfalso. exact (Qlt_irrefl _ H).
Qed.

Lemma runway_of_nonpositive (cash_usd : Q) (avg_burn : float) :
  fle avg_burn (Fin 0) -> runway_of cash_usd avg_burn = PInf.
Proof.
  unfold runway_of. destruct avg_burn as [b | | |]; simpl; try reflexivity; try contradiction.
  intros H. apply Qle_bool_iff in H. now rewrite H.
Qed.

Lemma runway_of_positive (cash_usd b : Q) :
  (0 < b)%Q -> runway_of cash_usd (Fin b) = Fin (cash_usd / b).
Proof.
  intros H. unfold runway_of, fdiv, Qzero. simpl.
  now rewrite (Qle_bool_false_lt _ _ H), (Qeq_bool_false_lt _ H).
Qed.

Lemma runway_of_not_number (cash_usd : Q) (avg_burn : float) :
  isfinite avg_burn = false -> runway_of cash_usd avg_burn = PInf.
Proof.
  unfold runway_of. now intros ->.
Qed.








Lemma Qdiv_le_numerator (a b c : Q) : (0 < c)%Q -> (a <= b)%Q -> (a / c <= b / c)%Q.
Proof.
  intros Hc Hab. unfold Qdiv. apply Qmult_le_compat_r; [exact Hab |].
  apply Qlt_le_weak. now apply Qinv_lt_0_compat.
Qed.

Lemma Qdiv_le_denominator (c b1 b2 : Q) :
  (0 < c)%Q -> (0 < b1)%Q -> (b1 <= b2)%Q -> (c / b2 <= c / b1)%Q.
Proof.
  intros Hc H1 H12.
  assert (H2 : (0 < b2)%Q) by (eapply Qlt_le_trans; eassumption).
  apply Qle_shift_div_r; [exact H2 |].
  assert (Hq : (0 <= c / b1)%Q).
  { apply Qle_shift_div_l; [exact H1 |]. rewrite Qmult_0_l. now apply Qlt_le_weak. }
  assert (E : (c == c / b1 * b1)%Q).
  { field. intros E. rewrite E in H1. exact (Qlt_irrefl _ H1). }
  rewrite E at 1. rewrite (Qmult_comm (c / b1) b1), (Qmult_comm (c / b1) b2).
  now apply Qmult_le_compat_r.
Qed.

Lemma fle_PInf_r (a : float) : a <> NaN -> fle a PInf.
Proof. destruct a; simpl; auto. Qed.

Lemma runway_of_not_nan (cash_usd : Q) (avg_burn : float) :
  runway_of cash_usd avg_burn <> NaN.
Proof.
  unfold runway_of. destruct avg_burn as [b | | |]; simpl; try discriminate.
  destruct (Qle_bool b 0) eqn:E; [discriminate |].
  unfold Qzero. destruct (Qeq_bool b 0) eqn:E0; [| discriminate].
  apply Qeq_bool_iff in E0. exfalso.
  assert (Hle : Qle_bool b 0 = true) by (apply Qle_bool_iff; rewrite E0; apply Qle_refl).
  congruence.
Qed.

Lemma runway_of_cash_monotone (c1 c2 : Q) (avg_burn : float) :
  (c1 <= c2)%Q -> fle (runway_of c1 avg_burn) (runway_of c2 avg_burn).
Proof.
  intros Hc. destruct avg_burn as [b | | |]; try (simpl; exact I).
  destruct (Qlt_le_dec 0 b) as [Hb | Hb].
  - rewrite !runway_of_positive by assumption. simpl. now apply Qdiv_le_numerator.
  - rewrite !(runway_of_nonpositive _ (Fin b)) by exact Hb. exact I.
Qed.

Lemma runway_of_burn_antitone (c b1 b2 : Q) :
  (0 < c)%Q -> (b1 <= b2)%Q ->
  fle (runway_of c (Fin b2)) (runway_of c (Fin b1)).
Proof.
  intros Hc H12. destruct (Qlt_le_dec 0 b1) as [H1 | H1].
  - assert (H2 : (0 < b2)%Q) by (eapply Qlt_le_trans; eassumption).
    rewrite !runway_of_positive by assumption. simpl. now apply Qdiv_le_denominator.
  - rewrite (runway_of_nonpositive c (Fin b1)) by exact H1.
    apply fle_PInf_r, runway_of_not_nan.
Qed.

(** C7. The runway of [cash_runway_months] is monotone.  For the same average
    burn, a larger latest cash balance never gives a smaller runway.  For the
    same positive cash balance, a smaller average burn never gives a smaller
    runway, and the runway is infinite once the average burn is at most
    zero. *)
Theorem runway_monotone
  (files1 files2 : Fixtures) (c1 c2 : Q) (r1 r2 : float) (a1 a2 : float) :
  cash_runway_months files1 = OK (c1, r1) ->
  cash_runway_months files2 = OK (c2, r2) ->
  avg_burn_of files1 = OK a1 ->
  avg_burn_of files2 = OK a2 ->
  (a1 = a2 -> (c1 <= c2)%Q -> fle r1 r2) /\
  (forall b1 b2, a1 = Fin b1 -> a2 = Fin b2 -> (c1 == c2)%Q -> (0 < c1)%Q ->
                 (b1 <= b2)%Q ->
                 fle r2 r1 /\ ((b1 <= 0)%Q -> r1 = PInf)).
Proof.
  intros H1 H2 Ha1 Ha2.
  apply cash_runway_months_inv in H1, H2.
  destruct H1 as [d1 [a1' [_ [Ha1' [_ ->]]]]].
  destruct H2 as [d2 [a2' [_ [Ha2' [_ ->]]]]].
  rewrite Ha1 in Ha1'. injection Ha1' as <-.
  rewrite Ha2 in Ha2'. injection Ha2' as <-.
  split.
  - intros <- Hc. now apply runway_of_cash_monotone.
  - intros b1 b2 -> -> Hc Hpos Hb. split.
    + destruct (Qlt_le_dec 0 b1) as [Hb1 | Hb1].
      * assert (Hb2 : (0 < b2)%Q) by (eapply Qlt_le_trans; eassumption).
        assert (Hpos2 : (0 < c2)%Q) by now rewrite <- Hc.
        rewrite !runway_of_positive by assumption. simpl.
        rewrite Hc. now apply Qdiv_le_denominator.
      * rewrite (runway_of_nonpositive c1 (Fin b1)) by exact Hb1.
        apply fle_PInf_r, runway_of_not_nan.
    + intros Hb1. now apply runway_of_nonpositive.
Qed.

(** ** Sorting and distinct values *)

Section Sorting.

Variable A : Type.
Variable leb : A -> A -> bool.
Hypothesis leb_total : forall a b, leb a b = false -> leb b a = true.
Hypothesis leb_trans : forall a b c, leb a b = true -> leb b c = true -> leb a c = true.


Lemma insert_by_length (x : A) (l : list A) :
  List.length (insert_by leb x l) = S (List.length l).
Proof.
  induction l as [| y l IH]; simpl; [reflexivity |].
  destruct (leb x y); simpl; [reflexivity | now rewrite IH].
Qed.

Lemma sort_by_length (l : list A) : List.length (sort_by leb l) = List.length l.
Proof.
  induction l as [| x l IH]; simpl; [reflexivity |].
  now rewrite insert_by_length, IH.
Qed.

Lemma insert_by_In (x y : A) (l : list A) :
  In y (insert_by leb x l) <-> y = x \/ In y l.
Proof.
  induction l as [| z l IH]; simpl.
  - intuition.
  - destruct (leb x z); simpl; [intuition | rewrite IH; intuition].
Qed.

Lemma sort_by_In (y : A) (l : list A) : In y (sort_by leb l) <-> In y l.
Proof.
  induction l as [| x l IH]; simpl; [reflexivity |].
  rewrite insert_by_In, IH. intuition.
Qed.

Lemma insert_by_sorted (x : A) (l : list A) :
  StronglySorted (fun a b => leb a b = true) l ->
  StronglySorted (fun a b => leb a b = true) (insert_by leb x l).
Proof.
  induction 1 as [| y l Hs IH Hy]; simpl.
  - constructor; constructor.
  - destruct (leb x y) eqn:E.
    + constructor; [now constructor |].
      constructor; [exact E |].
      rewrite Forall_forall in *. intros z Hz. apply (leb_trans _ _ _ E). now apply Hy.
    + constructor; [exact IH |].
      rewrite Forall_forall in *. intros z Hz. apply insert_by_In in Hz.
      destruct Hz as [-> | Hz]; [now apply leb_total | now apply Hy].
Qed.

Lemma sort_by_sorted (l : list A) :
  StronglySorted (fun a b => leb a b = true) (sort_by leb l).
Proof.
  induction l as [| x l IH]; simpl; [constructor | now apply insert_by_sorted].
Qed.


End Sorting.

Lemma tail_two {A : Type} (l : list A) :
  (2 <= List.length l)%nat ->
  exists pre p0 p1, l = pre ++ [p0; p1] /\ tail 2 l = [p0; p1].
Proof.
  intros Hlen. unfold tail.
  pose proof (firstn_skipn (List.length l - 2) l) as Hsplit.
  pose proof (length_skipn (List.length l - 2) l) as Hk.
  destruct (skipn (List.length l - 2) l) as [| p0 [| p1 [| ? ?]]] eqn:E;
    simpl in Hk; try lia.
  exists (firstn (List.length l - 2) l), p0, p1. split; [now symmetry | reflexivity].
Qed.

Lemma tail_length_le {A : Type} (n : nat) (l : list A) :
  (List.length (tail n l) <= List.length l)%nat.
Proof. unfold tail. rewrite length_skipn. lia. Qed.

Lemma unique_by_representative {A : Type} (eqb : A -> A -> bool) (l : list A) (x : A) :
  (forall a, eqb a a = true) ->
  (forall a b c, eqb a b = true -> eqb b c = true -> eqb a c = true) ->
  In x l -> exists u, In u (unique_by eqb l) /\ eqb u x = true.
Proof.
  intros Hrefl Htrans. induction l as [| a l IH]; simpl; [contradiction |].
  intros [<- | Hin].
  - exists a. auto.
  - destruct (IH Hin) as [u [Hu Hux]].
    destruct (eqb a u) eqn:E.
    + exists a. split; [now left | now apply (Htrans _ u)].
    + exists u. split; [| exact Hux]. right. apply filter_In. now rewrite E.
Qed.


Lemma date_ltb_lt (a b : date) :
  date_ltb a b = true <->
  (year a < year b \/
   (year a = year b /\ (month a < month b \/ (month a = month b /\ day a < day b))))%Z.
Proof.
  unfold date_ltb.
  rewrite !orb_true_iff, !andb_true_iff, !orb_true_iff, !andb_true_iff,
    !Z.ltb_lt, !Z.eqb_eq. reflexivity.
Qed.

Lemma date_leb_total (a b : date) : date_leb a b = false -> date_leb b a = true.
Proof.
  unfold date_leb. rewrite negb_false_iff, negb_true_iff.
  intros H. apply date_ltb_lt in H.
  destruct (date_ltb a b) eqn:E; [| reflexivity].
  apply date_ltb_lt in E. lia.
Qed.

Lemma date_leb_trans (a b c : date) :
  date_leb a b = true -> date_leb b c = true -> date_leb a c = true.
Proof.
  unfold date_leb. rewrite !negb_true_iff. intros H1 H2.
  destruct (date_ltb c a) eqn:E; [| reflexivity].
  apply date_ltb_lt in E.
  assert (N1 : ~ (year b < year a \/
                  (year b = year a /\ (month b < month a \/ (month b = month a /\ day b < day a))))%Z)
    by (intros N; apply date_ltb_lt in N; congruence).
  assert (N2 : ~ (year c < year b \/
                  (year c = year b /\ (month c < month b \/ (month c = month b /\ day c < day b))))%Z)
    by (intros N; apply date_ltb_lt in N; congruence).
  lia.
Qed.

Lemma period_leb_total (a b : cell) : period_leb a b = false -> period_leb b a = true.
Proof.
  destruct a, b; simpl; try discriminate; try reflexivity. apply date_leb_total.
Qed.

Lemma period_leb_trans (a b c : cell) :
  period_leb a b = true -> period_leb b c = true -> period_leb a c = true.
Proof.
  destruct a, b, c; simpl; try discriminate; try reflexivity. apply date_leb_trans.
Qed.

(** ** Monthly comparison *)

Lemma unique_by_incl {A : Type} (eqb : A -> A -> bool) (l : list A) (x : A) :
  In x (unique_by eqb l) -> In x l.
Proof.
  induction l as [| a l IH]; simpl; [contradiction |].
  intros [-> | Hin]; [now left |].
  apply filter_In in Hin. right. apply IH. tauto.
Qed.



(** ** Revenue against budget *)

Lemma flat_map_single {A B : Type} (f : A -> list B) (g : A -> B) (l : list A) :
  (forall a, In a l -> f a = [g a]) -> flat_map f l = map g l.
Proof.
  induction l as [| a l IH]; simpl; intros H; [reflexivity |].
  rewrite (H a (or_introl eq_refl)). simpl. f_equal. apply IH. auto.
Qed.

Lemma relabel_from_forall (P : (string -> cell) -> bool) (n : nat) (l : list row) :
  forallb (fun r => P (at_ r)) (relabel_from n l) = forallb (fun r => P (at_ r)) l.
Proof.
  revert n. induction l as [| r l IH]; intros n; simpl; [reflexivity | now rewrite IH].
Qed.

(** The conversion of records none of which has a rate: every row is kept
    with the rate 1. *)
Lemma fx_to_usd_unmatched
  (df fx : DataFrame) (amount_col rc : string) (df1 fx1 : DataFrame) :
  rate_column fx = OK rc ->
  _ensure_period_columns (with_currency df) = OK df1 ->
  _ensure_period_columns fx = OK fx1 ->
  has_col fx "currency" = true ->
  has_col df1 "rate_to_usd" = false ->
  has_col df1 amount_col = true ->
  (forall r f, In r (rows df1) -> In f (rows fx1) -> key_match r f = false) ->
  exists out,
    _fx_to_usd df fx amount_col = OK out /\
    Forall2 (fun r o => at_ o "period" = at_ r "period" /\
                        at_ o "amount_usd"
                        = Num (amount_value amount_col
                                 (update r "rate_to_usd" (Num 1)) * 1))
            (rows df1) (rows out).
Proof.
  intros Hrc Hdf1 Hfx1 Hcur Hnorate Hamount Hno.
  unfold _fx_to_usd. rewrite Hrc, Hdf1, Hfx1. cbn [bind].
  unfold merge_rates.
  rewrite (ensure_period_columns_has_col _ _ "currency" Hfx1), Hcur, Hnorate.
  cbn [orb negb bind].
  rewrite (flat_map_single _ (fun r => update r "rate_to_usd" NA))
    by (intros r Hr; apply join_row_unmatched; intros f Hf; now apply Hno).
  unfold resolve_amount_col.
  assert (Hhas : has_col
                   (fill_rates
                      (mkDF (columns df1 ++ [("rate_to_usd", dtype_of fx1 rc)])
                            (relabel (map (fun r => update r "rate_to_usd" NA) (rows df1)))))
                   amount_col = true).
  { unfold fill_rates. rewrite has_col_assign. unfold has_col at 1, names.
    cbn [columns]. rewrite map_app, mem_app.
    change (mem amount_col (map fst (columns df1))) with (has_col df1 amount_col).
    now rewrite Hamount. }
  rewrite Hhas. cbn [bind]. unfold convert_amounts.
  assert (Hnum : forallb (fun r => is_num (at_ r "rate_to_usd"))
                   (rows (fill_rates
                      (mkDF (columns df1 ++ [("rate_to_usd", dtype_of fx1 rc)])
                            (relabel (map (fun r => update r "rate_to_usd" NA) (rows df1))))))
                 = true).
  { unfold fill_rates, assign. cbn [rows]. rewrite forallb_forall.
    intros o Ho. apply in_map_iff in Ho. destruct Ho as [j [<- Hj]].
    destruct (Forall2_In_r _ _ _ _ (relabel_from_same 0 _) Hj) as [r' [Hr' Hat]].
    apply in_map_iff in Hr'. destruct Hr' as [r [<- _]].
    cbn [at_ update String.eqb Ascii.eqb Bool.eqb]. rewrite Hat. reflexivity. }
  rewrite Hnum. eexists. split; [reflexivity |].
  unfold assign, fill_rates, assign. cbn [rows]. rewrite map_map.
  apply Forall2_map_r.
  refine (Forall2_trans _ _ _ _ _ _ _
            (Forall2_same_map (fun r j => j = update r "rate_to_usd" NA) _ _
               (fun r _ => eq_refl))
            (relabel_from_same 0 _)).
  intros r j o -> Hat. cbv beta in Hat.
  cbn [at_ update String.eqb Ascii.eqb Bool.eqb]. rewrite Hat.
  cbn [at_ update String.eqb Ascii.eqb Bool.eqb fillna cell_value].
  split; [reflexivity |].
  unfold amount_value. cbn [at_ update]. rewrite Hat. cbn [at_ update fillna].
  destruct (String.eqb amount_col "rate_to_usd"); reflexivity.
Qed.

Lemma no_june_usd_entry (f : row) :
  ~ (at_ f "period" = Ts june_2025 /\ at_ f "currency" = Str "USD") ->
  cell_eqb (Ts june_2025) (at_ f "period") && cell_eqb (Str "USD") (at_ f "currency")
  = false.
Proof.
  intros H.
  destruct (cell_eqb (Ts june_2025) (at_ f "period")) eqn:E1; [| reflexivity].
  destruct (cell_eqb (Str "USD") (at_ f "currency")) eqn:E2; [| reflexivity].
  exfalso. apply H.
  destruct (at_ f "period") as [| | | t]; try discriminate.
  destruct (at_ f "currency") as [| s | |]; try discriminate.
  cbn [cell_eqb] in E1, E2. apply date_eqb_eq in E1. apply String.eqb_eq in E2.
  now subst.
Qed.

Lemma sum_at_period_single (out : DataFrame) (o : row) (p : cell) (x : Q) :
  rows out = [o] ->
  period_eq (at_ o "period") p = true ->
  at_ o "amount_usd" = Num x ->
  sum_at_period out p = (x + 0)%Q.
Proof.
  intros Hr Hp Hx. unfold sum_at_period, sum_amount_usd. rewrite Hr. simpl filter.
  rewrite Hp. simpl. now rewrite Hx.
Qed.

(** The revenue rows of a table that holds one revenue record of June 2025
    in USD. *)
Lemma june_revenue_rows (amount : Q) (A : DataFrame) :
  _ensure_period_columns
    (_standardize_schema
       (frame_of record_columns [record june_2025 "Revenue" amount "USD"])) = OK A ->
  exists A1 r,
    _ensure_period_columns
      (with_currency (filter_rows (_is_revenue_labels (_label_series A)) A)) = OK A1 /\
    rows A1 = [r] /\
    at_ r "period" = Ts june_2025 /\
    at_ r "currency" = Str "USD" /\
    at_ r "amount" = Num amount /\
    has_col A1 "rate_to_usd" = false /\
    has_col A1 "amount" = true.
Proof.
  intros HA. vm_compute in HA. injection HA as <-.
  eexists. eexists. split; [vm_compute; reflexivity |].
  repeat split; reflexivity.
Qed.

Lemma june_revenue_usd
  (amount : Q) (A F fx2 : DataFrame) (rc : string) :
  _ensure_period_columns
    (_standardize_schema
       (frame_of record_columns [record june_2025 "Revenue" amount "USD"])) = OK A ->
  rate_column F = OK rc ->
  has_col F "currency" = true ->
  _ensure_period_columns F = OK fx2 ->
  (forall f, In f (rows fx2) ->
             ~ (at_ f "period" = Ts june_2025 /\ at_ f "currency" = Str "USD")) ->
  exists out,
    _fx_to_usd (filter_rows (_is_revenue_labels (_label_series A)) A) F "amount" = OK out /\
    sum_at_period out (Ts june_2025) = (amount * 1 + 0)%Q.
Proof.
  intros HA Hrc Hcur Hfx2 Hno.
  destruct (june_revenue_rows amount A HA)
    as [A1 [r [HA1 [Hrows [Hp [Hc [Ha [Hnr Hhas]]]]]]]].
  destruct (fx_to_usd_unmatched _ F "amount" rc A1 fx2 Hrc HA1 Hfx2 Hcur Hnr Hhas)
    as [out [Hout HF2]].
  { intros r' f Hr' Hf. rewrite Hrows in Hr'. destruct Hr' as [<- | []].
    unfold key_match. rewrite Hp, Hc. apply no_june_usd_entry. now apply Hno. }
  exists out. split; [exact Hout |].
  rewrite Hrows in HF2. inversion HF2 as [| ? o ? l' [Hop Hoa] Hnil]; subst.
  inversion Hnil; subst.
  apply (sum_at_period_single out o); [now symmetry | |].
  - rewrite Hop, Hp. reflexivity.
  - rewrite Hoa. unfold amount_value. cbn [at_ update String.eqb Ascii.eqb Bool.eqb].
    rewrite Ha. reflexivity.
Qed.

(** C1. The actuals hold exactly the row (2025-06-01, Revenue, 100000, USD),
    the budget exactly the row (2025-06-01, Revenue, 90000, USD), and the FX
    table has no entry for the pair (June 2025, USD): then
    [revenue_vs_budget("June 2025")] returns (100000, 90000, "June 2025").
    The FX and cash files are any that load, the FX table with its rate and
    currency columns; the text [June 2025] parses to a day of June 2025. *)
Theorem revenue_vs_budget_june
  (fx_file cash_file : DataFrame) (d : Loaded) (fx2 : DataFrame) (t : date) :
  load_data (mkFixtures june_actuals june_budget fx_file cash_file) = OK d ->
  has_col (fx d) "rate_to_usd" || has_col (fx d) "rate" = true ->
  has_col (fx d) "currency" = true ->
  _ensure_period_columns (fx d) = OK fx2 ->
  (forall f, In f (rows fx2) ->
             ~ (at_ f "period" = Ts june_2025 /\ at_ f "currency" = Str "USD")) ->
  dtparse "June 2025" = Some t -> year t = 2025%Z -> month t = 6%Z ->
  revenue_vs_budget (mkFixtures june_actuals june_budget fx_file cash_file)
                    (Some "June 2025")
  = OK (100000, 90000, "June 2025").
Proof.
  intros Hload Hrate Hcur Hfx2 Hno Ht Hy Hm.
  unfold revenue_vs_budget. rewrite Hload. cbn [bind].
  unfold resolve_period. change (truthy (Some "June 2025")) with true. cbv iota.
  rewrite Ht. cbn [bind]. unfold month_start. rewrite Hy, Hm.
  change (mkdate 2025 6 1) with june_2025.
  assert (Hrc : exists rc, rate_column (fx d) = OK rc).
  { unfold rate_column. destruct (has_col (fx d) "rate_to_usd"); [eauto |].
    simpl in Hrate. rewrite Hrate. eauto. }
  destruct Hrc as [rc Hrc].
  unfold load_data in Hload. cbn [actuals_csv budget_csv fx_csv cash_csv] in Hload.
  apply bind_OK in Hload. destruct Hload as [A [HA Hload]].
  apply bind_OK in Hload. destruct Hload as [B [HB Hload]].
  apply bind_OK in Hload. destruct Hload as [C [HC Hload]].
  apply bind_OK in Hload. destruct Hload as [F [HF Hload]].
  injection Hload as <-. cbn [actuals budget fx cash] in *.
  destruct (june_revenue_usd 100000 A F fx2 rc HA Hrc Hcur Hfx2 Hno) as [a_rev [Ea Sa]].
  destruct (june_revenue_usd 90000 B F fx2 rc HB Hrc Hcur Hfx2 Hno) as [b_rev [Eb Sb]].
  rewrite Ea, Eb. cbn [bind]. rewrite Sa, Sb. reflexivity.
Qed.

(** ** Zero denominators *)

Lemma Qzero_true (b : Q) : (b == 0)%Q -> Qzero b = true.
Proof. intros H. now apply Qeq_bool_iff. Qed.

Lemma Qpos_zero (b : Q) : (b == 0)%Q -> Qpos b = false.
Proof.
  intros H. unfold Qpos. apply negb_false_iff, Qle_bool_iff. rewrite H. apply Qle_refl.
Qed.

Lemma pct_change_or_zero_zero (a b : Q) : (b == 0)%Q -> pct_change_or_zero a b = 0.
Proof. intros H. unfold pct_change_or_zero. now rewrite (Qzero_true b H). Qed.

Lemma margin_pct_or_zero_zero (revenue cost : Q) :
  (revenue == 0)%Q -> margin_pct_or_zero revenue cost = 0.
Proof. intros H. unfold margin_pct_or_zero. now rewrite (Qpos_zero revenue H). Qed.

Lemma growth_pct_or_zero_zero (cur prev : Q) :
  (prev == 0)%Q -> growth_pct_or_zero cur prev = 0.
Proof. intros H. unfold growth_pct_or_zero. now rewrite (Qpos_zero prev H). Qed.

Lemma gm_pct_of_zero (revenue cogs : Q) : (revenue == 0)%Q -> gm_pct_of revenue cogs = NaN.
Proof. intros H. unfold gm_pct_of. now rewrite (Qzero_true revenue H). Qed.

Lemma fmul_hundred_not_finite (a : float) :
  isfinite a = false -> isfinite (fmul a (Fin 100)) = false.
Proof. destruct a; simpl; [discriminate | reflexivity ..]. Qed.

Lemma fdiv_zero_not_finite (y p : Q) :
  (p == 0)%Q -> isfinite (fdiv (Fin y) (Fin p)) = false.
Proof.
  intros H. unfold fdiv. rewrite (Qzero_true p H).
  destruct (Qzero y); [reflexivity |]. now destruct (Qpos y).
Qed.

(** The growth over a month without revenue is infinite or NaN. *)
Lemma mom_pct_zero (x p : Q) : (p == 0)%Q -> isfinite (mom_pct x (Fin p)) = false.
Proof.
  intros H. unfold mom_pct. apply fmul_hundred_not_finite.
  now apply fdiv_zero_not_finite.
Qed.

Lemma pct_change_100_zero (x p : Q) :
  (p == 0)%Q -> isfinite (pct_change_100 x (Fin p)) = false.
Proof.
  intros H. unfold pct_change_100. apply fmul_hundred_not_finite.
  pose proof (fdiv_zero_not_finite x p H) as Hd.
  destruct (fdiv (Fin x) (Fin p)); [discriminate | reflexivity ..].
Qed.

Lemma variance_row_of_zero (category : string) (a b : Q) :
  (v_budget (variance_row_of category a b) == 0)%Q ->
  v_variance_pct (variance_row_of category a b) = 0.
Proof. simpl. apply pct_change_or_zero_zero. Qed.

Lemma budget_variance_zero
  (files : Fixtures) (month_text : option string) (l : list variance_row) (lbl : string) :
  budget_variance_analysis files month_text = OK (l, lbl) ->
  forall v, In v l -> (v_budget v == 0)%Q -> v_variance_pct v = 0.
Proof.
  unfold budget_variance_analysis. intros H.
  apply bind_OK in H. destruct H as [d [_ H]].
  apply bind_OK in H. destruct H as [period [_ H]].
  do 6 (apply bind_OK in H; destruct H as [? [_ H]]).
  apply bind_OK in H. destruct H as [lbl' [_ H]].
  injection H as <- _.
  intros v Hin. simpl in Hin.
  destruct Hin as [<- | [<- | [<- | [<- | [<- | []]]]]]; apply variance_row_of_zero.
Qed.

Lemma month_metrics_margin (d : Loaded) (p : cell) (m : row) :
  month_metrics d p = OK m ->
  exists revenue cogs,
    at_ m "revenue" = Num revenue /\
    at_ m "gross_margin_pct" = Num (margin_pct_or_zero revenue cogs).
Proof.
  unfold month_metrics. intros H.
  apply bind_OK in H. destruct H as [rev [_ H]].
  apply bind_OK in H. destruct H as [cogs [_ H]].
  apply bind_OK in H. destruct H as [opex [_ H]].
  injection H as <-. eexists. eexists. split; reflexivity.
Qed.

Lemma monthly_comparison_zero (files : Fixtures) (out : DataFrame) (r0 r1 : row) :
  monthly_comparison files = OK out ->
  rows out = [r0; r1] ->
  ((cell_value (at_ r0 "revenue") == 0)%Q -> at_ r1 "revenue_change" = Num 0) /\
  ((cell_value (at_ r0 "opex") == 0)%Q -> at_ r1 "opex_change" = Num 0) /\
  ((cell_value (at_ r0 "ebitda") == 0)%Q -> at_ r1 "ebitda_change" = Num 0) /\
  (forall r, In r (rows out) ->
             (cell_value (at_ r "revenue") == 0)%Q -> at_ r "gross_margin_pct" = Num 0).
Proof.
  unfold monthly_comparison. intros H Hrows.
  apply bind_OK in H. destruct H as [d [_ H]].
  destruct (tail 2 (py_sorted (unique_by cell_eqb (series (actuals d) "period"))))
    as [| p0 [| p1 [| p2 ps]]].
  - injection H as <-. discriminate Hrows.
  - injection H as <-. discriminate Hrows.
  - cbn [List.length Nat.ltb Nat.leb] in H.
    apply bind_OK in H. destruct H as [results [Hres H]].
    cbn [mapM] in Hres.
    apply bind_OK in Hres. destruct Hres as [m0 [Hm0 Hres]].
    apply bind_OK in Hres. destruct Hres as [ms [Hms Hres]].
    apply bind_OK in Hms. destruct Hms as [m1 [Hm1 Hms]].
    cbn [bind] in Hms. injection Hms as <-. injection Hres as <-.
    apply month_metrics_margin in Hm0, Hm1.
    destruct Hm0 as [rev0 [cogs0 [Hr0 Hg0]]], Hm1 as [rev1 [cogs1 [Hr1 Hg1]]].
    cbn [relabel relabel_from rows List.length Nat.eqb] in H.
    injection H as <-. cbn [rows] in Hrows. unfold set_at in Hrows.
    cbn [rows map] in Hrows. injection Hrows as <- <-.
    repeat split.
    + intros Hz.
      change (Num (pct_change_or_zero (cell_value (at_ m1 "revenue"))
                     (cell_value (at_ m0 "revenue"))) = Num 0).
      f_equal. apply pct_change_or_zero_zero. exact Hz.
    + intros Hz.
      change (Num (pct_change_or_zero (cell_value (at_ m1 "opex"))
                     (cell_value (at_ m0 "opex"))) = Num 0).
      f_equal. apply pct_change_or_zero_zero. exact Hz.
    + intros Hz.
      change (Num (pct_change_or_zero (cell_value (at_ m1 "ebitda"))
                     (cell_value (at_ m0 "ebitda"))) = Num 0).
      f_equal. apply pct_change_or_zero_zero. exact Hz.
    + intros r Hin. unfold set_at in Hin. cbn [rows map] in Hin.
      destruct Hin as [<- | [<- | []]]; intros Hz.
      * change (at_ m0 "gross_margin_pct" = Num 0).
        change (cell_value (at_ m0 "revenue") == 0)%Q in Hz.
        rewrite Hg0. rewrite Hr0 in Hz. f_equal. now apply margin_pct_or_zero_zero.
      * change (at_ m1 "gross_margin_pct" = Num 0).
        change (cell_value (at_ m1 "revenue") == 0)%Q in Hz.
        rewrite Hg1. rewrite Hr1 in Hz. f_equal. now apply margin_pct_or_zero_zero.
  - exfalso. cbn [List.length Nat.ltb Nat.leb] in H.
    apply bind_OK in H. destruct H as [results [Hres H]].
    apply mapM_length in Hres. cbn [List.length] in Hres.
    assert (Hlen : List.length (relabel results) = List.length results).
    { clear. unfold relabel. generalize 0%nat. induction results; intros n; simpl; auto. }
    cbn [rows] in H. rewrite Hlen, Hres in H. cbn [Nat.eqb] in H.
    injection H as <-. cbn [rows] in Hrows.
    apply (f_equal (@List.length row)) in Hrows. rewrite Hlen, Hres in Hrows.
    simpl in Hrows. lia.
Qed.

Lemma mapM_In {A B : Type} (f : A -> result B) (l : list A) (l' : list B) (b : B) :
  mapM f l = OK l' -> In b l' -> exists a, In a l /\ f a = OK b.
Proof.
  revert l'. induction l as [| a l IH]; simpl; intros l' H Hin.
  - injection H as <-. contradiction.
  - apply bind_OK in H. destruct H as [b0 [Hb0 H]].
    apply bind_OK in H. destruct H as [bs [Hbs H]].
    injection H as <-. destruct Hin as [<- | Hin].
    + exists a. auto.
    + destruct (IH bs Hbs Hin) as [a' [Ha' Hf]]. exists a'. auto.
Qed.

Lemma yearly_comparison_zero (files : Fixtures) (l : list yearly_row) :
  yearly_comparison files = OK l ->
  forall y, In y l -> (y_revenue_prev y == 0)%Q -> y_yoy_growth_pct y = 0.
Proof.
  unfold yearly_comparison. intros H.
  apply bind_OK in H. destruct H as [d [_ H]].
  match type of H with
  | (if ?b then _ else _) = _ => destruct b
  end.
  - injection H as <-. contradiction.
  - intros y Hin.
    destruct (mapM_In _ _ _ _ H Hin) as [m [_ Hm]].
    apply bind_OK in Hm. destruct Hm as [cur [_ Hm]].
    apply bind_OK in Hm. destruct Hm as [prev [_ Hm]].
    injection Hm as <-. simpl. apply growth_pct_or_zero_zero.
Qed.

Lemma pnl_statement_zero
  (files : Fixtures) (month_text : option string) (l : list pnl_line) (lbl : string) :
  pnl_statement files month_text = OK (l, lbl) ->
  exists revenue cogs rest,
    l = mk_pnl_line (Str "Revenue") revenue "revenue"
        :: mk_pnl_line (Str "Cost of Goods Sold (COGS)") (- cogs) "cogs"
        :: mk_pnl_line (Str "Gross Profit") (revenue - cogs) "gross_profit"
        :: mk_pnl_line (Str "Gross Margin %") (margin_pct_or_zero revenue cogs) "percentage"
        :: rest /\
    ((revenue == 0)%Q -> margin_pct_or_zero revenue cogs = 0).
Proof.
  unfold pnl_statement. intros H.
  apply bind_OK in H. destruct H as [d [_ H]].
  apply bind_OK in H. destruct H as [period [_ H]].
  apply bind_OK in H. destruct H as [rev [_ H]].
  apply bind_OK in H. destruct H as [cogs [_ H]].
  apply bind_OK in H. destruct H as [opex [_ H]].
  apply bind_OK in H. destruct H as [lbl' [_ H]].
  injection H as <- _.
  eexists. eexists. eexists. split; [reflexivity |].
  apply margin_pct_or_zero_zero.
Qed.

Lemma quarter_metrics_zero (d : Loaded) (actuals_q : DataFrame) (quarter : cell)
  (q : quarter_row) :
  quarter_metrics d actuals_q quarter = OK q ->
  (q_revenue q == 0)%Q -> q_gross_margin_pct q = 0 /\ q_ebitda_margin_pct q = 0.
Proof.
  unfold quarter_metrics. intros H.
  apply bind_OK in H. destruct H as [rev [_ H]].
  apply bind_OK in H. destruct H as [cogs [_ H]].
  apply bind_OK in H. destruct H as [opex [_ H]].
  injection H as <-. simpl. intros Hz. split.
  - now apply margin_pct_or_zero_zero.
  - now rewrite (Qpos_zero _ Hz).
Qed.

Lemma quarterly_summary_inv (files : Fixtures) (t : quarterly_table) :
  quarterly_summary files = OK t ->
  (forall q, In q (quarters t) ->
             (q_revenue q == 0)%Q ->
             q_gross_margin_pct q = 0 /\ q_ebitda_margin_pct q = 0) /\
  ((2 <= List.length (quarters t))%nat ->
   revenue_qoq_growth t = Some (pct_change_column NaN (map q_revenue (quarters t))) /\
   ebitda_qoq_growth t = Some (pct_change_column NaN (map q_ebitda (quarters t)))).
Proof.
  unfold quarterly_summary. intros H.
  apply bind_OK in H. destruct H as [d [_ H]].
  apply bind_OK in H. destruct H as [qs [Hqs H]].
  assert (Hq : forall q, In q qs -> (q_revenue q == 0)%Q ->
                         q_gross_margin_pct q = 0 /\ q_ebitda_margin_pct q = 0).
  { intros q Hin. destruct (mapM_In _ _ _ _ Hqs Hin) as [c [_ Hc]].
    now apply (quarter_metrics_zero _ _ _ _ Hc). }
  destruct (1 <? List.length qs)%nat eqn:E; injection H as <-; cbn [quarters
    revenue_qoq_growth ebitda_qoq_growth]; (split; [exact Hq |]).
  - auto.
  - intros Hlen. apply Nat.ltb_ge in E. lia.
Qed.

Lemma tail_incl {A : Type} (n : nat) (l : list A) (x : A) : In x (tail n l) -> In x l.
Proof.
  unfold tail. intros H. rewrite <- (firstn_skipn (List.length l - n) l).
  apply in_or_app. now right.
Qed.

Lemma gross_margin_trend_zero (files : Fixtures) (n : nat) (l : list gm_row) :
  gross_margin_trend files n = OK l ->
  forall g, In g l -> (gm_revenue_usd g == 0)%Q -> gm_pct g = NaN.
Proof.
  unfold gross_margin_trend. intros H.
  apply bind_OK in H. destruct H as [d [_ H]].
  apply bind_OK in H. destruct H as [rev [_ H]].
  apply bind_OK in H. destruct H as [cogs [_ H]].
  injection H as <-. intros g Hin.
  apply tail_incl in Hin.
  apply in_map_iff in Hin. destruct Hin as [t [<- _]]. simpl.
  apply gm_pct_of_zero.
Qed.

Lemma growth_rows_In (seen l : list (date * Q)) (g : growth_row) :
  In g (growth_rows seen l) ->
  exists before later,
    l = before ++ (g_period g, g_amount_usd g) :: later /\
    prev_month_revenue g = previous (List.rev before ++ seen) /\
    mom_growth_pct g = mom_pct (g_amount_usd g) (prev_month_revenue g) /\
    yoy_growth_pct g
    = pct_change_100 (g_amount_usd g)
        (previous_same_month (month (g_period g)) (List.rev before ++ seen)).
Proof.
  revert seen. induction l as [| [t x] l IH]; intros seen; cbn [growth_rows];
    [intros [] |].
  intros [<- | Hin].
  - exists [], l. cbn [g_period g_amount_usd prev_month_revenue mom_growth_pct
                       yoy_growth_pct List.rev app]. auto.
  - destruct (IH _ Hin) as [before [later [Hl [Hp [Hm Hy]]]]].
    exists ((t, x) :: before), later. cbn [List.rev app].
    rewrite <- !app_assoc. cbn [app]. rewrite Hl. auto.
Qed.

Lemma pct_change_column_nth (prev : float) (pre : list Q) (a b : Q) (post : list Q) :
  nth_error (pct_change_column prev (pre ++ a :: b :: post)) (S (List.length pre))
  = Some (pct_change_100 b (Fin a)).
Proof.
  revert prev. induction pre as [| x pre IH]; intros prev; [reflexivity |].
  cbn [app pct_change_column List.length nth_error]. apply IH.
Qed.

(** The growth columns of [revenue_growth_analysis] row by row: the months
    before a row are those of the grouped revenue, the month-over-month
    growth divides by the revenue of the month just before, the growth
    within the calendar month by the revenue of the latest earlier month of
    the same calendar month, and neither tests its denominator. *)
Lemma revenue_growth_unguarded (files : Fixtures) (l : list growth_row) :
  revenue_growth_analysis files = OK l ->
  exists d revenue,
    load_data files = OK d /\
    masked_usd d (_is_revenue_labels (_label_series (actuals d))) (actuals d)
    = OK revenue /\
    forall g, In g l ->
      exists before later,
        groupby_period_sum revenue
        = before ++ (g_period g, g_amount_usd g) :: later /\
        prev_month_revenue g = previous (List.rev before) /\
        mom_growth_pct g = mom_pct (g_amount_usd g) (previous (List.rev before)) /\
        yoy_growth_pct g
        = pct_change_100 (g_amount_usd g)
            (previous_same_month (month (g_period g)) (List.rev before)) /\
        (is_zero (previous (List.rev before)) ->
         isfinite (mom_growth_pct g) = false) /\
        (is_zero (previous_same_month (month (g_period g)) (List.rev before)) ->
         isfinite (yoy_growth_pct g) = false).
Proof.
  unfold revenue_growth_analysis. intros H.
  apply bind_OK in H. destruct H as [d [Hd H]].
  apply bind_OK in H. destruct H as [revenue [Hrev H]].
  injection H as <-. exists d, revenue.
  split; [exact Hd | split; [exact Hrev |]].
  intros g Hin. apply tail_incl in Hin.
  destruct (growth_rows_In _ _ _ Hin) as [before [later [Hl [Hp [Hm Hy]]]]].
  rewrite app_nil_r in Hp, Hy. rewrite Hp in Hm.
  exists before, later. repeat (split; [assumption |]).
  split.
  - rewrite Hm. destruct (previous (List.rev before)) as [p | | |];
      cbn [is_zero]; try contradiction. apply mom_pct_zero.
  - rewrite Hy.
    destruct (previous_same_month (month (g_period g)) (List.rev before)) as [p | | |];
      cbn [is_zero]; try contradiction. apply pct_change_100_zero.
Qed.

(** The quarter-over-quarter growth of a quarter divides by the figure of
    the quarter before and does not test it. *)
Lemma quarterly_growth_unguarded (files : Fixtures) (t : quarterly_table)
  (pre : list quarter_row) (q0 q1 : quarter_row) (post : list quarter_row) :
  quarterly_summary files = OK t ->
  quarters t = pre ++ q0 :: q1 :: post ->
  exists g h,
    revenue_qoq_growth t = Some g /\ ebitda_qoq_growth t = Some h /\
    nth_error g (S (List.length pre))
    = Some (pct_change_100 (q_revenue q1) (Fin (q_revenue q0))) /\
    nth_error h (S (List.length pre))
    = Some (pct_change_100 (q_ebitda q1) (Fin (q_ebitda q0))) /\
    ((q_revenue q0 == 0)%Q ->
     isfinite (pct_change_100 (q_revenue q1) (Fin (q_revenue q0))) = false) /\
    ((q_ebitda q0 == 0)%Q ->
     isfinite (pct_change_100 (q_ebitda q1) (Fin (q_ebitda q0))) = false).
Proof.
  intros H Hq. apply quarterly_summary_inv in H. destruct H as [_ H].
  destruct H as [Hg Hh].
  { rewrite Hq, length_app. cbn [List.length]. lia. }
  exists (pct_change_column NaN (map q_revenue (quarters t))),
         (pct_change_column NaN (map q_ebitda (quarters t))).
  split; [exact Hg | split; [exact Hh |]].
  pose proof (pct_change_column_nth NaN (map q_revenue pre) (q_revenue q0)
                (q_revenue q1) (map q_revenue post)) as Hr.
  pose proof (pct_change_column_nth NaN (map q_ebitda pre) (q_ebitda q0)
                (q_ebitda q1) (map q_ebitda post)) as He.
  rewrite length_map in Hr, He.
  rewrite Hq, !map_app. cbn [map].
  split; [exact Hr | split; [exact He |]].
  split; apply pct_change_100_zero.
Qed.

(** C4. What the tools do over a zero denominator.  The percentages that
    test their denominator give 0: the variance % of
    [budget_variance_analysis]; the revenue, opex and EBITDA changes and the
    gross margin % of [monthly_comparison]; the year-over-year growth % of
    [yearly_comparison]; the gross margin % of [pnl_statement]; the gross and
    EBITDA margin % of [quarterly_summary].  [gross_margin_trend] gives a
    null [gm_pct] when the revenue is zero.  The growth columns that pandas
    computes are not tested and do not give 0: in [revenue_growth_analysis]
    the month-over-month growth of a row divides by the revenue of the month
    before, and its growth within the calendar month by the revenue of the
    latest earlier month of the same calendar month; in [quarterly_summary]
    the quarter-over-quarter growth divides by the figure of the quarter
    before.  Over a zero denominator each of them is infinite or NaN. *)
Theorem zero_denominator_policy :
  (forall files month_text l lbl,
      budget_variance_analysis files month_text = OK (l, lbl) ->
      forall v, In v l -> (v_budget v == 0)%Q -> v_variance_pct v = 0) /\
  (forall files out r0 r1,
      monthly_comparison files = OK out ->
      rows out = [r0; r1] ->
      ((cell_value (at_ r0 "revenue") == 0)%Q -> at_ r1 "revenue_change" = Num 0) /\
      ((cell_value (at_ r0 "opex") == 0)%Q -> at_ r1 "opex_change" = Num 0) /\
      ((cell_value (at_ r0 "ebitda") == 0)%Q -> at_ r1 "ebitda_change" = Num 0) /\
      (forall r, In r (rows out) ->
                 (cell_value (at_ r "revenue") == 0)%Q ->
                 at_ r "gross_margin_pct" = Num 0)) /\
  (forall files l,
      yearly_comparison files = OK l ->
      forall y, In y l -> (y_revenue_prev y == 0)%Q -> y_yoy_growth_pct y = 0) /\
  (forall files month_text l lbl,
      pnl_statement files month_text = OK (l, lbl) ->
      exists revenue cogs rest,
        l = mk_pnl_line (Str "Revenue") revenue "revenue"
            :: mk_pnl_line (Str "Cost of Goods Sold (COGS)") (- cogs) "cogs"
            :: mk_pnl_line (Str "Gross Profit") (revenue - cogs) "gross_profit"
            :: mk_pnl_line (Str "Gross Margin %") (margin_pct_or_zero revenue cogs)
                 "percentage"
            :: rest /\
        ((revenue == 0)%Q -> margin_pct_or_zero revenue cogs = 0)) /\
  (forall files t,
      quarterly_summary files = OK t ->
      (forall q, In q (quarters t) ->
                 (q_revenue q == 0)%Q ->
                 q_gross_margin_pct q = 0 /\ q_ebitda_margin_pct q = 0) /\
      ((2 <= List.length (quarters t))%nat ->
       revenue_qoq_growth t = Some (pct_change_column NaN (map q_revenue (quarters t))) /\
       ebitda_qoq_growth t = Some (pct_change_column NaN (map q_ebitda (quarters t))))) /\
  (forall x p, (p == 0)%Q -> isfinite (pct_change_100 x (Fin p)) = false) /\
  (forall files n l,
      gross_margin_trend files n = OK l ->
      forall g, In g l -> (gm_revenue_usd g == 0)%Q -> gm_pct g = NaN) /\
  (forall files l,
      revenue_growth_analysis files = OK l ->
      exists d revenue,
        load_data files = OK d /\
        masked_usd d (_is_revenue_labels (_label_series (actuals d))) (actuals d)
        = OK revenue /\
        forall g, In g l ->
          exists before later,
            groupby_period_sum revenue
            = before ++ (g_period g, g_amount_usd g) :: later /\
            prev_month_revenue g = previous (List.rev before) /\
            mom_growth_pct g = mom_pct (g_amount_usd g) (previous (List.rev before)) /\
            yoy_growth_pct g
            = pct_change_100 (g_amount_usd g)
                (previous_same_month (month (g_period g)) (List.rev before)) /\
            (is_zero (previous (List.rev before)) ->
             isfinite (mom_growth_pct g) = false) /\
            (is_zero (previous_same_month (month (g_period g)) (List.rev before)) ->
             isfinite (yoy_growth_pct g) = false)) /\
  (forall files t pre q0 q1 post,
      quarterly_summary files = OK t ->
      quarters t = pre ++ q0 :: q1 :: post ->
      exists g h,
        revenue_qoq_growth t = Some g /\ ebitda_qoq_growth t = Some h /\
        nth_error g (S (List.length pre))
        = Some (pct_change_100 (q_revenue q1) (Fin (q_revenue q0))) /\
        nth_error h (S (List.length pre))
        = Some (pct_change_100 (q_ebitda q1) (Fin (q_ebitda q0))) /\
        ((q_revenue q0 == 0)%Q ->
         isfinite (pct_change_100 (q_revenue q1) (Fin (q_revenue q0))) = false) /\
        ((q_ebitda q0 == 0)%Q ->
         isfinite (pct_change_100 (q_ebitda q1) (Fin (q_ebitda q0))) = false)).
Proof.
  split; [exact budget_variance_zero |].
  split; [exact monthly_comparison_zero |].
  split; [exact yearly_comparison_zero |].
  split; [exact pnl_statement_zero |].
  split; [exact quarterly_summary_inv |].
  split; [exact pct_change_100_zero |].
  split; [exact gross_margin_trend_zero |].
  split; [exact revenue_growth_unguarded | exact quarterly_growth_unguarded].
Qed.

(** * Further properties of the pipeline *)

(** ** The period normalizer on its edges *)

Lemma try_parse_series_nil (q : Q) : try_parse_series [] q = None.
Proof. reflexivity. Qed.

Lemma first_date_candidate_empty (df : DataFrame) (cands : list string) :
  rows df = [] -> first_date_candidate df cands = None.
Proof.
  intros Hr. induction cands as [| dc rest IH]; cbn [first_date_candidate]; [reflexivity |].
  destruct (column_at_lower df dc) as [c |]; [| exact IH].
  unfold series. rewrite Hr. cbn [map]. rewrite try_parse_series_nil. exact IH.
Qed.

Lemma first_timeish_empty (df : DataFrame) (cols : list string) :
  rows df = [] -> first_timeish df cols = None.
Proof.
  intros Hr. induction cols as [| c rest IH]; cbn [first_timeish]; [reflexivity |].
  destruct (existsb (fun k => contains k (lower c)) timeish_keywords); [| exact IH].
  unfold series. rewrite Hr. cbn [map]. rewrite try_parse_series_nil. exact IH.
Qed.

Lemma brute_force_empty (df : DataFrame) : rows df = [] -> brute_force df = None.
Proof.
  intros Hr. unfold brute_force.
  assert (H : forall cols st, fold_left (brute_force_step df) cols st = st).
  { induction cols as [| c cols IH]; intros st; simpl; [reflexivity |].
    rewrite <- (IH st) at 2. f_equal.
    unfold brute_force_step, series. rewrite Hr. reflexivity. }
  now rewrite H.
Qed.

Lemma year_month_period_empty (df : DataFrame) (ycol mcol : string) :
  rows df = [] -> year_month_period df ycol mcol = OK [].
Proof.
  intros Hr. unfold year_month_period, series. rewrite Hr. reflexivity.
Qed.

(** X1. A table without rows has no period that parses: the normalizer
    raises the error that names the columns, unless the table has both a
    year-like and a month-like column, and then it returns the table, still
    without rows, with a [period] column. *)
Theorem empty_table_period (df : DataFrame) :
  rows df = [] ->
  if has_year_and_month df
  then _ensure_period_columns df
       = OK (mkDF (set_dtype "period" DDatetime (columns df)) [])
  else _ensure_period_columns df = Raise (no_time_column df).
Proof.
  intros Hr.
  assert (Hslow : _ensure_period_columns df = slow_period_columns df).
  { unfold _ensure_period_columns.
    destruct (column_at_lower df "period") as [c |]; [| reflexivity].
    unfold series. rewrite Hr. reflexivity. }
  rewrite Hslow. unfold slow_period_columns, has_year_and_month.
  rewrite (first_date_candidate_empty df _ Hr).
  destruct (first_in ["year"; "yr"] (map lower (names df))) as [ycol |];
    [destruct (first_in ["month"; "mo"; "mnth"; "mth"] (map lower (names df)))
       as [mcol |] |]; cbn [is_some andb].
  - rewrite (year_month_period_empty df ycol mcol Hr). cbn [bind].
    unfold set_column. now rewrite Hr.
  - now rewrite (first_timeish_empty df _ Hr), (brute_force_empty df Hr).
  - now rewrite (first_timeish_empty df _ Hr), (brute_force_empty df Hr).
Qed.

Lemma dtype_of_set_dtype (h : list (string * dtype)) (c' c : string) (d : dtype) :
  match find (fun cd => String.eqb (fst cd) c') (set_dtype c d h) with
  | Some cd => snd cd
  | None => DObject
  end
  = if String.eqb c' c then d else dtype_of (mkDF h []) c'.
Proof.
  unfold dtype_of. cbn [columns].
  induction h as [| [k v] h IH]; cbn [set_dtype find fst snd].
  - destruct (String.eqb_spec c c'), (String.eqb_spec c' c); subst;
      try contradiction; try reflexivity; now exfalso.
  - destruct (String.eqb_spec k c) as [-> | Hk]; cbn [find fst snd].
    + destruct (String.eqb_spec c c'), (String.eqb_spec c' c); subst;
        try contradiction; try reflexivity; now exfalso.
    + destruct (String.eqb_spec k c') as [-> | Hkc].
      * destruct (String.eqb_spec c' c); [contradiction | reflexivity].
      * exact IH.
Qed.

(** X2. When the period normalizer returns, the table has a [period] column
    of timestamps, the header is otherwise the one of the input, and the rows
    are those of the input, in order and with their labels: every column but
    [period] keeps its cells. *)
Theorem period_normalizer_keeps_table (df out : DataFrame) :
  _ensure_period_columns df = OK out ->
  has_col out "period" = true /\
  dtype_of out "period" = DDatetime /\
  (forall c, c <> "period" -> has_col out c = has_col df c /\
                              dtype_of out c = dtype_of df c) /\
  List.length (rows out) = List.length (rows df) /\
  Forall2 (fun r o => label o = label r /\
                      forall c, c <> "period" -> at_ o c = at_ r c)
          (rows df) (rows out).
Proof.
  intros H.
  pose proof (ensure_period_columns_rows df out H) as [Hcols Hrows].
  assert (Hdt : forall c, dtype_of out c
                          = if String.eqb c "period" then DDatetime else dtype_of df c).
  { intros c. unfold dtype_of at 1. rewrite Hcols.
    exact (dtype_of_set_dtype (columns df) c "period" DDatetime). }
  split; [| split; [| split; [| split]]].
  - rewrite (ensure_period_columns_has_col df out "period" H).
    apply orb_true_r.
  - now rewrite Hdt.
  - intros c Hne. split.
    + rewrite (ensure_period_columns_has_col df out c H).
      destruct (String.eqb_spec c "period"); [contradiction | apply orb_false_r].
    + rewrite Hdt. destruct (String.eqb_spec c "period"); [contradiction | reflexivity].
  - exact (same_except_length _ _ _ Hrows).
  - unfold same_except in Hrows.
    refine (Forall2_impl _ _ Hrows). intros r o [Hl Hc]. split; [exact Hl |].
    intros c Hne. apply Hc. simpl. intros [E | []]. now apply Hne.
Qed.

Lemma ensure_fast_path (df : DataFrame) (c : string) :
  column_at_lower df "period" = Some c ->
  existsb is_some (map to_datetime (series df c)) = true ->
  _ensure_period_columns df
  = OK (assign df "period" DDatetime (fun r => to_month (to_datetime (at_ r c)))).
Proof.
  intros Hc Hex. unfold _ensure_period_columns. rewrite Hc, Hex. f_equal.
  unfold series. rewrite !map_map.
  exact (set_column_assign df "period" DDatetime
           (fun r => to_month (to_datetime (at_ r c)))).
Qed.

Lemma names_set_dtype (c : string) (d : dtype) (h : list (string * dtype)) :
  map fst (set_dtype c d h)
  = if mem c (map fst h) then map fst h else map fst h ++ [c].
Proof.
  unfold mem. induction h as [| [k v] h IH]; cbn [set_dtype map fst existsb]; [reflexivity |].
  rewrite (String.eqb_sym c k).
  destruct (String.eqb_spec k c) as [-> | Hne]; cbn [map fst orb]; [reflexivity |].
  rewrite IH. now destruct (existsb (String.eqb c) (map fst h)).
Qed.

Lemma set_dtype_idempotent (c : string) (d : dtype) (h : list (string * dtype)) :
  set_dtype c d (set_dtype c d h) = set_dtype c d h.
Proof.
  induction h as [| [k v] h IH]; cbn [set_dtype].
  - now rewrite String.eqb_refl.
  - destruct (String.eqb_spec k c) as [-> | Hne]; cbn [set_dtype].
    + now rewrite String.eqb_refl.
    + destruct (String.eqb_spec k c); [contradiction | now rewrite IH].
Qed.

Lemma find_app_some {A : Type} (p : A -> bool) (l l' : list A) (x : A) :
  find p l = Some x -> find p (l ++ l') = Some x.
Proof.
  induction l as [| a l IH]; simpl; [discriminate |].
  destruct (p a); [auto | exact IH].
Qed.

Lemma to_datetime_to_month (o : option date) :
  to_datetime (to_month o) = option_map month_start o.
Proof. now destruct o. Qed.

Lemma to_month_idempotent (o : option date) :
  to_month (to_datetime (to_month o)) = to_month o.
Proof. now destruct o. Qed.

(** X3. Normalizing twice is normalizing once.  When the fast path applies
    (a column named [period] up to case, with one value that parses), the
    table it returns is accepted again by the fast path and comes back with
    the same header and the same cells in every column; its periods are
    missing or the first day of a month. *)
Theorem period_fast_path_idempotent (df : DataFrame) (c : string) (out : DataFrame) :
  column_at_lower df "period" = Some c ->
  Exists (fun x => to_datetime x <> None) (series df c) ->
  _ensure_period_columns df = OK out ->
  exists out2,
    _ensure_period_columns out = OK out2 /\
    columns out2 = columns out /\
    (forall c', series out2 c' = series out c') /\
    Forall (fun p => p = NA \/ exists t, p = Ts t /\ day t = 1%Z)
           (series out "period").
Proof.
  intros Hc Hany Hout.
  assert (Hex : existsb is_some (map to_datetime (series df c)) = true).
  { apply existsb_exists. apply Exists_exists in Hany.
    destruct Hany as [x [Hin Hx]].
    exists (to_datetime x). split; [now apply in_map |].
    destruct (to_datetime x); [reflexivity | contradiction]. }
  rewrite (ensure_fast_path df c Hc Hex) in Hout. injection Hout as <-.
  set (f := fun r : row => to_month (to_datetime (at_ r c))).
  assert (Hc2 : column_at_lower (assign df "period" DDatetime f) "period" = Some c).
  { unfold column_at_lower, names, assign. cbn [columns].
    rewrite names_set_dtype. unfold column_at_lower, names in Hc.
    destruct (mem "period" (map fst (columns df))); [exact Hc |].
    now apply find_app_some. }
  assert (Hval : forall r, at_ (update r "period" (f r)) c
                           = if String.eqb c "period" then f r else at_ r c).
  { intros r. reflexivity. }
  assert (Hf2 : forall r,
             to_month (to_datetime (at_ (update r "period" (f r)) c)) = f r).
  { intros r. rewrite Hval. destruct (String.eqb c "period"); [| reflexivity].
    unfold f. apply to_month_idempotent. }
  assert (Hex2 : existsb is_some
                   (map to_datetime (series (assign df "period" DDatetime f) c)) = true).
  { unfold series, assign. cbn [rows]. rewrite !map_map.
    unfold series in Hex. rewrite map_map in Hex.
    apply existsb_exists in Hex. destruct Hex as [o [Hin Ho]].
    apply in_map_iff in Hin. destruct Hin as [r [<- Hr]].
    apply existsb_exists.
    exists (to_datetime (at_ (update r "period" (f r)) c)).
    split; [apply in_map_iff; exists r; auto |].
    rewrite Hval. destruct (String.eqb c "period"); [| exact Ho].
    unfold f. rewrite to_datetime_to_month. now destruct (to_datetime (at_ r c)). }
  eexists. split; [exact (ensure_fast_path _ c Hc2 Hex2) | split; [| split]].
  - unfold assign. cbn [columns]. apply set_dtype_idempotent.
  - intros c'. unfold series, assign. cbn [rows]. rewrite !map_map.
    apply map_ext. intros r. rewrite Hf2. cbn [at_ update].
    destruct (String.eqb c' "period"); reflexivity.
  - rewrite series_assign_same. apply Forall_forall. intros p Hp.
    apply in_map_iff in Hp. destruct Hp as [r [<- _]]. unfold f.
    destruct (to_datetime (at_ r c)) as [t |]; [right | now left].
    exists (month_start t). split; reflexivity.
Qed.

Lemma Zpos_of_nat_S (n : nat) : Z.pos (Pos.of_nat (S n)) = Z.of_nat (S n).
Proof.
  rewrite <- Pos.of_nat_succ. now rewrite Zpos_P_of_succ_nat, Nat2Z.inj_succ.
Qed.

(** X4. The 60% rule of the slower strategies, in whole numbers: a column is
    accepted exactly when it has at least one value and ten times the number
    of values that parse is at least six times the number of values; the
    periods are then the parsed values truncated to the month, the others
    missing.  Three of five is accepted; an empty column never is. *)
Theorem try_parse_series_threshold (s : list cell) :
  (s <> [] /\ (6 * List.length s <= 10 * parsed_count s)%nat ->
   try_parse_series s (6 # 10) = Some (map (fun x => to_month (to_datetime x)) s)) /\
  (s = [] \/ (10 * parsed_count s < 6 * List.length s)%nat ->
   try_parse_series s (6 # 10) = None).
Proof.
  unfold try_parse_series, parsed_count.
  destruct s as [| x s].
  - split; [intros [H _]; contradiction | reflexivity].
  - cbn [map notna_mean].
    set (ts := to_datetime x :: map to_datetime s).
    assert (Hlen : List.length ts = S (List.length s))
      by (unfold ts; cbn [List.length]; now rewrite length_map).
    rewrite Hlen. set (k := List.length (filter is_some ts)).
    assert (Hq : Qle_bool (6 # 10) (Z.of_nat k # Pos.of_nat (S (List.length s))) = true
                 <-> (6 * S (List.length s) <= 10 * k)%nat).
    { rewrite Qle_bool_iff. unfold Qle. cbn [Qnum Qden].
      rewrite Zpos_of_nat_S. lia. }
    cbn [List.length]. split.
    + intros [_ Hge]. apply Hq in Hge. rewrite Hge.
      unfold ts. cbn [map]. now rewrite map_map.
    + intros [Hnil | Hlt]; [discriminate |].
      assert (Eq : Qle_bool (6 # 10) (Z.of_nat k # Pos.of_nat (S (List.length s))) = false)
        by (apply not_true_is_false; intros Eq; apply Hq in Eq; lia).
      now rewrite Eq.
Qed.

(** ** The schema normalizer *)

Lemma copy_column_keeps (df : DataFrame) (target : string) (src : option string)
  (c : string) :
  has_col df c = true ->
  has_col (copy_column df target src) c = true /\
  series (copy_column df target src) c = series df c.
Proof.
  intros Hc. unfold copy_column.
  destruct src as [s |]; [| auto].
  destruct (truthy (Some s) && negb (has_col df target)) eqn:E; [| auto].
  apply andb_true_iff in E. destruct E as [_ E]. apply negb_true_iff in E.
  assert (Hne : c <> target) by (intros ->; congruence).
  split.
  - rewrite has_col_assign, Hc. reflexivity.
  - now apply series_assign_other.
Qed.

Lemma numeric_column_keeps (df : DataFrame) (target : string) (src : option string)
  (c : string) :
  has_col df c = true ->
  has_col (numeric_column df target src) c = true /\
  series (numeric_column df target src) c = series df c.
Proof.
  intros Hc. unfold numeric_column.
  destruct src as [s |]; [| auto].
  destruct (truthy (Some s) && negb (has_col df target)) eqn:E; [| auto].
  apply andb_true_iff in E. destruct E as [_ E]. apply negb_true_iff in E.
  assert (Hne : c <> target) by (intros ->; congruence).
  split.
  - rewrite has_col_assign, Hc. reflexivity.
  - now apply series_assign_other.
Qed.

Lemma copy_column_rows (df : DataFrame) (target : string) (src : option string) :
  same_except [target] (rows df) (rows (copy_column df target src)).
Proof.
  unfold copy_column. destruct src as [s |]; [| apply same_except_refl].
  destruct (truthy (Some s) && negb (has_col df target)); [| apply same_except_refl].
  apply same_except_update.
Qed.

Lemma numeric_column_rows (df : DataFrame) (target : string) (src : option string) :
  same_except [target] (rows df) (rows (numeric_column df target src)).
Proof.
  unfold numeric_column. destruct src as [s |]; [| apply same_except_refl].
  destruct (truthy (Some s) && negb (has_col df target)); [| apply same_except_refl].
  apply same_except_update.
Qed.

Lemma series_rename (f : string -> string) (df : DataFrame) (c0 : string) :
  find (fun c => String.eqb (f c) (f c0)) (names df) = Some c0 ->
  series (rename_columns f df) (f c0) = series df c0.
Proof.
  intros H. unfold series, rename_columns. cbn [rows]. rewrite map_map.
  apply map_ext. intros r. cbn [at_]. now rewrite H.
Qed.

(** X5. The schema normalizer discards and overwrites nothing.  The result
    has the rows of the input, in order and with their labels, and every
    column of the input is present under its normalized name with the cells
    it had (a column being the first of its normalized name): the canonical
    columns are added beside them, and a column that already bears a
    canonical name is left as it is. *)
Theorem standardize_schema_keeps_columns (df : DataFrame) (c0 : string) :
  find (fun c => String.eqb (normalize_name c) (normalize_name c0)) (names df)
  = Some c0 ->
  has_col (_standardize_schema df) (normalize_name c0) = true /\
  series (_standardize_schema df) (normalize_name c0) = series df c0 /\
  List.length (rows (_standardize_schema df)) = List.length (rows df) /\
  map label (rows (_standardize_schema df)) = map label (rows df).
Proof.
  intros Hfind.
  assert (Hin : In c0 (names df)) by (apply find_some in Hfind; tauto).
  assert (H0 : has_col (normalized_columns df) (normalize_name c0) = true).
  { unfold has_col, names, normalized_columns, rename_columns, mem. cbn [columns].
    rewrite map_map. cbn [fst]. apply existsb_exists. exists (normalize_name c0).
    split; [| apply String.eqb_refl].
    unfold names in Hin. apply in_map_iff in Hin. destruct Hin as [cd [<- Hcd]].
    apply in_map_iff. exists cd. auto. }
  assert (S0 : series (normalized_columns df) (normalize_name c0) = series df c0)
    by (apply series_rename; exact Hfind).
  unfold _standardize_schema. fold (normalized_columns df).
  set (df1 := normalized_columns df) in *.
  set (amount_col :=
         match pick df1 amount_aliases with
         | Some c => Some c
         | None => hd_error (filter (fun c => negb (mem c ["rate"; "rate_to_usd"]))
                                    (numeric_columns df1))
         end).
  set (df2 := copy_column df1 "account" (pick df1 account_aliases)).
  set (df3 := numeric_column df2 "amount" amount_col).
  set (df4 := copy_column df3 "currency" (pick df1 currency_aliases)).
  destruct (copy_column_keeps df1 "account" (pick df1 account_aliases) _ H0) as [H2 S2].
  fold df2 in H2, S2.
  destruct (numeric_column_keeps df2 "amount" amount_col _ H2) as [H3 S3].
  fold df3 in H3, S3.
  destruct (copy_column_keeps df3 "currency" (pick df1 currency_aliases) _ H3) as [H4 S4].
  fold df4 in H4, S4.
  destruct (copy_column_keeps df4 "entity" (pick df1 entity_aliases) _ H4) as [H5 S5].
  split; [exact H5 | split; [congruence |]].
  assert (Hrows : Forall2 (fun r o => label o = label r) (rows df)
                    (rows (copy_column df4 "entity" (pick df1 entity_aliases)))).
  { assert (R1 : Forall2 (fun r o => label o = label r) (rows df) (rows df1)).
    { unfold df1, normalized_columns, rename_columns. cbn [rows].
      apply Forall2_same_map. reflexivity. }
    assert (Hstep : forall l l' l'' cs,
               Forall2 (fun r o => label o = label r) l l' ->
               same_except cs l' l'' ->
               Forall2 (fun r o : row => label o = label r) l l'').
    { intros l l' l'' cs Ha Hb.
      refine (Forall2_trans _ _ _ _ _ _ _ Ha Hb).
      intros a b c Hab [Hbc _]. congruence. }
    eapply Hstep; [| apply copy_column_rows].
    eapply Hstep; [| apply copy_column_rows].
    eapply Hstep; [| apply numeric_column_rows].
    eapply Hstep; [exact R1 | apply copy_column_rows]. }
  split.
  - symmetry. exact (Forall2_length Hrows).
  - clear -Hrows. induction Hrows; simpl; [reflexivity | congruence].
Qed.

Lemma lower_ascii_idempotent (c : ascii) : lower_ascii (lower_ascii c) = lower_ascii c.
Proof.
  destruct c as [[] [] [] [] [] [] [] []]; reflexivity.
Qed.

Lemma lower_idempotent (s : string) : lower (lower s) = lower s.
Proof.
  induction s as [| c s IH]; simpl; [reflexivity |].
  now rewrite lower_ascii_idempotent, IH.
Qed.

Lemma lower_ascii_underscore (c : ascii) :
  lower_ascii (if Ascii.eqb c " "%char then "_"%char else c)
  = if Ascii.eqb (lower_ascii c) " "%char then "_"%char else lower_ascii c.
Proof.
  destruct c as [[] [] [] [] [] [] [] []]; reflexivity.
Qed.

Lemma lower_replace_spaces (s : string) :
  lower (replace_spaces s) = replace_spaces (lower s).
Proof.
  induction s as [| c s IH]; simpl; [reflexivity |].
  now rewrite lower_ascii_underscore, IH.
Qed.

Lemma replace_spaces_no_space (s : string) : contains " " (replace_spaces s) = false.
Proof.
  induction s as [| c s IH]; [reflexivity |].
  cbn [replace_spaces contains startswith]. rewrite IH.
  destruct (Ascii.eqb_spec c " "%char) as [-> | Hne]; [reflexivity |].
  destruct (Ascii.eqb_spec " "%char c) as [E | _]; [now symmetry in E | reflexivity].
Qed.

Lemma normalize_name_canonical (c : string) :
  lower (normalize_name c) = normalize_name c /\
  contains " " (normalize_name c) = false.
Proof.
  unfold normalize_name. split.
  - now rewrite lower_replace_spaces, lower_idempotent.
  - apply replace_spaces_no_space.
Qed.

Lemma names_copy_column (df : DataFrame) (target : string) (src : option string) (c : string) :
  In c (names (copy_column df target src)) -> In c (names df) \/ c = target.
Proof.
  unfold copy_column. destruct src as [s |]; [| auto].
  destruct (truthy (Some s) && negb (has_col df target)); [| auto].
  unfold names, assign. cbn [columns]. rewrite names_set_dtype.
  destruct (mem target (map fst (columns df))); [auto |].
  intros H. apply in_app_or in H. destruct H as [H | [<- | []]]; auto.
Qed.

Lemma names_numeric_column (df : DataFrame) (target : string) (src : option string)
  (c : string) :
  In c (names (numeric_column df target src)) -> In c (names df) \/ c = target.
Proof.
  unfold numeric_column. destruct src as [s |]; [| auto].
  destruct (truthy (Some s) && negb (has_col df target)); [| auto].
  unfold names, assign. cbn [columns]. rewrite names_set_dtype.
  destruct (mem target (map fst (columns df))); [auto |].
  intros H. apply in_app_or in H. destruct H as [H | [<- | []]]; auto.
Qed.

(** X6. After the schema normalizer every column name is in lower case and
    holds no space, whatever the case and the spacing of the names in the
    file. *)
Theorem standardize_schema_names (df : DataFrame) (c : string) :
  In c (names (_standardize_schema df)) ->
  lower c = c /\ contains " " c = false.
Proof.
  unfold _standardize_schema. intros H.
  apply names_copy_column in H. destruct H as [H | ->]; [| now split].
  apply names_copy_column in H. destruct H as [H | ->]; [| now split].
  apply names_numeric_column in H. destruct H as [H | ->]; [| now split].
  apply names_copy_column in H. destruct H as [H | ->]; [| now split].
  unfold names, rename_columns in H. cbn [columns] in H.
  rewrite map_map in H. cbn [fst] in H.
  apply in_map_iff in H. destruct H as [cd [<- _]].
  apply normalize_name_canonical.
Qed.

(** X7. An [amount] column that the schema normalizer creates holds numbers
    or missing values only, text that does not parse having become missing:
    its cells are those of the first amount alias, or of the first numeric
    column that is no rate, coerced.  A column that the file already names
    [amount] is not coerced. *)
Theorem standardize_schema_amount (df : DataFrame) :
  (has_col (normalized_columns df) "amount" = false ->
   Forall numeric_cell (series (_standardize_schema df) "amount")) /\
  (has_col (normalized_columns df) "amount" = true ->
   series (_standardize_schema df) "amount" = series (normalized_columns df) "amount").
Proof.
  unfold _standardize_schema. fold (normalized_columns df).
  set (df1 := normalized_columns df).
  set (amount_col :=
         match pick df1 amount_aliases with
         | Some c => Some c
         | None => hd_error (filter (fun c => negb (mem c ["rate"; "rate_to_usd"]))
                                    (numeric_columns df1))
         end).
  set (df2 := copy_column df1 "account" (pick df1 account_aliases)).
  set (df3 := numeric_column df2 "amount" amount_col).
  set (df4 := copy_column df3 "currency" (pick df1 currency_aliases)).
  set (df5 := copy_column df4 "entity" (pick df1 entity_aliases)).
  assert (Hlater : series df5 "amount" = series df3 "amount").
  { assert (Hs : forall d t s, t <> "amount" ->
                   series (copy_column d t s) "amount" = series d "amount").
    { intros d t s Hne. unfold copy_column. destruct s as [s |]; [| reflexivity].
      destruct (truthy (Some s) && negb (has_col d t)); [| reflexivity].
      apply series_assign_other. congruence. }
    unfold df5, df4. rewrite !Hs by discriminate. reflexivity. }
  rewrite Hlater. split.
  - intros Hno.
    assert (Hno2 : has_col df2 "amount" = false).
    { unfold df2, copy_column. destruct (pick df1 account_aliases) as [s |]; [| exact Hno].
      destruct (truthy (Some s) && negb (has_col df1 "account")); [| exact Hno].
      rewrite has_col_assign, Hno. reflexivity. }
    unfold df3, numeric_column.
    destruct amount_col as [a |].
    + destruct (truthy (Some a) && negb (has_col df2 "amount")).
      * rewrite series_assign_same. apply Forall_forall. intros x Hx.
        apply in_map_iff in Hx. destruct Hx as [r [<- _]].
        destruct (to_numeric (at_ r a)) as [q |]; cbn [num_cell];
          [right; exists q; reflexivity | now left].
      * apply Forall_forall. intros x Hx.
        apply in_map_iff in Hx. destruct Hx as [r [<- Hr]].
        left. revert r Hr.
        assert (Hcopy : Forall (fun r => at_ r "amount" = NA) (rows df2)).
        { unfold df2, copy_column.
          assert (H1 : Forall (fun r => at_ r "amount" = NA) (rows df1)).
          { unfold df1, normalized_columns, rename_columns. cbn [rows].
            apply Forall_forall. intros r Hr. apply in_map_iff in Hr.
            destruct Hr as [r0 [<- _]]. cbn [at_].
            destruct (find (fun c => String.eqb (normalize_name c) "amount") (names df))
              as [c |] eqn:Ef; [| reflexivity].
            exfalso. apply find_some in Ef. destruct Ef as [Hin Heq].
            apply String.eqb_eq in Heq.
            assert (Hhas : has_col df1 "amount" = true).
            { unfold has_col, names, df1, normalized_columns, rename_columns, mem.
              cbn [columns]. rewrite map_map. cbn [fst]. apply existsb_exists.
              exists "amount". split; [| reflexivity].
              unfold names in Hin. apply in_map_iff in Hin. destruct Hin as [cd [<- Hcd]].
              apply in_map_iff. exists cd. auto. }
            congruence. }
          destruct (pick df1 account_aliases) as [s |]; [| exact H1].
          destruct (truthy (Some s) && negb (has_col df1 "account")); [| exact H1].
          unfold assign. cbn [rows]. apply Forall_forall. intros r Hr.
          apply in_map_iff in Hr. destruct Hr as [r0 [<- Hr0]].
          rewrite Forall_forall in H1. cbn [at_ update String.eqb Ascii.eqb Bool.eqb].
          now apply H1. }
        rewrite Forall_forall in Hcopy. exact Hcopy.
    + apply Forall_forall. intros x Hx.
      apply in_map_iff in Hx. destruct Hx as [r [<- Hr]]. left.
      unfold df2, copy_column in Hr.
      assert (H1 : forall r, In r (rows df1) -> at_ r "amount" = NA).
      { unfold df1, normalized_columns, rename_columns. cbn [rows].
        intros r1 Hr1. apply in_map_iff in Hr1.
        destruct Hr1 as [r0 [<- _]]. cbn [at_].
        destruct (find (fun c => String.eqb (normalize_name c) "amount") (names df))
          as [c |] eqn:Ef; [| reflexivity].
        exfalso. apply find_some in Ef. destruct Ef as [Hin Heq].
        apply String.eqb_eq in Heq.
        assert (Hhas : has_col df1 "amount" = true).
        { unfold has_col, names, df1, normalized_columns, rename_columns, mem.
          cbn [columns]. rewrite map_map. cbn [fst]. apply existsb_exists.
          exists "amount". split; [| reflexivity].
          unfold names in Hin. apply in_map_iff in Hin. destruct Hin as [cd [<- Hcd]].
          apply in_map_iff. exists cd. auto. }
        congruence. }
      destruct (pick df1 account_aliases) as [s |]; [| now apply H1].
      destruct (truthy (Some s) && negb (has_col df1 "account")); [| now apply H1].
      unfold assign in Hr. cbn [rows] in Hr.
      apply in_map_iff in Hr. destruct Hr as [r0 [<- Hr0]].
      cbn [at_ update String.eqb Ascii.eqb Bool.eqb]. now apply H1.
  - intros Hyes.
    destruct (copy_column_keeps df1 "account" (pick df1 account_aliases) _ Hyes)
      as [H2 S2]. fold df2 in H2, S2.
    destruct (numeric_column_keeps df2 "amount" amount_col _ H2) as [_ S3].
    fold df3 in S3. congruence.
Qed.

(** ** The currency converter *)

Lemma relabel_length (l : list row) : List.length (relabel l) = List.length l.
Proof.
  symmetry. exact (Forall2_length (relabel_from_same 0 l)).
Qed.

Lemma join_row_length (fx : DataFrame) (rc : string) (r : row) :
  List.length (join_row fx rc r) = Nat.max 1 (match_count fx r).
Proof.
  unfold join_row, match_count.
  destruct (filter (key_match r) (rows fx)) as [| f l]; [reflexivity |].
  rewrite length_map. cbn [List.length]. lia.
Qed.

Lemma flat_map_length {A B : Type} (f : A -> list B) (l : list A) :
  List.length (flat_map f l) = list_sum (map (fun a => List.length (f a)) l).
Proof.
  induction l as [| a l IH]; [reflexivity |].
  simpl. now rewrite length_app, IH.
Qed.

Lemma list_sum_ge_length {A : Type} (f : A -> nat) (l : list A) :
  (forall a, 1 <= f a)%nat -> (List.length l <= list_sum (map f l))%nat.
Proof.
  intros Hf. induction l as [| a l IH]; [reflexivity |].
  simpl. specialize (Hf a). lia.
Qed.

Lemma join_row_origin (fx : DataFrame) (rc : string) (r j : row) :
  In j (join_row fx rc r) ->
  label j = label r /\ forall c, c <> "rate_to_usd" -> at_ j c = at_ r c.
Proof.
  unfold join_row.
  assert (Hu : forall x, label (update r "rate_to_usd" x) = label r /\
                         forall c, c <> "rate_to_usd" ->
                                   at_ (update r "rate_to_usd" x) c = at_ r c).
  { intros x. split; [reflexivity |]. intros c Hc.
    cbn [at_ update]. destruct (String.eqb_spec c "rate_to_usd"); [contradiction | reflexivity]. }
  destruct (filter (key_match r) (rows fx)) as [| f l].
  - intros [<- | []]. apply Hu.
  - intros Hin. apply in_map_iff in Hin. destruct Hin as [g [<- _]]. apply Hu.
Qed.

(** X8. The converter is a left join and never drops a record.  A record
    with [k] entries of the FX table under its (period, currency) key gives
    [max 1 k] rows of the result, so the result has at least as many rows as
    the records, and more as soon as the FX table repeats a key that a record
    bears; every row of the result is a record with the two columns
    [rate_to_usd] and [amount_usd] written. *)
Theorem converter_row_count
  (df fx : DataFrame) (amount_col : string) (out : DataFrame) :
  _fx_to_usd df fx amount_col = OK out ->
  exists df1 fx1,
    _ensure_period_columns (with_currency df) = OK df1 /\
    _ensure_period_columns fx = OK fx1 /\
    List.length (rows out) = joined_count df1 fx1 /\
    (List.length (rows df) <= List.length (rows out))%nat /\
    forall o, In o (rows out) ->
      exists r, In r (rows df1) /\
        forall c, c <> "rate_to_usd" -> c <> "amount_usd" -> at_ o c = at_ r c.
Proof.
  intros H. apply fx_to_usd_inv in H.
  destruct H as [rc [df1 [fx1 [merged [resolved [_ [Hdf1 [Hfx1 [Hm [_ [_ Hout]]]]]]]]]]].
  exists df1, fx1. split; [exact Hdf1 | split; [exact Hfx1 |]].
  apply convert_amounts_inv in Hout. destruct Hout as [_ ->].
  apply merge_rates_inv in Hm. destruct Hm as [_ [_ [_ Hrows]]].
  assert (Hlen : List.length (rows (assign (fill_rates merged) "amount_usd" DNumber
                   (fun r => Num (amount_value resolved r
                                  * cell_value (at_ r "rate_to_usd")))))
                 = joined_count df1 fx1).
  { unfold assign, fill_rates, assign. cbn [rows]. rewrite !length_map, Hrows.
    rewrite relabel_length, flat_map_length. unfold joined_count.
    f_equal. apply map_ext. intros r. apply join_row_length. }
  assert (Hdf : List.length (rows df) = List.length (rows df1)).
  { apply ensure_period_columns_rows in Hdf1. destruct Hdf1 as [_ Hs].
    rewrite <- (Forall2_length Hs). exact (Forall2_length (with_currency_rows df)). }
  split; [exact Hlen | split].
  - rewrite Hlen, Hdf. unfold joined_count. apply list_sum_ge_length. intros a. lia.
  - intros o Ho. unfold assign, fill_rates, assign in Ho. cbn [rows] in Ho.
    rewrite map_map in Ho. apply in_map_iff in Ho. destruct Ho as [j [<- Hj]].
    rewrite Hrows in Hj.
    destruct (Forall2_In_r _ _ _ _ (relabel_from_same 0 _) Hj) as [j0 [Hj0 Hat]].
    apply in_flat_map in Hj0. destruct Hj0 as [r [Hr Hjr]].
    exists r. split; [exact Hr |]. intros c Hc1 Hc2.
    cbn [at_ update].
    destruct (String.eqb_spec c "amount_usd"); [contradiction |].
    destruct (String.eqb_spec c "rate_to_usd"); [contradiction |].
    rewrite Hat. now apply (join_row_origin _ _ _ _ Hjr).
Qed.

(** X9. A record whose (period, currency) key has an entry in the FX table
    is converted with the rate of that entry, a missing rate counting as 1:
    for every such entry the result has a row that bears its rate and the
    other columns of the record. *)
Theorem matched_rate_is_applied
  (df fx : DataFrame) (amount_col : string) (out : DataFrame) :
  _fx_to_usd df fx amount_col = OK out ->
  exists rc df1 fx1,
    rate_column fx = OK rc /\
    _ensure_period_columns (with_currency df) = OK df1 /\
    _ensure_period_columns fx = OK fx1 /\
    forall r f,
      In r (rows df1) -> In f (rows fx1) -> key_match r f = true ->
      exists o,
        In o (rows out) /\
        at_ o "rate_to_usd" = fillna (Num 1) (at_ f rc) /\
        forall c, c <> "rate_to_usd" -> c <> "amount_usd" -> at_ o c = at_ r c.
Proof.
  intros H. apply fx_to_usd_inv in H.
  destruct H as [rc [df1 [fx1 [merged [resolved [Hrc [Hdf1 [Hfx1 [Hm [_ [_ Hout]]]]]]]]]]].
  exists rc, df1, fx1. repeat (split; [assumption |]).
  intros r f Hr Hf Hkey.
  apply convert_amounts_inv in Hout. destruct Hout as [_ ->].
  apply merge_rates_inv in Hm. destruct Hm as [_ [_ [_ Hrows]]].
  assert (Hj : In (update r "rate_to_usd" (at_ f rc))
                  (flat_map (join_row fx1 rc) (rows df1))).
  { apply in_flat_map. exists r. split; [exact Hr |].
    unfold join_row.
    assert (Hin : In f (filter (key_match r) (rows fx1)))
      by (apply filter_In; auto).
    destruct (filter (key_match r) (rows fx1)) as [| g l]; [destruct Hin |].
    apply in_map_iff. exists f. auto. }
  destruct (Forall2_In_l _ _ _ _ (relabel_from_same 0 _) Hj) as [j [Hjin Hjat]].
  exists (update (update j "rate_to_usd" (fillna (Num 1) (at_ j "rate_to_usd")))
                 "amount_usd"
                 (Num (amount_value resolved
                         (update j "rate_to_usd" (fillna (Num 1) (at_ j "rate_to_usd")))
                       * cell_value (fillna (Num 1) (at_ j "rate_to_usd"))))).
  split; [| split].
  - unfold assign, fill_rates, assign; simpl. rewrite Hrows.
    rewrite map_map. apply in_map_iff. exists j. split; [| exact Hjin].
    simpl. reflexivity.
  - simpl. rewrite Hjat. reflexivity.
  - intros c Hc1 Hc2. simpl.
    destruct (String.eqb_spec c "amount_usd"); [contradiction |].
    destruct (String.eqb_spec c "rate_to_usd"); [contradiction |].
    rewrite Hjat. simpl.
    destruct (String.eqb_spec c "rate_to_usd"); [contradiction | reflexivity].
Qed.

Lemma ensure_period_columns_empty (df : DataFrame) :
  rows df = [] -> has_year_and_month df = false ->
  _ensure_period_columns df = Raise (no_time_column df).
Proof.
  intros Hr Hym.
  assert (Hslow : _ensure_period_columns df = slow_period_columns df).
  { unfold _ensure_period_columns.
    destruct (column_at_lower df "period") as [c |]; [| reflexivity].
    unfold series. rewrite Hr. reflexivity. }
  rewrite Hslow. unfold slow_period_columns. unfold has_year_and_month in Hym.
  rewrite (first_date_candidate_empty df _ Hr).
  destruct (first_in ["year"; "yr"] (map lower (names df))) as [ycol |];
    [destruct (first_in ["month"; "mo"; "mnth"; "mth"] (map lower (names df)))
       as [mcol |] |]; cbn [is_some andb] in Hym.
  - discriminate Hym.
  - now rewrite (first_timeish_empty df _ Hr), (brute_force_empty df Hr).
  - now rewrite (first_timeish_empty df _ Hr), (brute_force_empty df Hr).
Qed.

Lemma has_year_and_month_with_currency (df : DataFrame) :
  has_year_and_month (with_currency df) = has_year_and_month df.
Proof.
  unfold with_currency. destruct (has_col df "currency") eqn:Hc; [reflexivity |].
  unfold has_year_and_month, names, assign. cbn [columns].
  rewrite names_set_dtype. unfold has_col, names in Hc. rewrite Hc.
  rewrite map_app. unfold first_in. cbn [find map]. rewrite !mem_app.
  cbn [mem existsb lower lower_ascii String.eqb Ascii.eqb Bool.eqb orb].
  now rewrite !orb_false_r.
Qed.

Lemma fx_to_usd_empty (df fx : DataFrame) (amount_col : string) :
  rows df = [] -> has_year_and_month df = false ->
  exists msg, _fx_to_usd df fx amount_col = Raise (ValueError msg).
Proof.
  intros Hr Hym. unfold _fx_to_usd.
  unfold rate_column.
  assert (He : exists msg, _ensure_period_columns (with_currency df)
                           = Raise (ValueError msg)).
  { rewrite ensure_period_columns_empty.
    - unfold no_time_column. eauto.
    - unfold with_currency. destruct (has_col df "currency"); [exact Hr |].
      unfold assign. cbn [rows]. now rewrite Hr.
    - now rewrite has_year_and_month_with_currency. }
  destruct He as [msg He].
  destruct (has_col fx "rate_to_usd"); [| destruct (has_col fx "rate")];
    cbn [bind]; try rewrite He; cbn [bind]; eauto.
Qed.

(** X10. The failures of the converter, in the order the code meets them.
    An FX table with neither a [rate_to_usd] nor a [rate] column is a
    [ValueError], whatever the records are.  Past that, and both tables
    having a time column, an FX table without a [currency] column is a
    [KeyError], and so are records that already bear a column [rate_to_usd]:
    the join then names its two rate columns apart and the column that the
    code reads next does not exist. *)
Theorem converter_failures (df fx : DataFrame) (amount_col : string) :
  (has_col fx "rate_to_usd" = false -> has_col fx "rate" = false ->
   _fx_to_usd df fx amount_col
   = Raise (ValueError "FX CSV must include 'rate_to_usd' or 'rate' column")) /\
  (forall rc df1 fx1,
     rate_column fx = OK rc ->
     _ensure_period_columns (with_currency df) = OK df1 ->
     _ensure_period_columns fx = OK fx1 ->
     has_col fx "currency" = false \/ has_col df "rate_to_usd" = true ->
     exists key, _fx_to_usd df fx amount_col = Raise (KeyError key)).
Proof.
  split.
  - intros H1 H2. unfold _fx_to_usd, rate_column. now rewrite H1, H2.
  - intros rc df1 fx1 Hrc Hdf1 Hfx1 Hbad.
    unfold _fx_to_usd. rewrite Hrc. cbn [bind]. rewrite Hdf1. cbn [bind].
    rewrite Hfx1. cbn [bind]. unfold merge_rates.
    rewrite (ensure_period_columns_has_col _ _ "currency" Hfx1).
    rewrite (ensure_period_columns_has_col _ _ "rate_to_usd" Hdf1).
    rewrite has_col_with_currency.
    cbn [String.eqb Ascii.eqb Bool.eqb]. rewrite !orb_false_r.
    destruct (has_col fx "currency").
    + destruct Hbad as [Hbad | Hbad]; [discriminate |].
      rewrite Hbad. cbn [negb bind]. eauto.
    + cbn [negb bind]. eauto.
Qed.

Lemma load_data_inv (files : Fixtures) (d : Loaded) :
  load_data files = OK d ->
  _ensure_period_columns (_standardize_schema (actuals_csv files)) = OK (actuals d).
Proof.
  unfold load_data. intros H.
  apply bind_OK in H. destruct H as [a [Ha H]].
  apply bind_OK in H. destruct H as [b [Hb H]].
  apply bind_OK in H. destruct H as [c [Hc H]].
  apply bind_OK in H. destruct H as [f [Hf H]].
  injection H as <-. exact Ha.
Qed.

(** X11. The EBITDA table needs every category.  When the loaded actuals
    have no revenue row, no COGS row or no opex row (and no pair of year and
    month columns), the converter is called on a table without rows and
    fails, so that [ebitda_proxy] raises, and with it [cash_runway_months];
    a missing category is not counted as zero. *)
Theorem ebitda_needs_every_category (files : Fixtures) (d : Loaded) :
  load_data files = OK d ->
  has_year_and_month (actuals d) = false ->
  category_rows _is_revenue_labels d = [] \/
  category_rows _is_cogs_labels d = [] \/
  category_rows _is_opex_labels d = [] ->
  (exists e, ebitda_proxy files = Raise e) /\
  (exists e, cash_runway_months files = Raise e).
Proof.
  intros Hload Hym Hempty.
  assert (He : exists e, ebitda_proxy files = Raise e).
  { unfold ebitda_proxy. rewrite Hload. cbn [bind].
    assert (Hraise : forall test,
               category_rows test d = [] ->
               exists msg,
                 _fx_to_usd (filter_rows (test (_label_series (actuals d))) (actuals d))
                            (fx d) "amount" = Raise (ValueError msg)).
    { intros test Ht. apply fx_to_usd_empty; [exact Ht | exact Hym]. }
    destruct (_fx_to_usd (filter_rows (_is_revenue_labels (_label_series (actuals d)))
                                      (actuals d)) (fx d) "amount") as [rev | e] eqn:Erev;
      [| cbn [bind]; eauto].
    cbn [bind].
    destruct (_fx_to_usd (filter_rows (_is_cogs_labels (_label_series (actuals d)))
                                      (actuals d)) (fx d) "amount") as [cogs | e] eqn:Ecogs;
      [| cbn [bind]; eauto].
    cbn [bind].
    destruct (_fx_to_usd (filter_rows (_is_opex_labels (_label_series (actuals d)))
                                      (actuals d)) (fx d) "amount") as [opex | e] eqn:Eopex;
      [| cbn [bind]; eauto].
    exfalso.
    destruct Hempty as [H | [H | H]]; apply Hraise in H; destruct H as [msg H];
      congruence. }
  split; [exact He |].
  destruct He as [e He].
  unfold cash_runway_months, avg_burn_of. rewrite Hload. cbn [bind].
  rewrite He. cbn [bind]. eauto.
Qed.

(** ** The category tests *)

(** X12. A row without a label belongs to no category.  That is every row
    of a table that has neither an [account] nor an [entity] column, and a
    row whose label is missing; the [entity] column stands in for a missing
    [account] column only, never for a missing account of one row. *)
Theorem unlabelled_rows_have_no_category (df : DataFrame) (r : row) :
  (has_col df "account" = false /\ has_col df "entity" = false) \/
  (has_col df "account" = true /\ at_ r "account" = NA) \/
  (has_col df "account" = false /\ has_col df "entity" = true /\ at_ r "entity" = NA) ->
  _is_revenue_labels (_label_series df) r = false /\
  _is_cogs_labels (_label_series df) r = false /\
  _is_opex_labels (_label_series df) r = false.
Proof.
  intros [[Ha He] | [[Ha Hr] | [Ha [He Hr]]]];
    unfold _is_revenue_labels, _is_cogs_labels, _is_opex_labels, _label_series;
    rewrite Ha; try rewrite He; try rewrite Hr; repeat split; reflexivity.
Qed.

(** ** The budget variance table *)

Lemma budget_variance_inv (files : Fixtures) (month_text : option string)
  (lines : list variance_row) (lbl : string) :
  budget_variance_analysis files month_text = OK (lines, lbl) ->
  exists d period actual_rev budget_rev a_cogs b_cogs a_opex b_opex,
    load_data files = OK d /\
    resolve_period month_text (actuals d) = OK period /\
    masked_usd d (_is_revenue_labels (_label_series (actuals d))) (actuals d)
    = OK actual_rev /\
    masked_usd d (_is_revenue_labels (_label_series (budget d))) (budget d)
    = OK budget_rev /\
    period_label period = OK lbl /\
    let a_rev := sum_at_period actual_rev period in
    let b_rev := sum_at_period budget_rev period in
    lines = [variance_row_of "Revenue" a_rev b_rev;
             variance_row_of "COGS" a_cogs b_cogs;
             variance_row_of "Operating Expenses" a_opex b_opex;
             variance_row_of "Gross Profit" (a_rev - a_cogs) (b_rev - b_cogs);
             variance_row_of "EBITDA" (a_rev - a_cogs - a_opex) (b_rev - b_cogs - b_opex)].
Proof.
  unfold budget_variance_analysis. intros H.
  apply bind_OK in H. destruct H as [d [Hd H]].
  apply bind_OK in H. destruct H as [period [Hp H]].
  apply bind_OK in H. destruct H as [ar [Har H]].
  apply bind_OK in H. destruct H as [br [Hbr H]].
  apply bind_OK in H. destruct H as [ac [Hac H]].
  apply bind_OK in H. destruct H as [bc [Hbc H]].
  apply bind_OK in H. destruct H as [ao [Hao H]].
  apply bind_OK in H. destruct H as [bo [Hbo H]].
  apply bind_OK in H. destruct H as [l [Hl H]].
  injection H as <- <-.
  exists d, period, ar, br, (sum_at_period ac period), (sum_at_period bc period),
    (sum_at_period ao period), (sum_at_period bo period).
  repeat (split; [assumption |]). reflexivity.
Qed.

(** X13. The budget variance table has the five lines Revenue, COGS,
    Operating Expenses, Gross Profit and EBITDA, in this order.  On every
    line the variance is actual minus budget, and the lines add up: gross
    profit is revenue minus COGS and EBITDA is gross profit minus operating
    expenses, for the actuals, for the budget and for the variances. *)
Theorem budget_variance_lines_add_up (files : Fixtures) (month_text : option string)
  (lines : list variance_row) (lbl : string) :
  budget_variance_analysis files month_text = OK (lines, lbl) ->
  exists rev cogs opex gp ebitda,
    lines = [rev; cogs; opex; gp; ebitda] /\
    map v_category lines
    = ["Revenue"; "COGS"; "Operating Expenses"; "Gross Profit"; "EBITDA"] /\
    Forall (fun l => v_variance l = v_actual l - v_budget l) lines /\
    v_actual gp = v_actual rev - v_actual cogs /\
    v_budget gp = v_budget rev - v_budget cogs /\
    v_actual ebitda = v_actual gp - v_actual opex /\
    v_budget ebitda = v_budget gp - v_budget opex /\
    v_variance gp == v_variance rev - v_variance cogs /\
    v_variance ebitda == v_variance gp - v_variance opex.
Proof.
  intros H. apply budget_variance_inv in H.
  destruct H as [d [period [ar [br [ac [bc [ao [bo [_ [_ [_ [_ [_ Hl]]]]]]]]]]]]].
  cbv zeta in Hl. subst lines.
  do 5 eexists. split; [reflexivity |].
  split; [reflexivity |].
  split; [repeat constructor |].
  unfold variance_row_of; cbn [v_actual v_budget v_variance].
  repeat (split; [reflexivity |]).
  split; ring.
Qed.

(** X14. The two revenue tools agree.  Whenever the budget variance table is
    returned for a month, [revenue_vs_budget] returns for the same month,
    with the same label of the month, and its actual and budgeted revenue
    are those of the Revenue line of the table. *)
Theorem revenue_tools_agree (files : Fixtures) (month_text : option string)
  (lines : list variance_row) (lbl : string) :
  budget_variance_analysis files month_text = OK (lines, lbl) ->
  exists a b,
    revenue_vs_budget files month_text = OK (a, b, lbl) /\
    hd_error lines = Some (variance_row_of "Revenue" a b).
Proof.
  intros H. apply budget_variance_inv in H.
  destruct H as [d [period [ar [br [ac [bc [ao [bo [Hd [Hp [Har [Hbr [Hlbl Hl]]]]]]]]]]]]].
  cbv zeta in Hl. subst lines.
  exists (sum_at_period ar period), (sum_at_period br period).
  split; [| reflexivity].
  unfold revenue_vs_budget. rewrite Hd. cbn [bind]. rewrite Hp. cbn [bind].
  unfold masked_usd in Har, Hbr. rewrite Har. cbn [bind]. rewrite Hbr. cbn [bind].
  rewrite Hlbl. reflexivity.
Qed.

(** ** Loading *)

Lemma standardize_schema_no_rows (df : DataFrame) :
  rows df = [] -> rows (_standardize_schema df) = [].
Proof.
  intros Hr. unfold _standardize_schema.
  assert (Hc : forall d t s, rows d = [] -> rows (copy_column d t s) = []).
  { intros d t s Hd. unfold copy_column. destruct s as [s |]; [| exact Hd].
    destruct (truthy (Some s) && negb (has_col d t)); [| exact Hd].
    unfold assign. cbn [rows]. now rewrite Hd. }
  assert (Hn : forall d t s, rows d = [] -> rows (numeric_column d t s) = []).
  { intros d t s Hd. unfold numeric_column. destruct s as [s |]; [| exact Hd].
    destruct (truthy (Some s) && negb (has_col d t)); [| exact Hd].
    unfold assign. cbn [rows]. now rewrite Hd. }
  apply Hc, Hc, Hn, Hc. unfold rename_columns. cbn [rows]. now rewrite Hr.
Qed.

Lemma undatable_raises (csv : DataFrame) :
  undatable csv ->
  exists e, _ensure_period_columns (_standardize_schema csv) = Raise e.
Proof.
  intros [Hr Hym]. rewrite ensure_period_columns_empty; eauto.
  now apply standardize_schema_no_rows.
Qed.

(** X15. One file without rows stops every tool.  When one of the four
    files has a header and no row, and no pair of a year and a month
    column, [load_data] raises; so do the tools, which all load the four
    files first, also those that do not read the file: [revenue_vs_budget]
    raises on an empty cash file. *)
Theorem load_data_needs_rows (files : Fixtures) :
  undatable (actuals_csv files) \/ undatable (budget_csv files) \/
  undatable (fx_csv files) \/ undatable (cash_csv files) ->
  (exists e, load_data files = Raise e) /\
  (forall month_text, exists e, revenue_vs_budget files month_text = Raise e) /\
  (forall n, exists e, gross_margin_trend files n = Raise e) /\
  (exists e, monthly_comparison files = Raise e).
Proof.
  intros H.
  assert (Hload : exists e, load_data files = Raise e).
  { unfold load_data.
    destruct (_ensure_period_columns (_standardize_schema (actuals_csv files)))
      as [a | e] eqn:Ea; [| cbn [bind]; eauto]. cbn [bind].
    destruct (_ensure_period_columns (_standardize_schema (budget_csv files)))
      as [b | e] eqn:Eb; [| cbn [bind]; eauto]. cbn [bind].
    destruct (_ensure_period_columns (_standardize_schema (cash_csv files)))
      as [c | e] eqn:Ec; [| cbn [bind]; eauto]. cbn [bind].
    destruct (_ensure_period_columns (_standardize_schema (fx_csv files)))
      as [f | e] eqn:Ef; [| cbn [bind]; eauto]. cbn [bind].
    exfalso.
    destruct H as [H | [H | [H | H]]]; apply undatable_raises in H;
      destruct H as [e H]; congruence. }
  destruct Hload as [e He].
  split; [eauto |].
  split; [| split].
  - intros mt. unfold revenue_vs_budget. rewrite He. cbn [bind]. eauto.
  - intros n. unfold gross_margin_trend. rewrite He. cbn [bind]. eauto.
  - unfold monthly_comparison. rewrite He. cbn [bind]. eauto.
Qed.

(** ** The margin trend *)

Lemma unique_by_NoDup {A : Type} (eqb : A -> A -> bool) (l : list A) :
  (forall a, eqb a a = true) -> NoDup (unique_by eqb l).
Proof.
  intros Hrefl. induction l as [| x l IH]; cbn [unique_by]; constructor.
  - intros Hin. apply filter_In in Hin. destruct Hin as [_ Hx].
    rewrite Hrefl in Hx. discriminate.
  - now apply NoDup_filter.
Qed.

Lemma sort_by_NoDup {A : Type} (leb : A -> A -> bool) (l : list A) :
  NoDup l -> NoDup (sort_by leb l).
Proof.
  induction 1 as [| x l Hx Hl IH]; cbn [sort_by fold_right]; [constructor |].
  fold (sort_by leb l).
  assert (Hx' : ~ In x (sort_by leb l)) by (now rewrite sort_by_In).
  revert Hx' IH. generalize (sort_by leb l) as s. clear.
  induction s as [| y s IHs]; intros Hx Hs; cbn [insert_by].
  - constructor; [intros [] | constructor].
  - destruct (leb x y).
    + constructor; assumption.
    + inversion Hs as [| ? ? Hy Hs']; subst. constructor.
      * rewrite insert_by_In. intros [-> | Hin]; [apply Hx; now left | now apply Hy].
      * apply IHs; [intros Hin; apply Hx; now right | exact Hs'].
Qed.

Lemma date_leb_strict (a b : date) : date_leb a b = true -> a <> b -> date_ltb a b = true.
Proof.
  unfold date_leb, date_ltb. destruct a as [ya ma da], b as [yb mb db]. cbn [year month day].
  intros H Hne.
  assert (Hd : ~ (ya = yb /\ ma = mb /\ da = db)) by (intros [-> [-> ->]]; now apply Hne).
  apply negb_true_iff in H.
  destruct (Z.ltb_spec yb ya), (Z.eqb_spec yb ya), (Z.ltb_spec mb ma),
    (Z.eqb_spec mb ma), (Z.ltb_spec db da); cbn in H; try discriminate;
  destruct (Z.ltb_spec ya yb), (Z.eqb_spec ya yb), (Z.ltb_spec ma mb),
    (Z.eqb_spec ma mb), (Z.ltb_spec da db); cbn; try reflexivity; exfalso; lia.
Qed.

Lemma sorted_distinct_ascending (l : list date) :
  StronglySorted (fun a b => date_leb a b = true) l -> NoDup l -> ascending (fun t => t) l.
Proof.
  unfold ascending. induction 1 as [| x l Hs IH Hx]; intros Hn; constructor.
  - apply IH. now inversion Hn.
  - inversion Hn as [| ? ? Hnot _]; subst.
    rewrite Forall_forall in *. intros y Hy.
    apply date_leb_strict; [now apply Hx |]. intros ->. now apply Hnot.
Qed.

Lemma ascending_map {A : Type} (key : A -> date) (f : date -> A) (l : list date) :
  (forall t, key (f t) = t) -> ascending (fun t => t) l -> ascending key (map f l).
Proof.
  unfold ascending. intros Hk. induction 1 as [| x l Hs IH Hx]; cbn [map]; constructor.
  - exact IH.
  - rewrite Forall_forall in *. intros y Hy. apply in_map_iff in Hy.
    destruct Hy as [t [<- Ht]]. rewrite !Hk. now apply Hx.
Qed.

Lemma ascending_skipn {A : Type} (key : A -> date) (n : nat) (l : list A) :
  ascending key l -> ascending key (skipn n l).
Proof.
  unfold ascending. revert l. induction n as [| n IH]; intros l Hs; [exact Hs |].
  destruct l as [| x l]; [constructor |]. cbn [skipn]. apply IH. now inversion Hs.
Qed.

Lemma tail_length_min {A : Type} (n : nat) (l : list A) :
  List.length (tail n l) = Nat.min n (List.length l).
Proof. unfold tail. rewrite length_skipn. lia. Qed.

Lemma gm_pct_of_nan_iff (revenue cogs : Q) :
  gm_pct_of revenue cogs = NaN <-> revenue == 0.
Proof.
  unfold gm_pct_of, Qzero. destruct (Qeq_bool revenue 0) eqn:E.
  - split; [intros _; now apply Qeq_bool_eq | reflexivity].
  - unfold fdiv, Qzero. rewrite E. cbn [fmul].
    split; [discriminate | intros Hz; apply Qeq_eq_bool in Hz; congruence].
Qed.

(** X16. The margin trend holds the last [n] months that have a revenue or
    a COGS row, one row a month, the earliest first, never more than [n]
    rows; the margin of a row is computed from the revenue and the COGS of
    the row itself, and is missing exactly when the revenue is zero. *)
Theorem gross_margin_trend_shape (files : Fixtures) (n : nat) (out : list gm_row) :
  gross_margin_trend files n = OK out ->
  (List.length out <= n)%nat /\
  ascending gm_period out /\
  Forall (fun r => gm_pct r = gm_pct_of (gm_revenue_usd r) (gm_cogs_usd r) /\
                   (gm_pct r = NaN <-> gm_revenue_usd r == 0)) out.
Proof.
  unfold gross_margin_trend. intros H.
  apply bind_OK in H. destruct H as [d [_ H]].
  apply bind_OK in H. destruct H as [rev [_ H]].
  apply bind_OK in H. destruct H as [cogs [_ H]].
  injection H as <-.
  set (keys := sort_by date_leb
                 (unique_by date_eqb (map fst (groupby_period_sum rev)
                                      ++ map fst (groupby_period_sum cogs)))).
  split; [| split].
  - rewrite tail_length_min. lia.
  - unfold tail. apply ascending_skipn. apply ascending_map; [reflexivity |].
    apply sorted_distinct_ascending.
    + apply sort_by_sorted; [exact date_leb_total | exact date_leb_trans].
    + apply sort_by_NoDup, unique_by_NoDup. intros a. now apply date_eqb_eq.
  - apply Forall_forall. intros r Hr. apply tail_incl in Hr.
    apply in_map_iff in Hr. destruct Hr as [t [<- _]].
    cbn [gm_pct gm_revenue_usd gm_cogs_usd]. split; [reflexivity |].
    apply gm_pct_of_nan_iff.
Qed.

(** ** The EBITDA table *)

Lemma timestamps_In (l : list cell) (t : date) : In t (timestamps l) <-> In (Ts t) l.
Proof.
  unfold timestamps. rewrite in_flat_map. split.
  - intros [c [Hc Ht]].
    destruct c as [| s | x | t0]; [destruct Ht | destruct Ht | destruct Ht |].
    destruct Ht as [<- | []]. exact Hc.
  - intros H. exists (Ts t). split; [exact H | now left].
Qed.

(** A grouped sum read at a period, a missing group counting as zero, is
    the sum over the rows of the period. *)
Lemma lookup_groupby_period_sum (df : DataFrame) (p : cell) :
  fillna0 (lookup_period (groupby_period_sum df) p) = sum_at_period df p.
Proof.
  assert (Hnone : (forall r, In r (rows df) -> period_eq (at_ r "period") p = false) ->
                  sum_at_period df p = 0).
  { intros H. unfold sum_at_period.
    replace (filter (fun r => period_eq (at_ r "period") p) (rows df)) with (@nil row);
      [reflexivity |].
    symmetry. induction (rows df) as [| r l IH]; [reflexivity |].
    cbn [filter]. rewrite (H r (or_introl eq_refl)). apply IH.
    intros r' Hr'. apply H. now right. }
  destruct p as [| s | x | t]; cbn [lookup_period fillna0];
    try (symmetry; apply Hnone; intros r _; now destruct (at_ r "period")).
  unfold groupby_period_sum.
  destruct (find (fun kv => date_eqb (fst kv) t)
                 (map (fun t0 => (t0, sum_at_period df (Ts t0))) (group_periods df)))
    as [kv |] eqn:Ef.
  - apply find_some in Ef. destruct Ef as [Hin Heq].
    apply in_map_iff in Hin. destruct Hin as [t0 [<- _]].
    cbn [fst] in Heq. apply date_eqb_eq in Heq. subst t0. reflexivity.
  - cbn [fillna0]. symmetry. apply Hnone. intros r Hr.
    destruct (period_eq (at_ r "period") (Ts t)) eqn:Ep; [exfalso | reflexivity].
    destruct (at_ r "period") as [| s | x | t'] eqn:Eat; try discriminate Ep.
    cbn [period_eq] in Ep. apply date_eqb_eq in Ep. subst t'.
    assert (Hts : In t (timestamps (series df "period"))).
    { apply timestamps_In. unfold series. apply in_map_iff. exists r. auto. }
    destruct (unique_by_representative date_eqb _ t
                (fun a => proj2 (date_eqb_eq a a) eq_refl)
                (fun a b c Hab Hbc =>
                   proj2 (date_eqb_eq a c)
                         (eq_trans (proj1 (date_eqb_eq a b) Hab)
                                   (proj1 (date_eqb_eq b c) Hbc)))
                Hts) as [u [Hu Hut]].
    assert (Hg : In u (group_periods df)) by (unfold group_periods; now apply sort_by_In).
    pose proof (find_none _ _ Ef (u, sum_at_period df (Ts u))) as Hno.
    cbn [fst] in Hno. rewrite Hno in Hut; [discriminate |].
    apply in_map_iff. exists u. auto.
Qed.

(** X17. The EBITDA table has one row for every distinct period of the
    actuals, missing periods last.  The revenue, the COGS and the opex of a
    row are the sums of the converted amounts over the rows of its period,
    zero when the category has no row in the period: the figures that
    [revenue_vs_budget] and the variance table compute for one month.  The
    EBITDA of a row is its revenue minus its COGS minus its opex. *)
Theorem ebitda_proxy_rows (files : Fixtures) (e : list ebitda_row) :
  ebitda_proxy files = OK e ->
  exists d rev cogs opex,
    load_data files = OK d /\
    masked_usd d (_is_revenue_labels (_label_series (actuals d))) (actuals d) = OK rev /\
    masked_usd d (_is_cogs_labels (_label_series (actuals d))) (actuals d) = OK cogs /\
    masked_usd d (_is_opex_labels (_label_series (actuals d))) (actuals d) = OK opex /\
    List.length e = List.length (unique_by cell_eqb (series (actuals d) "period")) /\
    StronglySorted (fun a b => period_leb (e_period a) (e_period b) = true) e /\
    Forall (fun x =>
              In (e_period x) (series (actuals d) "period") /\
              revenue_usd x = sum_at_period rev (e_period x) /\
              cogs_usd x = sum_at_period cogs (e_period x) /\
              opex_usd x = sum_at_period opex (e_period x) /\
              ebitda_proxy_usd x = revenue_usd x - cogs_usd x - opex_usd x) e.
Proof.
  unfold ebitda_proxy. intros H.
  apply bind_OK in H. destruct H as [d [Hd H]].
  apply bind_OK in H. destruct H as [rev [Hrev H]].
  apply bind_OK in H. destruct H as [cogs [Hcogs H]].
  apply bind_OK in H. destruct H as [opex [Hopex H]].
  injection H as <-.
  exists d, rev, cogs, opex. repeat (split; [assumption |]).
  split; [| split].
  - rewrite sort_by_length, length_map. unfold py_sorted. apply sort_by_length.
  - apply (sort_by_sorted _ (fun a b => period_leb (e_period a) (e_period b))).
    + intros a b. apply period_leb_total.
    + intros a b c. apply period_leb_trans.
  - apply Forall_forall. intros x Hx. apply sort_by_In in Hx.
    apply in_map_iff in Hx. destruct Hx as [p [<- Hp]].
    cbn [e_period revenue_usd cogs_usd opex_usd ebitda_proxy_usd].
    rewrite !lookup_groupby_period_sum.
    split; [| repeat split].
    unfold py_sorted in Hp. apply sort_by_In in Hp. now apply unique_by_incl in Hp.
Qed.

(** ** The comparison of two years *)

Lemma mapM_Forall2 {A B : Type} (f : A -> result B) (l : list A) (l' : list B) :
  mapM f l = OK l' -> Forall2 (fun a b => f a = OK b) l l'.
Proof.
  revert l'. induction l as [| a l IH]; intros l' H; cbn [mapM] in H.
  - injection H as <-. constructor.
  - apply bind_OK in H. destruct H as [b [Hb H]].
    apply bind_OK in H. destruct H as [bs [Hbs H]].
    injection H as <-. constructor; [exact Hb | now apply IH].
Qed.

Lemma Forall2_map_eq {A B : Type} (g : B -> A) (l : list A) (l' : list B) :
  Forall2 (fun a b => g b = a) l l' -> map g l' = l.
Proof.
  induction 1 as [| a b l l' Hab _ IH]; cbn [map]; [reflexivity | now rewrite Hab, IH].
Qed.

(** X18. [yearly_comparison] returns either the empty table, when the
    actuals have no row in the year before their latest year, or twelve
    rows, one for each month from January to December in this order,
    whether or not the month has data; the growth of a row is computed from
    the two revenues of the row. *)
Theorem yearly_comparison_shape (files : Fixtures) (out : list yearly_row) :
  yearly_comparison files = OK out ->
  exists d,
    load_data files = OK d /\
    (previous_year_rows d = [] -> out = []) /\
    (previous_year_rows d <> [] ->
     map y_month out = months_of_year /\
     map y_month_name out = map month_name months_of_year /\
     Forall (fun r => y_yoy_growth_pct r
                      = growth_pct_or_zero (y_revenue_current r) (y_revenue_prev r)) out).
Proof.
  unfold yearly_comparison. intros H.
  apply bind_OK in H. destruct H as [d [Hd H]].
  exists d. split; [exact Hd |].
  cbv zeta in H. fold months_of_year in H.
  change (rows (filter_rows _ _)) with (previous_year_rows d) in H.
  destruct (previous_year_rows d) as [| r0 l0] eqn:Eprev.
  - cbn [List.length Nat.eqb] in H. injection H as <-.
    split; [reflexivity | intros Hne; now contradiction Hne].
  - cbn [List.length Nat.eqb] in H.
    split; [discriminate | intros _].
    apply mapM_Forall2 in H.
    assert (Hrow : Forall2 (fun m r =>
                              y_month r = m /\ y_month_name r = month_name m /\
                              y_yoy_growth_pct r
                              = growth_pct_or_zero (y_revenue_current r) (y_revenue_prev r))
                           months_of_year out).
    { refine (Forall2_impl _ _ H). intros m r Hm.
      apply bind_OK in Hm. destruct Hm as [cur [_ Hm]].
      apply bind_OK in Hm. destruct Hm as [prev [_ Hm]].
      injection Hm as <-. repeat split. }
    split; [| split].
    + apply Forall2_map_eq. refine (Forall2_impl _ _ Hrow). tauto.
    + assert (Hn : Forall2 (fun a r => y_month_name r = a)
                           (map month_name months_of_year) out).
      { clear -Hrow. induction Hrow as [| m r l l' Hmr _ IH]; cbn [map]; constructor;
          [tauto | exact IH]. }
      now apply Forall2_map_eq.
    + apply Forall_forall. intros r Hr.
      destruct (Forall2_In_r _ _ _ _ Hrow Hr) as [m [_ Hm]]. tauto.
Qed.

(** ** The month of a question *)

Lemma date_ltb_leb (a b : date) : date_ltb a b = true -> date_leb a b = true.
Proof.
  intros H. destruct (date_leb a b) eqn:E; [reflexivity |].
  apply date_leb_total in E. unfold date_leb in E. rewrite H in E. discriminate.
Qed.

Lemma date_leb_refl (a : date) : date_leb a a = true.
Proof.
  destruct (date_leb a a) eqn:E; [reflexivity |]. pose proof (date_leb_total a a E). congruence.
Qed.

Lemma fold_max_spec (ts : list date) (t : date) :
  let m := fold_left (fun m x => if date_ltb m x then x else m) ts t in
  In m (t :: ts) /\ forall x, In x (t :: ts) -> date_leb x m = true.
Proof.
  revert t. induction ts as [| y ts IH]; intros t; cbn [fold_left].
  - split; [now left |]. intros x [<- | []]. apply date_leb_refl.
  - specialize (IH (if date_ltb t y then y else t)). cbv zeta in IH.
    destruct IH as [Hin Hmax]. split.
    + destruct Hin as [Hin | Hin]; [| right; now right].
      rewrite <- Hin. destruct (date_ltb t y); [right; now left | now left].
    + intros x [Hx | [Hx | Hx]]; [subst x | subst x |].
      * destruct (date_ltb t y) eqn:E.
        -- apply date_leb_trans with y; [now apply date_ltb_leb |].
           apply Hmax. now left.
        -- apply Hmax. now left.
      * destruct (date_ltb t y) eqn:E.
        -- apply Hmax. now left.
        -- apply date_leb_trans with t; [unfold date_leb; now rewrite E |].
           apply Hmax. now left.
      * apply Hmax. now right.
Qed.

(** X19. Without a month in the question, that is without an argument or
    with the empty text, the tools answer for the latest month of the
    actuals: a period of the actuals that no period of the actuals is later
    than.  When the actuals hold no period at all the month is missing.
    With a month in the question the tools take the first day of the month
    that the text parses to, whether the actuals hold this month or not. *)
Theorem resolve_period_default (month_text : option string) (actuals : DataFrame) :
  (no_month month_text ->
   exists p, resolve_period month_text actuals = OK p /\
     match p with
     | Ts t => In (Ts t) (series actuals "period") /\
               forall t', In (Ts t') (series actuals "period") -> date_leb t' t = true
     | _ => p = NA /\ forall t', ~ In (Ts t') (series actuals "period")
     end) /\
  (forall s t, month_text = Some s -> s <> "" -> dtparse s = Some t ->
     resolve_period month_text actuals = OK (Ts (mkdate (year t) (month t) 1))).
Proof.
  split.
  - intros Hno.
    assert (Hr : resolve_period month_text actuals
                 = OK (series_max (series actuals "period")))
      by (destruct Hno as [-> | ->]; reflexivity).
    rewrite Hr. eexists. split; [reflexivity |].
    unfold series_max.
    destruct (timestamps (series actuals "period")) as [| t ts] eqn:Ets.
    + split; [reflexivity |]. intros t' Hin. apply timestamps_In in Hin.
      rewrite Ets in Hin. exact Hin.
    + destruct (fold_max_spec ts t) as [Hin Hmax]. cbv zeta in Hin, Hmax.
      split.
      * apply timestamps_In. rewrite Ets. exact Hin.
      * intros t' Ht'. apply Hmax. rewrite <- Ets. now apply timestamps_In.
  - intros s t -> Hs Ht. unfold resolve_period, truthy.
    destruct (String.eqb_spec s ""); [contradiction |]. cbn [negb].
    rewrite Ht. reflexivity.
Qed.

(** ** The P&L statement *)

Lemma fold_left_Qplus (l : list Q) (a : Q) : fold_left Qplus l a == a + Qsum l.
Proof.
  revert a. induction l as [| x l IH]; intros a; cbn [fold_left Qsum]; [ring |].
  rewrite IH. ring.
Qed.

Lemma Qsum_opp {A : Type} (f : A -> Q) (l : list A) :
  Qsum (map (fun a => - f a) l) == - Qsum (map f l).
Proof.
  induction l as [| a l IH]; cbn [map Qsum]; [ring | rewrite IH; ring].
Qed.

(** X20. The P&L statement adds up.  Its lines are Revenue, COGS, Gross
    Profit and Gross Margin %, then one line for each opex account, then
    Total Operating Expenses and EBITDA.  Costs are shown negative, and with
    these signs gross profit is revenue plus COGS, the total of the
    operating expenses is the sum of the opex lines, and EBITDA is gross
    profit plus this total. *)
Theorem pnl_statement_adds_up
  (files : Fixtures) (month_text : option string) (lines : list pnl_line) (lbl : string) :
  pnl_statement files month_text = OK (lines, lbl) ->
  exists revenue cogs gp gm opex_lines total ebitda,
    lines = [revenue; cogs; gp; gm] ++ opex_lines ++ [total; ebitda] /\
    map line_type [revenue; cogs; gp; gm; total; ebitda]
    = ["revenue"; "cogs"; "gross_profit"; "percentage"; "total_opex"; "ebitda"] /\
    Forall (fun l => line_type l = "opex") opex_lines /\
    line_amount gp == line_amount revenue + line_amount cogs /\
    line_amount total == Qsum (map line_amount opex_lines) /\
    line_amount ebitda == line_amount gp + line_amount total.
Proof.
  unfold pnl_statement. intros H.
  apply bind_OK in H. destruct H as [d [_ H]].
  apply bind_OK in H. destruct H as [period [_ H]].
  apply bind_OK in H. destruct H as [rev [_ H]].
  apply bind_OK in H. destruct H as [cogs [_ H]].
  apply bind_OK in H. destruct H as [opex [_ H]].
  apply bind_OK in H. destruct H as [lbl' [_ H]].
  cbv zeta in H. injection H as <- _.
  set (by_category := if (0 <? List.length (rows opex))%nat
                      then groupby_sum opex (account_column opex) else []).
  do 7 eexists. split; [reflexivity |].
  split; [reflexivity |]. cbn [line_amount].
  split; [| split; [| split]].
  - apply Forall_forall. intros l Hl. apply in_map_iff in Hl.
    destruct Hl as [kv [<- _]]. reflexivity.
  - ring.
  - rewrite map_map. cbn [line_amount].
    rewrite (Qsum_opp snd by_category), fold_left_Qplus.
    ring.
  - ring.
Qed.

(** X21. The P&L statement needs every category in its month.  When the
    month of the question has no revenue row, no COGS row or no opex row in
    the loaded actuals (which have no pair of year and month columns), and
    so for every month that the actuals do not hold, [pnl_statement] raises
    and shows no zero line: the converter is called on a table without
    rows. *)
Theorem pnl_statement_needs_every_category
  (files : Fixtures) (month_text : option string) (d : Loaded) (period : cell) :
  load_data files = OK d ->
  resolve_period month_text (actuals d) = OK period ->
  has_year_and_month (actuals d) = false ->
  month_category_rows _is_revenue_labels d period = [] \/
  month_category_rows _is_cogs_labels d period = [] \/
  month_category_rows _is_opex_labels d period = [] ->
  exists e, pnl_statement files month_text = Raise e.
Proof.
  intros Hload Hp Hym Hempty.
  unfold pnl_statement. rewrite Hload. cbn [bind]. rewrite Hp. cbn [bind].
  set (period_data := filter_rows (fun r => period_eq (at_ r "period") period) (actuals d)).
  assert (Hraise : forall test,
             month_category_rows test d period = [] ->
             exists msg, masked_usd d (test (_label_series (actuals d))) period_data
                         = Raise (ValueError msg)).
  { intros test Ht. unfold masked_usd. apply fx_to_usd_empty; [exact Ht | exact Hym]. }
  destruct (masked_usd d (_is_revenue_labels (_label_series (actuals d))) period_data)
    as [rev | e] eqn:Erev; [| cbn [bind]; eauto].
  cbn [bind].
  destruct (masked_usd d (_is_cogs_labels (_label_series (actuals d))) period_data)
    as [cogs | e] eqn:Ecogs; [| cbn [bind]; eauto].
  cbn [bind].
  destruct (masked_usd d (_is_opex_labels (_label_series (actuals d))) period_data)
    as [opex | e] eqn:Eopex; [| cbn [bind]; eauto].
  exfalso.
  destruct Hempty as [H | [H | H]]; apply Hraise in H; destruct H as [msg H]; congruence.
Qed.

(** ** The runway *)

(** X22. The runway is always defined.  Whatever the files, when
    [cash_runway_months] returns, the runway is never NaN, also when the
    average burn is: it is plus infinity, or the quotient of the latest cash
    balance by a positive burn, a number of months that has the sign of the
    cash balance, so that an overdrawn account gives a negative runway and
    not an error. *)
Theorem runway_is_defined (files : Fixtures) (cash_usd : Q) (runway : float) :
  cash_runway_months files = OK (cash_usd, runway) ->
  runway = PInf \/
  exists months, runway = Fin months /\
    (0 <= cash_usd -> 0 <= months) /\ (cash_usd <= 0 -> months <= 0).
Proof.
  intros H. apply cash_runway_months_inv in H.
  destruct H as [d [avg_burn [_ [_ [_ ->]]]]].
  destruct avg_burn as [b | | |]; try (left; reflexivity).
  destruct (Qlt_le_dec 0 b) as [Hpos | Hneg].
  - right. exists (cash_usd / b). split; [now apply runway_of_positive |].
    split; intros Hc.
    + apply Qle_shift_div_l; [exact Hpos |]. now rewrite Qmult_0_l.
    + apply Qle_shift_div_r; [exact Hpos |]. now rewrite Qmult_0_l.
  - left. now apply runway_of_nonpositive.
Qed.

(** ** The monthly comparison and the EBITDA table *)

Lemma month_metrics_inv (d : Loaded) (p : cell) (m : row) :
  month_metrics d p = OK m ->
  exists rev cogs opex,
    masked_usd d (_is_revenue_labels (_label_series (actuals d))) (actuals d) = OK rev /\
    masked_usd d (_is_cogs_labels (_label_series (actuals d))) (actuals d) = OK cogs /\
    masked_usd d (_is_opex_labels (_label_series (actuals d))) (actuals d) = OK opex /\
    at_ m "period" = p /\
    at_ m "revenue" = Num (sum_at_period rev p) /\
    at_ m "cogs" = Num (sum_at_period cogs p) /\
    at_ m "opex" = Num (sum_at_period opex p) /\
    at_ m "ebitda"
    = Num (sum_at_period rev p - sum_at_period cogs p - sum_at_period opex p).
Proof.
  unfold month_metrics, masked_usd. intros H.
  apply bind_OK in H. destruct H as [rev [Hrev H]].
  apply bind_OK in H. destruct H as [cogs [Hcogs H]].
  apply bind_OK in H. destruct H as [opex [Hopex H]].
  injection H as <-.
  exists rev, cogs, opex. repeat (split; [assumption |]).
  repeat split.
Qed.

(** X23. The monthly comparison and the EBITDA table agree.  When both are
    returned for the same files, every row of the monthly comparison has its
    period in the EBITDA table, and its revenue, COGS, opex and EBITDA are
    those of the row of this period there. *)
Theorem monthly_comparison_agrees_with_ebitda
  (files : Fixtures) (e : list ebitda_row) (out : DataFrame) :
  ebitda_proxy files = OK e ->
  monthly_comparison files = OK out ->
  Forall (fun r =>
            exists x,
              In x e /\ e_period x = at_ r "period" /\
              at_ r "revenue" = Num (revenue_usd x) /\
              at_ r "cogs" = Num (cogs_usd x) /\
              at_ r "opex" = Num (opex_usd x) /\
              at_ r "ebitda" = Num (ebitda_proxy_usd x))
         (rows out).
Proof.
  unfold ebitda_proxy, monthly_comparison. intros He Hm.
  apply bind_OK in He. destruct He as [d [Hd He]].
  rewrite Hd in Hm. cbn [bind] in Hm.
  apply bind_OK in He. destruct He as [rev [Hrev He]].
  apply bind_OK in He. destruct He as [cogs [Hcogs He]].
  apply bind_OK in He. destruct He as [opex [Hopex He]].
  injection He as <-.
  set (periods := unique_by cell_eqb (series (actuals d) "period")) in *.
  assert (Hrow : forall p m,
             In p (py_sorted periods) -> month_metrics d p = OK m ->
             exists x,
               In x (sort_by (fun a b => period_leb (e_period a) (e_period b))
                       (map (fun p =>
                               let r := fillna0 (lookup_period (groupby_period_sum rev) p) in
                               let c := fillna0 (lookup_period (groupby_period_sum cogs) p) in
                               let o := fillna0 (lookup_period (groupby_period_sum opex) p) in
                               mk_ebitda_row p r c o (r - c - o))
                            (py_sorted periods))) /\
               e_period x = at_ m "period" /\
               at_ m "revenue" = Num (revenue_usd x) /\
               at_ m "cogs" = Num (cogs_usd x) /\
               at_ m "opex" = Num (opex_usd x) /\
               at_ m "ebitda" = Num (ebitda_proxy_usd x)).
  { intros p m Hp Hmm. apply month_metrics_inv in Hmm.
    destruct Hmm as [rev' [cogs' [opex' [Hr [Hc [Ho [Hmp [Hmr [Hmc [Hmo Hme]]]]]]]]]].
    unfold masked_usd in Hr, Hc, Ho.
    rewrite Hrev in Hr. rewrite Hcogs in Hc. rewrite Hopex in Ho.
    injection Hr as <-. injection Hc as <-. injection Ho as <-.
    exists (mk_ebitda_row p (sum_at_period rev p) (sum_at_period cogs p)
              (sum_at_period opex p)
              (sum_at_period rev p - sum_at_period cogs p - sum_at_period opex p)).
    split.
    - apply sort_by_In. apply in_map_iff. exists p. split; [| exact Hp].
      cbv zeta. now rewrite !lookup_groupby_period_sum.
    - cbn [e_period revenue_usd cogs_usd opex_usd ebitda_proxy_usd]. auto. }
  destruct (List.length (tail 2 (py_sorted periods)) <? 2)%nat eqn:Elen.
  - injection Hm as <-. constructor.
  - apply Nat.ltb_ge in Elen.
    destruct (tail_two (py_sorted periods)) as [pre [p0 [p1 [Hsplit Htail]]]].
    { pose proof (tail_length_le 2 (py_sorted periods)). lia. }
    rewrite Htail in Hm.
    apply bind_OK in Hm. destruct Hm as [results [Hres Hm]].
    cbn [mapM] in Hres.
    apply bind_OK in Hres. destruct Hres as [m0 [Hm0 Hres]].
    apply bind_OK in Hres. destruct Hres as [ms [Hms Hres]].
    apply bind_OK in Hms. destruct Hms as [m1 [Hm1 Hms]].
    cbn [bind] in Hms. injection Hms as <-. injection Hres as <-.
    cbn [relabel relabel_from rows List.length Nat.eqb] in Hm.
    injection Hm as <-.
    assert (Hp0 : In p0 (py_sorted periods))
      by (rewrite Hsplit; apply in_or_app; right; simpl; auto).
    assert (Hp1 : In p1 (py_sorted periods))
      by (rewrite Hsplit; apply in_or_app; right; simpl; auto).
    destruct (Hrow p0 m0 Hp0 Hm0) as [x0 H0].
    destruct (Hrow p1 m1 Hp1 Hm1) as [x1 H1].
    constructor; [exists x0; exact H0 |].
    constructor; [exists x1; exact H1 | constructor].
Qed.

(** ** The quarterly summary *)

Lemma pct_change_column_length (prev : float) (l : list Q) :
  List.length (pct_change_column prev l) = List.length l.
Proof.
  revert prev. induction l as [| x l IH]; intros prev; cbn [pct_change_column List.length];
    [reflexivity | now rewrite IH].
Qed.

Lemma pct_change_column_first (l : list Q) :
  l <> [] -> exists g, pct_change_column NaN l = NaN :: g.
Proof.
  destruct l as [| x l]; [congruence |]. intros _.
  exists (pct_change_column (Fin x) l). reflexivity.
Qed.

(** X24. The quarterly summary has one row for every distinct quarter of
    the actuals; on every row gross profit is revenue minus COGS and EBITDA
    is gross profit minus opex.  The two columns of quarter-over-quarter
    growth exist only when there are two quarters or more; they then have a
    value for every row, and the value of the first quarter is NaN. *)
Theorem quarterly_summary_shape (files : Fixtures) (t : quarterly_table) :
  quarterly_summary files = OK t ->
  exists d,
    load_data files = OK d /\
    List.length (quarters t) = List.length (quarters_of d) /\
    Forall (fun q => q_gross_profit q = q_revenue q - q_cogs q /\
                     q_ebitda q = q_gross_profit q - q_opex q) (quarters t) /\
    ((List.length (quarters_of d) <= 1)%nat ->
     revenue_qoq_growth t = None /\ ebitda_qoq_growth t = None) /\
    ((2 <= List.length (quarters_of d))%nat ->
     exists g h,
       revenue_qoq_growth t = Some (NaN :: g) /\
       ebitda_qoq_growth t = Some (NaN :: h) /\
       List.length (NaN :: g) = List.length (quarters t) /\
       List.length (NaN :: h) = List.length (quarters t)).
Proof.
  unfold quarterly_summary. intros H.
  apply bind_OK in H. destruct H as [d [Hd H]].
  apply bind_OK in H. destruct H as [qs [Hqs H]].
  exists d. split; [exact Hd |].
  assert (Hlen : List.length qs = List.length (quarters_of d)).
  { rewrite (mapM_length _ _ _ Hqs). unfold py_sorted. rewrite sort_by_length.
    unfold quarters_of. rewrite series_assign_same. unfold series. now rewrite map_map. }
  assert (Hrows : Forall (fun q => q_gross_profit q = q_revenue q - q_cogs q /\
                                   q_ebitda q = q_gross_profit q - q_opex q) qs).
  { apply Forall_forall. intros q Hin.
    destruct (mapM_In _ _ _ _ Hqs Hin) as [c [_ Hc]].
    unfold quarter_metrics in Hc.
    apply bind_OK in Hc. destruct Hc as [rev [_ Hc]].
    apply bind_OK in Hc. destruct Hc as [cogs [_ Hc]].
    apply bind_OK in Hc. destruct Hc as [opex [_ Hc]].
    injection Hc as <-. split; reflexivity. }
  destruct (1 <? List.length qs)%nat eqn:E; injection H as <-;
    cbn [quarters revenue_qoq_growth ebitda_qoq_growth];
    (split; [exact Hlen | split; [exact Hrows |]]).
  - apply Nat.ltb_lt in E. split; [intros Hle; lia | intros _].
    destruct (pct_change_column_first (map q_revenue qs)) as [g Hg].
    { destruct qs; [cbn in E; lia | discriminate]. }
    destruct (pct_change_column_first (map q_ebitda qs)) as [h Hh].
    { destruct qs; [cbn in E; lia | discriminate]. }
    exists g, h. rewrite <- Hg, <- Hh.
    rewrite !pct_change_column_length, !length_map. auto.
  - apply Nat.ltb_ge in E. split; [auto | intros Hge; lia].
Qed.

End Properties.

(** C8, on a table whose [Period] column parses on one row out of three. *)
Lemma period_column_fast_path_witness :
  exists out,
    _ensure_period_columns (L := small_library) sparse_period_frame = OK out /\
    series out "period" = [Ts (mkdate 2025 6 1); NA; NA].
Proof.
  destruct (period_column_fast_path (L := small_library) sparse_period_frame "Period")
    as [out [H1 [_ [H2 _]]]].
  - reflexivity.
  - apply Exists_cons_hd. vm_compute. discriminate.
  - exists out. split; [exact H1 | exact H2].
Defined.

(** The same column alone is rejected by the 60% test of the other
    strategies. *)
Example sparse_period_below_threshold :
  try_parse_series (L := small_library) (series sparse_period_frame "Period") (6 # 10)
  = None.
Proof. reflexivity. Qed.

(** C6. A label can be accepted by two tests: [Opex: Sales] is both revenue
    and opex. *)
Lemma category_exclusivity_fails :
  ~ (forall (L : Library) (lbl : cell), at_most_one_category lbl).
Proof.
  intros H. specialize (H small_library (Str "Opex: Sales")).
  vm_compute in H. lia.
Qed.

(** C6, amended, on the label [Opex:Marketing]. *)
Lemma category_exclusive_witness :
  at_most_one_category (L := small_library) (Str "Opex:Marketing").
Proof.
  apply (category_exclusive_without_mixed_patterns (L := small_library)).
  vm_compute. lia.
Defined.


(** The scenario of the specification: 1000 EUR at the rate 1.1 is 1100 USD,
    and the row without a rate keeps its amount. *)
Example eur_scenario_amounts :
  match _fx_to_usd (L := small_library) eur_records eur_rates "amount" with
  | OK out =>
      map (fun r => Qeq_bool (cell_value (at_ r "amount_usd")) 1100) (rows out)
      = [true; false] /\
      map (fun r => Qeq_bool (cell_value (at_ r "amount_usd")) 500) (rows out)
      = [false; true]
  | Raise _ => False
  end.
Proof. vm_compute. split; reflexivity. Qed.

(** C3, on the same tables: the USD row has no rate and gets 1.0. *)
Lemma missing_rate_defaults_to_one_witness :
  exists out df1 fx1,
    _fx_to_usd (L := small_library) eur_records eur_rates "amount" = OK out /\
    _ensure_period_columns (L := small_library) (with_currency eur_records) = OK df1 /\
    _ensure_period_columns (L := small_library) eur_rates = OK fx1 /\
    forall r,
      In r (rows df1) ->
      (forall f, In f (rows fx1) -> key_match r f = false) ->
      exists o,
        In o (rows out) /\
        at_ o "rate_to_usd" = Num 1 /\
        forall c, c <> "rate_to_usd" -> c <> "amount_usd" -> at_ o c = at_ r c.
Proof.
  destruct (_fx_to_usd (L := small_library) eur_records eur_rates "amount")
    as [out | e] eqn:E; [| vm_compute in E; discriminate].
  destruct (missing_rate_defaults_to_one (L := small_library) _ _ _ _ E)
    as [df1 [fx1 [H1 [H2 H3]]]].
  exists out, df1, fx1. auto.
Defined.

(** C9. An [amount_usd] column of the input is an original column, and the
    converter overwrites it: 999 becomes 100 * 1.1. *)
Lemma converter_overwrites_amount_usd :
  ~ (forall (L : Library) (df fx : DataFrame) (amount_col : string)
            (out fx1 : DataFrame),
        _fx_to_usd df fx amount_col = OK out ->
        _ensure_period_columns fx = OK fx1 ->
        unique_fx_keys fx1 ->
        List.length (rows out) = List.length (rows df) /\
        Forall2 (fun r o =>
                   forall c, has_col df c = true -> c <> "period" ->
                             at_ o c = at_ r c)
                (rows df) (rows out)).
Proof.
  intros H.
  destruct (_fx_to_usd (L := small_library) priced_records eur_rates "amount")
    as [out | e] eqn:E; [| vm_compute in E; discriminate].
  destruct (_ensure_period_columns (L := small_library) eur_rates)
    as [fx1 | e] eqn:E1; [| vm_compute in E1; discriminate].
  assert (Hu : unique_fx_keys fx1).
  { vm_compute in E1. injection E1 as <-. repeat constructor. }
  destruct (H small_library _ _ _ _ _ E E1 Hu) as [_ HF].
  vm_compute in E. injection E as <-.
  inversion HF as [| r o l l' Hro _]; subst.
  assert (Hc : "amount_usd" <> "period") by discriminate.
  specialize (Hro "amount_usd" eq_refl Hc).
  vm_compute in Hro. discriminate.
Qed.

(** C9, amended, on the EUR scenario. *)
Lemma converter_keeps_rows_and_columns_witness :
  exists out fx1,
    _fx_to_usd (L := small_library) eur_records eur_rates "amount" = OK out /\
    _ensure_period_columns (L := small_library) eur_rates = OK fx1 /\
    unique_fx_keys fx1 /\
    List.length (rows out) = List.length (rows eur_records) /\
    Forall2 (fun r o =>
               (forall c, has_col eur_records c = true -> c <> "period" ->
                          c <> "amount_usd" -> at_ o c = at_ r c) /\
               (has_col eur_records "currency" = false -> at_ o "currency" = Str "USD"))
            (rows eur_records) (rows out).
Proof.
  destruct (_fx_to_usd (L := small_library) eur_records eur_rates "amount")
    as [out | e] eqn:E; [| vm_compute in E; discriminate].
  destruct (_ensure_period_columns (L := small_library) eur_rates)
    as [fx1 | e] eqn:E1; [| vm_compute in E1; discriminate].
  assert (Hu : unique_fx_keys fx1).
  { vm_compute in E1. injection E1 as <-. repeat constructor. }
  destruct (converter_keeps_rows_and_columns (L := small_library) _ _ _ _ _ E E1 Hu)
    as [H1 [H2 _]].
  exists out, fx1. auto.
Defined.


(** The scenario of the specification: three profitable months give an
    infinite runway whatever the cash balance. *)
Example profitable_runway_is_infinite (cash_amount : Q) :
  exists cash_usd,
    cash_runway_months (L := small_library) (profitable_files cash_amount)
    = OK (cash_usd, PInf).
Proof. eexists. vm_compute. reflexivity. Qed.

(** C7, on the company that burns 30 a month, with 300 and with 600 in
    cash, and against the profitable company with the same 300. *)
Lemma runway_monotone_witness :
  fle (Fin (900 # 90)) (Fin (1800 # 90)) /\ fle (Fin (900 # 90)) PInf.
Proof.
  assert (B3 : cash_runway_months (L := small_library) (burning_files 300)
               = OK (300, Fin (900 # 90))) by (vm_compute; reflexivity).
  assert (B6 : cash_runway_months (L := small_library) (burning_files 600)
               = OK (600, Fin (1800 # 90))) by (vm_compute; reflexivity).
  assert (P3 : cash_runway_months (L := small_library) (profitable_files 300)
               = OK (300, PInf)) by (vm_compute; reflexivity).
  assert (AB3 : avg_burn_of (L := small_library) (burning_files 300) = OK (Fin (90 # 3)))
    by (vm_compute; reflexivity).
  assert (AB6 : avg_burn_of (L := small_library) (burning_files 600) = OK (Fin (90 # 3)))
    by (vm_compute; reflexivity).
  assert (AP3 : avg_burn_of (L := small_library) (profitable_files 300)
                = OK (Fin (-60 # 3))) by (vm_compute; reflexivity).
  split.
  - destruct (runway_monotone _ _ _ _ _ _ _ _ B3 B6 AB3 AB6) as [Hcash _].
    apply Hcash; [reflexivity | vm_compute; discriminate].
  - destruct (runway_monotone _ _ _ _ _ _ _ _ P3 B3 AP3 AB3) as [_ Hburn].
    destruct (Hburn _ _ eq_refl eq_refl) as [Hle _];
      [reflexivity | reflexivity | vm_compute; discriminate | exact Hle].
Defined.


(** With the single month of the June scenario the table is empty. *)
Example monthly_comparison_single_month :
  monthly_comparison (L := small_library) june_files = OK empty_frame.
Proof. reflexivity. Qed.

(** With three months the table has the rows of May and June, and the
    changes stand on the row of June. *)
Example monthly_comparison_three_months :
  match monthly_comparison (L := small_library) (burning_files 300) with
  | OK out =>
      map (fun r => (label r, at_ r "period", map (fun c => notna (at_ r c)) change_columns))
          (rows out)
      = [(0%nat, Ts may_2025, [false; false; false; false]);
         (1%nat, Ts june_2025, [true; true; true; true])]
  | Raise _ => False
  end.
Proof. vm_compute. reflexivity. Qed.

(** C1, with an FX table that holds a EUR rate only and a cash file. *)
Lemma revenue_vs_budget_june_witness :
  revenue_vs_budget (L := small_library) june_files (Some "June 2025")
  = OK (100000, 90000, "June 2025").
Proof.
  destruct (load_data (L := small_library) june_files) as [d | e] eqn:E;
    [| vm_compute in E; discriminate].
  destruct (_ensure_period_columns (L := small_library) (fx d)) as [fx2 | e] eqn:E2;
    [| vm_compute in E; injection E as <-; vm_compute in E2; discriminate].
  apply (revenue_vs_budget_june (L := small_library) eur_rates june_cash d fx2
           (mkdate 2025 6 15) E).
  - vm_compute in E. injection E as <-. reflexivity.
  - vm_compute in E. injection E as <-. reflexivity.
  - exact E2.
  - vm_compute in E. injection E as <-. vm_compute in E2. injection E2 as <-.
    intros f [<- | []] [_ H]. vm_compute in H. discriminate.
  - reflexivity.
  - reflexivity.
  - reflexivity.
Defined.

(** C4. The month-over-month growth of [revenue_growth_analysis] over a month
    without revenue is not 0: after June at 0, July at 100 grows by
    [+inf]. *)
Lemma growth_over_zero_revenue_is_not_zero :
  ~ (forall (L : Library) (files : Fixtures) (l : list growth_row),
        revenue_growth_analysis files = OK l ->
        forall g, In g l ->
                  is_zero (prev_month_revenue g) -> is_zero (mom_growth_pct g)).
Proof.
  intros H.
  destruct (revenue_growth_analysis (L := small_library) restart_files)
    as [l | e] eqn:E; [| vm_compute in E; discriminate].
  pose proof (H small_library restart_files l E) as Hl.
  vm_compute in E. injection E as <-.
  refine (Hl _ (or_intror (or_introl eq_refl)) _).
  vm_compute. reflexivity.
Qed.

(** The same holds for the quarter-over-quarter growth: a quarter at 100
    after a quarter at 0 grows by [+inf]. *)
Example quarterly_growth_over_zero_revenue :
  option_map (fun t => (map q_gross_margin_pct (quarters t), revenue_qoq_growth t))
    (match quarterly_summary (L := small_library) restart_files with
     | OK t => Some t
     | Raise _ => None
     end)
  = Some ([0; 5000 # 100]%Q, Some [NaN; PInf]).
Proof. vm_compute. reflexivity. Qed.

(** The scenario of the specification: a period whose revenue is zero on every
    row has a null [gm_pct] in [gross_margin_trend], and the quarter has a
    [gross_margin_pct] of 0 in [quarterly_summary]. *)
Example zero_revenue_margins :
  option_map (map gm_pct)
    (match gross_margin_trend (L := small_library) restart_files 3 with
     | OK l => Some l
     | Raise _ => None
     end)
  = Some [NaN; Fin (5000 # 100)].
Proof. vm_compute. reflexivity. Qed.

(** The growth within a calendar month of [revenue_growth_analysis] over a
    zero denominator: June 2025 at 100 after June 2024 at 0 grows by [+inf],
    while its month-over-month growth, over May 2025 at 50, is finite. *)
Example yearly_growth_over_zero_revenue :
  option_map (map (fun g => (g_period g, isfinite (mom_growth_pct g), yoy_growth_pct g)))
    (match revenue_growth_analysis (L := small_library) june_gap_files with
     | OK l => Some l
     | Raise _ => None
     end)
  = Some [(mkdate 2024 6 1, false, NaN); (may_2025, false, NaN);
          (june_2025, true, PInf)].
Proof. vm_compute. reflexivity. Qed.

(** C4, on the company without revenue in June 2025, for the variance table
    of June, and on the company without revenue in June 2024, for the growth
    of June 2025 within its calendar month: the latest earlier June is at
    zero and the growth is not finite. *)
Lemma zero_denominator_policy_witness :
  (exists l lbl,
      budget_variance_analysis (L := small_library) restart_files (Some "June 2025")
      = OK (l, lbl) /\
      forall v, In v l -> (v_budget v == 0)%Q -> v_variance_pct v = 0) /\
  (exists l g before,
      revenue_growth_analysis (L := small_library) june_gap_files = OK l /\
      In g l /\ g_period g = june_2025 /\
      is_zero (previous_same_month (month (g_period g)) (List.rev before)) /\
      isfinite (yoy_growth_pct g) = false).
Proof.
  pose proof (zero_denominator_policy (L := small_library))
    as [Hvar [_ [_ [_ [_ [_ [_ [Hgrowth _]]]]]]]].
  split.
  - destruct (budget_variance_analysis (L := small_library) restart_files
                (Some "June 2025")) as [[l lbl] | e] eqn:E;
      [| vm_compute in E; discriminate].
    exists l, lbl. split; [reflexivity | exact (Hvar _ _ _ _ E)].
  - destruct (revenue_growth_analysis (L := small_library) june_gap_files)
      as [l | e] eqn:E; [| vm_compute in E; discriminate].
    destruct (Hgrowth _ _ E) as [d [revenue [Hd [Hrev Hrows]]]].
    vm_compute in Hd. injection Hd as <-.
    vm_compute in Hrev. injection Hrev as <-.
    vm_compute in E. injection E as <-.
    match type of Hrows with
    | forall g, In g [_; _; ?g3] -> _ =>
        destruct (Hrows g3 (or_intror (or_intror (or_introl eq_refl))))
          as [before [later [Hdec [_ [_ [_ [_ Hyoy]]]]]]];
        eexists; exists g3, before
    end.
    split; [reflexivity | split; [right; right; now left | split; [reflexivity |]]].
    match type of Hdec with
    | ?lhs = _ => let v := eval vm_compute in lhs in change lhs with v in Hdec
    end.
    cbn [g_period g_amount_usd] in Hdec.
    assert (Hzero : is_zero (previous_same_month
                               (month june_2025) (List.rev before))).
    { destruct before as [| b0 [| b1 [| b2 before]]]; cbn [app] in Hdec.
      - exfalso. congruence.
      - exfalso. congruence.
      - injection Hdec. intros. subst. vm_compute. reflexivity.
      - exfalso. injection Hdec. intros Hnil. intros.
        destruct before; discriminate Hnil. }
    split; [exact Hzero | exact (Hyoy Hzero)].
Defined.

(** * Further properties, on examples *)

(** X1, on the header of the records and on a header with year and month. *)
Lemma empty_table_period_witness :
  _ensure_period_columns (L := small_library) empty_records
  = Raise (no_time_column empty_records) /\
  _ensure_period_columns (L := small_library) empty_year_month
  = OK (mkDF [("Yr", DNumber); ("Mo", DObject); ("amount", DNumber);
              ("period", DDatetime)] []).
Proof.
  split.
  - exact (empty_table_period (L := small_library) empty_records eq_refl).
  - exact (empty_table_period (L := small_library) empty_year_month eq_refl).
Defined.

(** X2, on the table whose [Period] column parses on one row out of three. *)
Lemma period_normalizer_keeps_table_witness :
  exists out,
    _ensure_period_columns (L := small_library) sparse_period_frame = OK out /\
    has_col out "period" = true /\
    List.length (rows out) = 3%nat /\
    Forall2 (fun r o => label o = label r /\
                        forall c, c <> "period" -> at_ o c = at_ r c)
            (rows sparse_period_frame) (rows out).
Proof.
  destruct (_ensure_period_columns (L := small_library) sparse_period_frame)
    as [out | e] eqn:E; [| vm_compute in E; discriminate].
  destruct (period_normalizer_keeps_table (L := small_library) _ _ E)
    as [H1 [_ [_ [H4 H5]]]].
  exists out. auto.
Defined.

(** X3, on the same table. *)
Lemma period_fast_path_idempotent_witness :
  exists out out2,
    _ensure_period_columns (L := small_library) sparse_period_frame = OK out /\
    _ensure_period_columns (L := small_library) out = OK out2 /\
    columns out2 = columns out /\
    (forall c', series out2 c' = series out c').
Proof.
  destruct (_ensure_period_columns (L := small_library) sparse_period_frame)
    as [out | e] eqn:E; [| vm_compute in E; discriminate].
  destruct (period_fast_path_idempotent (L := small_library)
              sparse_period_frame "Period" out) as [out2 [H1 [H2 [H3 _]]]].
  - reflexivity.
  - apply Exists_cons_hd. vm_compute. discriminate.
  - exact E.
  - exists out, out2. auto.
Defined.

(** X4, on five dates of which three parse. *)
Lemma try_parse_series_threshold_witness :
  try_parse_series (L := small_library) three_of_five (6 # 10)
  = Some [Ts (mkdate 2025 1 1); NA; Ts (mkdate 2025 2 1); Ts (mkdate 2025 3 1); NA].
Proof.
  apply (proj1 (try_parse_series_threshold (L := small_library) three_of_five)).
  split; [discriminate | vm_compute; lia].
Defined.

(** X5, on the account column of the exported ledger. *)
Lemma standardize_schema_keeps_columns_witness :
  has_col (_standardize_schema (L := small_library) messy_ledger) "account_category"
  = true /\
  series (_standardize_schema (L := small_library) messy_ledger) "account_category"
  = [Str "Revenue"; Str "COGS"] /\
  List.length (rows (_standardize_schema (L := small_library) messy_ledger)) = 2%nat.
Proof.
  destruct (standardize_schema_keeps_columns (L := small_library) messy_ledger
              "Account Category" eq_refl) as [H1 [H2 [H3 _]]].
  auto.
Defined.

(** X6, on the month column of the exported ledger. *)
Lemma standardize_schema_names_witness :
  In "month" (names (_standardize_schema (L := small_library) messy_ledger)) /\
  lower "month" = "month" /\ contains " " "month" = false.
Proof.
  assert (H : In "month" (names (_standardize_schema (L := small_library) messy_ledger)))
    by (vm_compute; auto).
  split; [exact H |].
  exact (standardize_schema_names (L := small_library) messy_ledger "month" H).
Defined.

(** X7, on the exported ledger, whose amounts come from [Value], and on a
    ledger whose [amount] column is text. *)
Lemma standardize_schema_amount_witness :
  Forall numeric_cell
         (series (_standardize_schema (L := small_library) messy_ledger) "amount") /\
  series (_standardize_schema (L := small_library) text_amounts) "amount"
  = [Str "1200"].
Proof.
  split.
  - exact (proj1 (standardize_schema_amount (L := small_library) messy_ledger) eq_refl).
  - exact (proj2 (standardize_schema_amount (L := small_library) text_amounts) eq_refl).
Defined.

(** X8, on two records and an FX table that repeats the key of the first:
    the result has three rows. *)
Lemma converter_row_count_witness :
  exists out,
    _fx_to_usd (L := small_library) eur_records repeated_rates "amount" = OK out /\
    List.length (rows out) = 3%nat /\
    (List.length (rows eur_records) <= List.length (rows out))%nat.
Proof.
  destruct (_fx_to_usd (L := small_library) eur_records repeated_rates "amount")
    as [out | e] eqn:E; [| vm_compute in E; discriminate].
  destruct (converter_row_count (L := small_library) _ _ _ _ E)
    as [df1 [fx1 [H1 [H2 [H3 [H4 _]]]]]].
  exists out. split; [reflexivity | split; [| exact H4]].
  rewrite H3.
  vm_compute in H1. vm_compute in H2.
  injection H1 as <-. injection H2 as <-. reflexivity.
Defined.

(** X9, on the euro record and the June rate of the euro. *)
Lemma matched_rate_is_applied_witness :
  exists out o,
    _fx_to_usd (L := small_library) eur_records eur_rates "amount" = OK out /\
    In o (rows out) /\
    at_ o "rate_to_usd" = Num (11 # 10) /\
    at_ o "currency" = Str "EUR" /\ at_ o "amount" = Num 1000.
Proof.
  destruct (_fx_to_usd (L := small_library) eur_records eur_rates "amount")
    as [out | e] eqn:E; [| vm_compute in E; discriminate].
  destruct (matched_rate_is_applied (L := small_library) _ _ _ _ E)
    as [rc [df1 [fx1 [Hrc [H1 [H2 H]]]]]].
  vm_compute in Hrc. injection Hrc as <-.
  vm_compute in H1. injection H1 as <-.
  vm_compute in H2. injection H2 as <-.
  cbn [rows] in H.
  match type of H with
  | forall r f, In r (?r0 :: _) -> In f (?f0 :: _) -> _ =>
      destruct (H r0 f0 (or_introl eq_refl) (or_introl eq_refl) eq_refl)
        as [o [Ho [Hrate Hsame]]]
  end.
  exists out, o. split; [reflexivity | split; [exact Ho | split; [exact Hrate |]]].
  split.
  - rewrite Hsame by discriminate. reflexivity.
  - rewrite Hsame by discriminate. reflexivity.
Defined.

(** X10, on an FX table without rates, on one without currencies and on
    records that bear a column of rates. *)
Lemma converter_failures_witness :
  _fx_to_usd (L := small_library) eur_records fx_without_rates "amount"
  = Raise (ValueError "FX CSV must include 'rate_to_usd' or 'rate' column") /\
  (exists key, _fx_to_usd (L := small_library) eur_records fx_without_currency "amount"
               = Raise (KeyError key)) /\
  (exists key, _fx_to_usd (L := small_library) rated_records eur_rates "amount"
               = Raise (KeyError key)).
Proof.
  split; [| split].
  - exact (proj1 (converter_failures (L := small_library) eur_records fx_without_rates
                    "amount") eq_refl eq_refl).
  - destruct (_ensure_period_columns (L := small_library) (with_currency eur_records))
      as [df1 | e] eqn:E1; [| vm_compute in E1; discriminate].
    destruct (_ensure_period_columns (L := small_library) fx_without_currency)
      as [fx1 | e] eqn:E2; [| vm_compute in E2; discriminate].
    exact (proj2 (converter_failures (L := small_library) eur_records
                    fx_without_currency "amount")
                 "rate_to_usd" df1 fx1 eq_refl E1 E2 (or_introl eq_refl)).
  - destruct (_ensure_period_columns (L := small_library) (with_currency rated_records))
      as [df1 | e] eqn:E1; [| vm_compute in E1; discriminate].
    destruct (_ensure_period_columns (L := small_library) eur_rates)
      as [fx1 | e] eqn:E2; [| vm_compute in E2; discriminate].
    exact (proj2 (converter_failures (L := small_library) rated_records eur_rates
                    "amount")
                 "rate_to_usd" df1 fx1 eq_refl E1 E2 (or_intror eq_refl)).
Defined.

(** X11, on actuals that hold one revenue row: the revenue of June can be
    compared with its budget, but there is no EBITDA table and no runway. *)
Lemma ebitda_needs_every_category_witness :
  (exists e, ebitda_proxy (L := small_library) june_files = Raise e) /\
  (exists e, cash_runway_months (L := small_library) june_files = Raise e).
Proof.
  destruct (load_data (L := small_library) june_files) as [d | e] eqn:E;
    [| vm_compute in E; discriminate].
  apply (ebitda_needs_every_category (L := small_library) june_files d E).
  - vm_compute in E. injection E as <-. reflexivity.
  - right. left. vm_compute in E. injection E as <-. reflexivity.
Defined.

(** X12, on a record without an account whose entity reads as sales: it is
    no revenue, and no row of the cash table is. *)
Lemma unlabelled_rows_have_no_category_witness :
  map (_is_revenue_labels (L := small_library)
         (_label_series (L := small_library) entity_records))
      (rows entity_records) = [true; false] /\
  forall r, _is_revenue_labels (L := small_library)
              (_label_series (L := small_library) june_cash) r = false.
Proof.
  split.
  - pose proof (unlabelled_rows_have_no_category (L := small_library) entity_records
                  (nth 1 (rows entity_records) (mkrow 0 (fun _ => NA)))
                  (or_intror (or_introl (conj eq_refl eq_refl)))) as [H _].
    change (map (_is_revenue_labels (L := small_library)
                   (_label_series (L := small_library) entity_records))
                (rows entity_records))
      with [_is_revenue_labels (L := small_library)
              (_label_series (L := small_library) entity_records)
              (nth 0 (rows entity_records) (mkrow 0 (fun _ => NA)));
            _is_revenue_labels (L := small_library)
              (_label_series (L := small_library) entity_records)
              (nth 1 (rows entity_records) (mkrow 0 (fun _ => NA)))].
    rewrite H. reflexivity.
  - intros r.
    apply (unlabelled_rows_have_no_category (L := small_library) june_cash r).
    left. split; reflexivity.
Defined.

(** X13, on three months of actuals and of budget. *)
Lemma budget_variance_lines_add_up_witness :
  exists lines lbl,
    budget_variance_analysis (L := small_library) planned_files None = OK (lines, lbl) /\
    map v_category lines
    = ["Revenue"; "COGS"; "Operating Expenses"; "Gross Profit"; "EBITDA"] /\
    Forall (fun l => v_variance l = v_actual l - v_budget l) lines.
Proof.
  destruct (budget_variance_analysis (L := small_library) planned_files None)
    as [[lines lbl] | e] eqn:E; [| vm_compute in E; discriminate].
  destruct (budget_variance_lines_add_up (L := small_library) _ _ _ _ E)
    as [rev [cogs [opex [gp [ebitda [_ [H1 [H2 _]]]]]]]].
  exists lines, lbl. auto.
Defined.

(** X14, on the same files: the revenue of June against its budget. *)
Lemma revenue_tools_agree_witness :
  exists lines lbl a b,
    budget_variance_analysis (L := small_library) planned_files None = OK (lines, lbl) /\
    revenue_vs_budget (L := small_library) planned_files None = OK (a, b, lbl) /\
    hd_error lines = Some (variance_row_of "Revenue" a b).
Proof.
  destruct (budget_variance_analysis (L := small_library) planned_files None)
    as [[lines lbl] | e] eqn:E; [| vm_compute in E; discriminate].
  destruct (revenue_tools_agree (L := small_library) _ _ _ _ E) as [a [b [H1 H2]]].
  exists lines, lbl, a, b. auto.
Defined.

(** X15, on the files of June with an empty cash file. *)
Lemma load_data_needs_rows_witness :
  (exists e, load_data (L := small_library) no_cash_files = Raise e) /\
  (exists e, revenue_vs_budget (L := small_library) no_cash_files None = Raise e).
Proof.
  destruct (load_data_needs_rows (L := small_library) no_cash_files)
    as [H1 [H2 _]].
  - right. right. right. split; reflexivity.
  - split; [exact H1 | exact (H2 None)].
Defined.

(** X16, on three months of actuals and the last two of them. *)
Lemma gross_margin_trend_shape_witness :
  exists out,
    gross_margin_trend (L := small_library) (burning_files 300) 2 = OK out /\
    map gm_period out = [may_2025; june_2025] /\
    (List.length out <= 2)%nat /\ ascending gm_period out.
Proof.
  destruct (gross_margin_trend (L := small_library) (burning_files 300) 2)
    as [out | e] eqn:E; [| vm_compute in E; discriminate].
  destruct (gross_margin_trend_shape (L := small_library) _ _ _ E) as [H1 [H2 _]].
  exists out. split; [reflexivity | split; [| split; assumption]].
  vm_compute in E. injection E as <-. reflexivity.
Defined.

(** X17, on three months of actuals. *)
Lemma ebitda_proxy_rows_witness :
  exists e,
    ebitda_proxy (L := small_library) (burning_files 300) = OK e /\
    List.length e = 3%nat /\
    Forall (fun x => ebitda_proxy_usd x = revenue_usd x - cogs_usd x - opex_usd x) e.
Proof.
  destruct (ebitda_proxy (L := small_library) (burning_files 300))
    as [e | err] eqn:E; [| vm_compute in E; discriminate].
  destruct (ebitda_proxy_rows (L := small_library) _ _ E)
    as [d [rev [cogs [opex [Hd [_ [_ [_ [Hlen [_ Hrows]]]]]]]]]].
  exists e. split; [reflexivity | split].
  - rewrite Hlen. vm_compute in Hd. injection Hd as <-. reflexivity.
  - apply Forall_forall. intros x Hx. rewrite Forall_forall in Hrows.
    now apply Hrows.
Defined.

(** X18, on the revenue of June in two years, and on one year alone. *)
Lemma yearly_comparison_shape_witness :
  (exists out,
     yearly_comparison (L := small_library) two_year_files = OK out /\
     map y_month out = months_of_year) /\
  yearly_comparison (L := small_library) june_files = OK [].
Proof.
  split.
  - destruct (yearly_comparison (L := small_library) two_year_files)
      as [out | e] eqn:E; [| vm_compute in E; discriminate].
    destruct (yearly_comparison_shape (L := small_library) _ _ E) as [d [Hd [_ H]]].
    exists out. split; [reflexivity |].
    apply H. vm_compute in Hd. injection Hd as <-. discriminate.
  - destruct (yearly_comparison (L := small_library) june_files)
      as [out | e] eqn:E; [| vm_compute in E; discriminate].
    destruct (yearly_comparison_shape (L := small_library) _ _ E) as [d [Hd [H _]]].
    f_equal. apply H. vm_compute in Hd. injection Hd as <-. reflexivity.
Defined.

(** X19, on three months of actuals: the empty text asks for June, the
    latest month, and "March 2025" for a month that the actuals do not
    hold. *)
Lemma resolve_period_default_witness :
  (exists p, resolve_period (L := small_library) (Some "") burning_actuals = OK p /\
             p = Ts june_2025) /\
  resolve_period (L := small_library) (Some "March 2025") burning_actuals
  = OK (Ts (mkdate 2025 3 1)).
Proof.
  split.
  - destruct (proj1 (resolve_period_default (L := small_library) (Some "") burning_actuals)
                (or_intror eq_refl)) as [p [Hp _]].
    exists p. split; [exact Hp |].
    vm_compute in Hp. injection Hp as <-. reflexivity.
  - apply (proj2 (resolve_period_default (L := small_library) (Some "March 2025")
                    burning_actuals) "March 2025" (mkdate 2025 3 15));
      [reflexivity | discriminate | reflexivity].
Defined.

(** X20, on the June of three months of actuals. *)
Lemma pnl_statement_adds_up_witness :
  exists lines lbl revenue cogs gp gm opex_lines total ebitda,
    pnl_statement (L := small_library) (burning_files 300) None = OK (lines, lbl) /\
    lines = [revenue; cogs; gp; gm] ++ opex_lines ++ [total; ebitda] /\
    line_amount total == Qsum (map line_amount opex_lines) /\
    line_amount ebitda == line_amount gp + line_amount total.
Proof.
  destruct (pnl_statement (L := small_library) (burning_files 300) None)
    as [[lines lbl] | e] eqn:E; [| vm_compute in E; discriminate].
  destruct (pnl_statement_adds_up (L := small_library) _ _ _ _ E)
    as [revenue [cogs [gp [gm [opex_lines [total [ebitda [H1 [_ [_ [_ [H2 H3]]]]]]]]]]]].
  exists lines, lbl, revenue, cogs, gp, gm, opex_lines, total, ebitda. auto.
Defined.

(** X21, on a question about March 2025 to actuals from April to June. *)
Lemma pnl_statement_needs_every_category_witness :
  exists e, pnl_statement (L := small_library) (burning_files 300) (Some "March 2025")
            = Raise e.
Proof.
  destruct (load_data (L := small_library) (burning_files 300)) as [d | e] eqn:E;
    [| vm_compute in E; discriminate].
  apply (pnl_statement_needs_every_category (L := small_library)
           (burning_files 300) (Some "March 2025") d (Ts (mkdate 2025 3 1)) E).
  - reflexivity.
  - vm_compute in E. injection E as <-. reflexivity.
  - left. vm_compute in E. injection E as <-. reflexivity.
Defined.

(** X22, on the company that burns 30 a month, overdrawn by 300. *)
Lemma runway_is_defined_witness :
  exists cash_usd runway,
    cash_runway_months (L := small_library) (burning_files (- (300))) = OK (cash_usd, runway) /\
    (runway = PInf \/
     exists months, runway = Fin months /\
       (0 <= cash_usd -> 0 <= months) /\ (cash_usd <= 0 -> months <= 0)).
Proof.
  destruct (cash_runway_months (L := small_library) (burning_files (- (300))))
    as [[cash_usd runway] | e] eqn:E; [| vm_compute in E; discriminate].
  exists cash_usd, runway. split; [reflexivity |].
  exact (runway_is_defined (L := small_library) _ _ _ E).
Defined.

(** X23, on three months of actuals. *)
Lemma monthly_comparison_agrees_with_ebitda_witness :
  exists e out,
    ebitda_proxy (L := small_library) (burning_files 300) = OK e /\
    monthly_comparison (L := small_library) (burning_files 300) = OK out /\
    List.length (rows out) = 2%nat /\
    Forall (fun r => exists x, In x e /\ e_period x = at_ r "period" /\
                               at_ r "ebitda" = Num (ebitda_proxy_usd x))
           (rows out).
Proof.
  destruct (ebitda_proxy (L := small_library) (burning_files 300))
    as [e | err] eqn:E; [| vm_compute in E; discriminate].
  destruct (monthly_comparison (L := small_library) (burning_files 300))
    as [out | err] eqn:M; [| vm_compute in M; discriminate].
  pose proof (monthly_comparison_agrees_with_ebitda (L := small_library) _ _ _ E M) as H.
  exists e, out. split; [reflexivity | split; [reflexivity | split]].
  - vm_compute in M. injection M as <-. reflexivity.
  - apply Forall_forall. intros r Hr. rewrite Forall_forall in H.
    destruct (H r Hr) as [x [H1 [H2 [_ [_ [_ H3]]]]]]. exists x. auto.
Defined.

(** X24, on one quarter of actuals and on actuals of June and July. *)
Lemma quarterly_summary_shape_witness :
  (exists t, quarterly_summary (L := small_library) (burning_files 300) = OK t /\
             List.length (quarters t) = 1%nat /\ revenue_qoq_growth t = None) /\
  (exists t g, quarterly_summary (L := small_library) restart_files = OK t /\
               List.length (quarters t) = 2%nat /\
               revenue_qoq_growth t = Some (NaN :: g)).
Proof.
  split.
  - destruct (quarterly_summary (L := small_library) (burning_files 300))
      as [t | e] eqn:E; [| vm_compute in E; discriminate].
    destruct (quarterly_summary_shape (L := small_library) _ _ E)
      as [d [Hd [Hlen [_ [Hone _]]]]].
    assert (Hq : List.length (quarters_of d) = 1%nat)
      by (vm_compute in Hd; injection Hd as <-; reflexivity).
    exists t. split; [reflexivity | split; [congruence |]].
    apply Hone. lia.
  - destruct (quarterly_summary (L := small_library) restart_files)
      as [t | e] eqn:E; [| vm_compute in E; discriminate].
    destruct (quarterly_summary_shape (L := small_library) _ _ E)
      as [d [Hd [Hlen [_ [_ Htwo]]]]].
    assert (Hq : List.length (quarters_of d) = 2%nat)
      by (vm_compute in Hd; injection Hd as <-; reflexivity).
    destruct Htwo as [g [h [Hg _]]]; [lia |].
    exists t, g. split; [reflexivity | split; [congruence | exact Hg]].
Defined.
